(** * Shape inference of the ONNX neural-network operators (onnx/defs/nn/defs.cc)

    A shallow embedding of the type-and-shape inference functions of
    [onnx-1.2.2/onnx/defs/nn/defs.cc]:

    - [convPoolTypeAndShapeInference]  (Conv, AveragePool, MaxPool, LpPool)
    - [roiPoolTypeShapeInference]      (MaxRoiPool)
    - [convTransposeShapeInference]    (ConvTranspose)
    - [gloablPoolTypeShapeInference]   (GlobalAveragePool, GlobalMaxPool, GlobalLpPool)
    - the inference lambda of Flatten.

    The functions read an [InferenceContext] (attributes and input types) and
    mutate the type of output 0.  They leave by falling off the end, by
    [return;], or by [fail_shape_inference] (a C++ exception).  All of this is
    kept: the embedding is a state-and-exit monad over the output type.

    The first part of the file holds the definitions: the embedding, then the
    vocabulary of the statements.  The second part holds the proofs. *)

From Stdlib Require Import ZArith Lia.
From stdpp Require Import base option list strings pretty gmap.

Local Open Scope Z_scope.

(** * The embedding *)

(** ** 64-bit signed integers: [int64_t] values are integers of [Z]; every
    arithmetic operation of the source is followed by the two's-complement
    wrap-around. *)

Module Int64.

Definition min_signed : Z := - 2 ^ 63.
Definition max_signed : Z := 2 ^ 63 - 1.

Definition wrap (z : Z) : Z := (z + 2 ^ 63) mod 2 ^ 64 - 2 ^ 63.

(** [fits z]: [z] is representable as an [int64_t]. *)
Definition fits (z : Z) : Prop := min_signed <= z <= max_signed.

Definition add (a b : Z) : Z := wrap (a + b).
Definition sub (a b : Z) : Z := wrap (a - b).
Definition mul (a b : Z) : Z := wrap (a * b).

End Int64.

(** [static_cast<int>] of an [int64_t]: the low 32 bits, signed. *)
Definition static_cast_int (z : Z) : Z := (z + 2 ^ 31) mod 2 ^ 32 - 2 ^ 31.

(** ** Data model *)

(** Modelled from the spec: [TensorShapeProto::Dimension], generated protobuf
    code that is not part of defs.cc.  A dimension is a known integer
    ([dim_value]), a symbolic name ([dim_param]) or not set at all; reading
    [dim_value()] of a dimension without a value yields the default 0. *)
Inductive Dimension : Type :=
| DimValue (v : Z)
| DimParam (p : string)
| DimUnset.

Global Instance Dimension_inhabited : Inhabited Dimension := populate DimUnset.

Definition has_dim_value (d : Dimension) : bool :=
  match d with DimValue _ => true | _ => false end.

Definition dim_value (d : Dimension) : Z :=
  match d with DimValue v => v | _ => 0 end.

(** Modelled from the spec: the tensor case of [TypeProto]: an element type
    (0 is the protobuf default, UNDEFINED) and an optional shape. *)
Record TypeProto : Type := mkType {
  elem_type : Z;
  shape : option (list Dimension)
}.

(** A freshly constructed output type: nothing set. *)
Definition TypeProto_empty : TypeProto := mkType 0 None.

(** Modelled from the spec: [AttributeProto], an integer, a list of integers
    or a string.  Reading the list of an attribute that carries none yields
    the empty list, the protobuf default. *)
Inductive AttributeProto : Type :=
| INT (i : Z)
| INTS (ints : list Z)
| STRING (s : string).

Definition attr_ints (a : AttributeProto) : list Z :=
  match a with INTS l => l | _ => [] end.

(** Modelled from the spec: the read-only part of [InferenceContext]: the
    attribute table of the node and the types of its inputs ([None] for an
    input whose type is not available).  The mutable output type is the state
    of the monad [M] below. *)
Record InferenceContext : Type := mkCtx {
  attributes : gmap string AttributeProto;
  inputTypes : list (option TypeProto)
}.

(** ** Control flow *)

(** How a statement ends. *)
Inductive flow (A : Type) : Type :=
| Next (a : A)          (* falls through to the next statement *)
| Return                (* [return;] *)
| Throw (msg : string)  (* [fail_shape_inference(msg)] *)
| Undefined.            (* out-of-range read or integer division trap *)

Arguments Next {A} a.
Arguments Return {A}.
Arguments Throw {A} msg.
Arguments Undefined {A}.

(** A statement reads and writes the type of output 0. *)
Definition M (A : Type) : Type := TypeProto -> flow A * TypeProto.

Definition ret {A} (a : A) : M A := fun out => (Next a, out).

Definition bind {A B} (m : M A) (k : A -> M B) : M B :=
  fun out =>
    match m out with
    | (Next a, out') => k a out'
    | (Return, out') => (Return, out')
    | (Throw msg, out') => (Throw msg, out')
    | (Undefined, out') => (Undefined, out')
    end.

Declare Scope inference_scope.
Delimit Scope inference_scope with infer.
Notation "x <- m ;; k" := (bind m (fun x => k))
  (at level 20, m at level 99, k at level 200, only parsing) : inference_scope.
Notation "m ;; k" := (bind m (fun _ => k))
  (at level 100, k at level 200, only parsing, right associativity) : inference_scope.
Local Open Scope inference_scope.

Definition return_ {A} : M A := fun out => (Return, out).
Definition undefined {A} : M A := fun out => (Undefined, out).

(** Modelled from the spec: [fail_shape_inference], the macro that throws an
    [InferenceError]: a hard failure surfaced to the caller. *)
Definition fail_shape_inference {A} (msg : string) : M A :=
  fun out => (Throw msg, out).

(** [if (c) { m }] *)
Definition when (c : bool) (m : M unit) : M unit := if c then m else ret tt.

(** [for (i = from; ...; ++i) body(i)], [count] iterations. *)
Fixpoint for_ (from : nat) (count : nat) (body : nat -> M unit) : M unit :=
  match count with
  | O => ret tt
  | S count' => body from ;; for_ (S from) count' body
  end.

(** What the caller of an inference function observes. *)
Inductive outcome : Type :=
| Returned                  (* no error *)
| Failed (msg : string)     (* InferenceError *)
| UndefinedBehaviour.

Definition call (body : M unit) (out : TypeProto) : outcome * TypeProto :=
  match body out with
  | (Next _, out') => (Returned, out')
  | (Return, out') => (Returned, out')
  | (Throw msg, out') => (Failed msg, out')
  | (Undefined, out') => (UndefinedBehaviour, out')
  end.

(** ** Helpers of the inference library *)

(** [v[i]] on a [std::vector]; reading out of range is undefined. *)
Definition vec_at (v : list Z) (i : nat) : M Z :=
  match v !! i with Some x => ret x | None => undefined end.

(** [shape.dim(i)]; reading out of range is undefined. *)
Definition dim_at (s : list Dimension) (i : nat) : M Dimension :=
  match s !! i with Some d => ret d | None => undefined end.

(** [a / b] on [int64_t]: truncates toward zero; traps for [b = 0] and for
    [INT64_MIN / -1]. *)
Definition int64_div (a b : Z) : M Z :=
  if b =? 0 then undefined
  else if (a =? Int64.min_signed) && (b =? -1) then undefined
  else ret (Z.quot a b).

(** [ctx.getAttribute(name)]: the attribute or a null pointer. *)
Definition ctx_getAttribute (ctx : InferenceContext) (name : string)
  : option AttributeProto := attributes ctx !! name.

(** Modelled from the spec: [getAttribute(ctx, name, default)]: the value of
    the integer attribute, or the default when the attribute is absent (or
    carries no integer). *)
Definition getAttribute (ctx : InferenceContext) (name : string) (dflt : Z) : Z :=
  match ctx_getAttribute ctx name with
  | Some (INT i) => i
  | _ => dflt
  end.

(** Modelled from the spec: [getRepeatedAttribute(ctx, name, values)]:
    [Some values] stands for the result [true] with [values] filled in,
    [None] for [false]. *)
Definition getRepeatedAttribute (ctx : InferenceContext) (name : string)
  : option (list Z) := attr_ints <$> ctx_getAttribute ctx name.

(** Modelled from the spec: [hasInputShape(ctx, n)]: input [n] exists and its
    type carries a shape. *)
Definition hasInputShape (ctx : InferenceContext) (n : nat) : bool :=
  match inputTypes ctx !! n with
  | Some (Some ty) => bool_decide (is_Some (shape ty))
  | _ => false
  end.

(** Modelled from the spec: [hasNInputShapes(ctx, n)]: the first [n] inputs
    all have shapes. *)
Fixpoint hasNInputShapes (ctx : InferenceContext) (n : nat) : bool :=
  match n with
  | O => true
  | S n' => hasNInputShapes ctx n' && hasInputShape ctx n'
  end.

(** [ctx.getInputType(n)->tensor_type().shape()]; a missing input is a null
    pointer, a type without shape yields the empty default shape. *)
Definition getInputShape (ctx : InferenceContext) (n : nat) : M (list Dimension) :=
  match inputTypes ctx !! n with
  | Some (Some ty) => ret (default [] (shape ty))
  | _ => undefined
  end.

(** Modelled from the spec: [propagateElemTypeFromInputToOutput(ctx, i, 0)]:
    the element type of input [i] is written to output 0; nothing happens
    when the input has no type.  Only output 0 is modelled. *)
Definition propagateElemTypeFromInputToOutput
    (ctx : InferenceContext) (inputIndex outputIndex : nat) : M unit :=
  fun out =>
    match inputTypes ctx !! inputIndex with
    | Some (Some ty) => (Next tt, mkType (elem_type ty) (shape out))
    | _ => (Next tt, out)
    end.

(** [getOutputType(0)->mutable_tensor_type()->mutable_shape()]: the shape
    becomes present (empty if it was absent). *)
Definition mutable_shape : M unit :=
  fun out => (Next tt, mkType (elem_type out) (Some (default [] (shape out)))).

(** [output_shape->add_dim()]: appends an unset dimension and returns a
    pointer to it, here its index. *)
Definition add_dim : M nat :=
  fun out =>
    let ds := default [] (shape out) in
    (Next (length ds), mkType (elem_type out) (Some (ds ++ [DimUnset]))).

(** [*p = d] for a pointer [p] obtained from [add_dim]. *)
Definition assign_dim (p : nat) (d : Dimension) : M unit :=
  fun out =>
    (Next tt, mkType (elem_type out) (Some (<[p := d]> (default [] (shape out))))).

(** [p->set_dim_value(v)] *)
Definition set_dim_value (p : nat) (v : Z) : M unit := assign_dim p (DimValue v).

(** [*output_shape->add_dim() = d;] *)
Definition add_dim_copy (d : Dimension) : M unit :=
  p <- add_dim ;; assign_dim p d.

(** The loop that fills [kernel_shape] from the trailing dimensions of the
    second input:
    [for (i = 2; i < dim_size; ++i) { if (!has_dim_value) return; push_back }],
    run over the dimensions from index 2 on. *)
Fixpoint push_back_dim_values (ds : list Dimension) (kernel_shape : list Z)
  : M (list Z) :=
  match ds with
  | [] => ret kernel_shape
  | d :: ds' =>
      if negb (has_dim_value d) then return_
      else push_back_dim_values ds' (kernel_shape ++ [dim_value d])
  end.

(** ** convPoolTypeAndShapeInference (defs.cc, lines 27-148) *)

(** The body of the loop over the spatial axes (lines 126-147). *)
Definition convPool_axis (input_shape : list Dimension)
    (dilations pads strides kernel_shape : list Z) (i : nat) : M unit :=
  let kernel_shape_size := length kernel_shape in
  newdim <- add_dim ;;
  d <- dim_at input_shape (2 + i) ;;
  if negb (has_dim_value d) then ret tt (* continue *)
  else
    (* how big is the input, including padding *)
    let effective_input_size := dim_value d in
    pad_begin <- vec_at pads i ;;
    let effective_input_size := Int64.add effective_input_size pad_begin in
    pad_end <- vec_at pads (i + kernel_shape_size) ;;
    let effective_input_size := Int64.add effective_input_size pad_end in
    k <- vec_at kernel_shape i ;;
    let effective_kernel_size := k in
    (* accounting for dilation, how big is the kernel in this dimension *)
    dilation <- vec_at dilations i ;;
    let effective_kernel_size :=
      Int64.add (Int64.mul (Int64.sub effective_kernel_size 1) dilation) 1 in
    (* how many times we can move the kernel from its initial position,
       based on the stride *)
    stride <- vec_at strides i ;;
    strided_kernel_positions <-
      int64_div (Int64.sub effective_input_size effective_kernel_size) stride ;;
    (* add in the initial position *)
    set_dim_value newdim (Int64.add 1 strided_kernel_positions).

Definition convPool_body (ctx : InferenceContext)
    (use_dilation require_kernel_shape : bool) : M unit :=
  propagateElemTypeFromInputToOutput ctx 0 0 ;;
  (* we need the first input shape for this inference. *)
  when (negb (hasNInputShapes ctx 1)) return_ ;;
  (* if kernel shape is an input we need the shape of the second input. *)
  when (negb require_kernel_shape && negb (hasNInputShapes ctx 2)) return_ ;;
  (* don't bother with legacy auto_pad for now *)
  when (bool_decide (is_Some (ctx_getAttribute ctx "auto_pad"))) return_ ;;
  input_shape <- getInputShape ctx 0 ;;
  when (bool_decide (length input_shape < 2)%nat)
    (fail_shape_inference "Input tensor must have atleast 2 dimensions") ;;
  let n_input_dims := (length input_shape - 2)%nat in
  dilations <-
    match (if use_dilation then getRepeatedAttribute ctx "dilations" else None) with
    | Some dilations =>
        when (negb (bool_decide (length dilations = n_input_dims)))
          (fail_shape_inference "Attribute dilations has incorrect size") ;;
        ret dilations
    | None => ret (replicate n_input_dims 1)
    end ;;
  let groups := getAttribute ctx "group" 1 in
  when (negb (groups =? 1)) return_ ;; (* we don't handle the group case. *)
  pads <-
    match getRepeatedAttribute ctx "pads" with
    | Some pads =>
        when (negb (bool_decide (length pads = (n_input_dims * 2)%nat)))
          (fail_shape_inference "Attribute pads has incorrect size") ;;
        ret pads
    | None => ret (replicate (n_input_dims * 2) 0)
    end ;;
  strides <-
    match getRepeatedAttribute ctx "strides" with
    | Some strides =>
        when (negb (bool_decide (length strides = n_input_dims)))
          (fail_shape_inference "Attribute strides has incorrect size") ;;
        ret strides
    | None => ret (replicate n_input_dims 1)
    end ;;
  kernel_shape <-
    match getRepeatedAttribute ctx "kernel_shape" with
    | Some kernel_shape =>
        when (negb (bool_decide (length kernel_shape = n_input_dims)))
          (fail_shape_inference "Attribute kernel_shape has incorrect size") ;;
        ret kernel_shape
    | None =>
        if require_kernel_shape then
          fail_shape_inference "Attribute kernel_shape must be specified"
        else
          second_input_shape <- getInputShape ctx 1 ;;
          push_back_dim_values (drop 2 second_input_shape) []
    end ;;
  mutable_shape ;;
  (if require_kernel_shape then
     (* add the first two dimensions from the input. *)
     d0 <- dim_at input_shape 0 ;; add_dim_copy d0 ;;
     d1 <- dim_at input_shape 1 ;; add_dim_copy d1
   else
     d0 <- dim_at input_shape 0 ;; add_dim_copy d0 ;;
     second_input_shape <- getInputShape ctx 1 ;;
     when (bool_decide (length second_input_shape < 1)%nat)
       (fail_shape_inference "Second input tensor has wrong dimension") ;;
     c0 <- dim_at second_input_shape 0 ;; add_dim_copy c0) ;;
  let kernel_shape_size := length kernel_shape in
  for_ 0 kernel_shape_size
    (convPool_axis input_shape dilations pads strides kernel_shape).

Definition convPoolTypeAndShapeInference (ctx : InferenceContext)
    (use_dilation require_kernel_shape : bool) : TypeProto -> outcome * TypeProto :=
  call (convPool_body ctx use_dilation require_kernel_shape).

(** The registered inference functions of the four sliding-window operators
    (lines 224, 316, 503). *)
Inductive SlidingWindowOp : Type := Conv | AveragePool | MaxPool | LpPool.

Definition use_dilation_of (op : SlidingWindowOp) : bool :=
  match op with Conv => true | _ => false end.

Definition require_kernel_shape_of (op : SlidingWindowOp) : bool :=
  match op with Conv => false | _ => true end.

Definition infer_sliding_window (op : SlidingWindowOp) (ctx : InferenceContext)
  : TypeProto -> outcome * TypeProto :=
  convPoolTypeAndShapeInference ctx (use_dilation_of op) (require_kernel_shape_of op).

(** ** roiPoolTypeShapeInference (defs.cc, lines 330-368) *)

Definition roiPool_body (ctx : InferenceContext) : M unit :=
  propagateElemTypeFromInputToOutput ctx 0 0 ;;
  (* rois is the second input. *)
  when (negb (hasNInputShapes ctx 2)) return_ ;;
  input_shape <- getInputShape ctx 0 ;;
  rios_shape <- getInputShape ctx 1 ;;
  when (bool_decide (length input_shape < 2)%nat)
    (fail_shape_inference "Input tensor must have at least 2 dimensions") ;;
  when (negb (bool_decide (length rios_shape = 2%nat)))
    (fail_shape_inference "RoIs tensor must have 2 dimensions") ;;
  (* first dim is the batch axis and the next is the number of channels. *)
  let n_input_dims := (length input_shape - 2)%nat in
  pooled_shape <-
    match getRepeatedAttribute ctx "pooled_shape" with
    | Some pooled_shape =>
        when (negb (bool_decide (length pooled_shape = n_input_dims)))
          (fail_shape_inference "Attribute pooled_shape has incorrect length") ;;
        ret pooled_shape
    | None => fail_shape_inference "Attribute pooled_shape must be specified"
    end ;;
  (* (num_rois, channels, pooled_shape[0], pooled_shape[1]) *)
  mutable_shape ;;
  r0 <- dim_at rios_shape 0 ;; add_dim_copy r0 ;;
  c1 <- dim_at input_shape 1 ;; add_dim_copy c1 ;;
  h <- add_dim ;; p0 <- vec_at pooled_shape 0 ;; set_dim_value h p0 ;;
  w <- add_dim ;; p1 <- vec_at pooled_shape 1 ;; set_dim_value w p1.

Definition roiPoolTypeShapeInference (ctx : InferenceContext)
  : TypeProto -> outcome * TypeProto := call (roiPool_body ctx).

(** ** convTransposeShapeInference (defs.cc, lines 516-635) *)

(** The body of the loop over an explicit [output_shape] (lines 606-614). *)
Definition convTranspose_given_axis (input_shape : list Dimension)
    (output_shape : list Z) (i : nat) : M unit :=
  o <- vec_at output_shape i ;;
  d <- dim_at input_shape (i + 2) ;;
  (* output shape value cannot be smaller than the input shape value *)
  when (o <? dim_value d) return_ ;; (* TODO: throw exception? *)
  newdim <- add_dim ;;
  set_dim_value newdim o.

(** The body of the loop that applies the formula (lines 619-634). *)
Definition convTranspose_axis (input_shape : list Dimension)
    (pads strides kernel_shape output_padding : list Z) (i : nat) : M unit :=
  let kernel_shape_size := length kernel_shape in
  newdim <- add_dim ;;
  d <- dim_at input_shape (2 + i) ;;
  if negb (has_dim_value d) then ret tt (* continue *)
  else
    stride <- vec_at strides i ;;
    let newdim_value := Int64.mul stride (Int64.sub (dim_value d) 1) in
    op <- vec_at output_padding i ;;
    k <- vec_at kernel_shape i ;;
    let newdim_value := Int64.add newdim_value (Int64.add op k) in
    pad_begin <- vec_at pads i ;;
    let newdim_value := Int64.sub newdim_value pad_begin in
    pad_end <- vec_at pads (i + kernel_shape_size) ;;
    let newdim_value := Int64.sub newdim_value pad_end in
    set_dim_value newdim newdim_value.

Definition convTranspose_body (ctx : InferenceContext) : M unit :=
  propagateElemTypeFromInputToOutput ctx 0 0 ;;
  (* we need at least two inputs to have a shape for this inference. *)
  when (negb (hasNInputShapes ctx 2)) return_ ;;
  (* don't bother with legacy auto_pad for now *)
  when (bool_decide (is_Some (ctx_getAttribute ctx "auto_pad"))) return_ ;;
  input_shape <- getInputShape ctx 0 ;;
  (* Input tensor should have at least two dimensions. *)
  when (bool_decide (length input_shape < 2)%nat) return_ ;;
  let n_input_dims := (length input_shape - 2)%nat in
  let groups := getAttribute ctx "group" 1 in
  when (negb (groups =? 1)) return_ ;; (* we don't handle the group case. *)
  (* we don't handle the dialations. *)
  when (bool_decide (is_Some (getRepeatedAttribute ctx "dilations"))) return_ ;;
  pads <-
    match getRepeatedAttribute ctx "pads" with
    | Some pads =>
        when (negb (bool_decide (length pads = (n_input_dims * 2)%nat))) return_ ;;
        ret pads
    | None => ret (replicate (n_input_dims * 2) 0)
    end ;;
  strides <-
    match getRepeatedAttribute ctx "strides" with
    | Some strides =>
        when (negb (bool_decide (length strides = n_input_dims))) return_ ;;
        ret strides
    | None => ret (replicate n_input_dims 1)
    end ;;
  kernel_shape <-
    match getRepeatedAttribute ctx "kernel_shape" with
    | Some kernel_shape =>
        when (negb (bool_decide (length kernel_shape = n_input_dims))) return_ ;;
        ret kernel_shape
    | None =>
        second_input_shape <- getInputShape ctx 1 ;;
        push_back_dim_values (drop 2 second_input_shape) []
    end ;;
  output_shape <-
    match getRepeatedAttribute ctx "output_shape" with
    | Some output_shape =>
        when (negb (bool_decide (length output_shape = n_input_dims))) return_ ;;
        ret output_shape
    | None => ret []
    end ;;
  output_padding <-
    match getRepeatedAttribute ctx "output_padding" with
    | Some output_padding =>
        (* Added only to one side. *)
        when (negb (bool_decide (length output_padding = n_input_dims))) return_ ;;
        ret output_padding
    | None => ret (replicate n_input_dims 0)
    end ;;
  mutable_shape ;;
  d0 <- dim_at input_shape 0 ;; add_dim_copy d0 ;;
  (* channels should be the second dim of second input. *)
  second_input_shape <- getInputShape ctx 1 ;;
  c1 <- dim_at second_input_shape 1 ;; add_dim_copy c1 ;;
  let size_of_output := length output_shape in
  if bool_decide (0 < size_of_output)%nat then
    for_ 0 size_of_output (convTranspose_given_axis input_shape output_shape) ;;
    return_ (* assume no need to proceed further when the output shape is given. *)
  else
    let kernel_shape_size := length kernel_shape in
    for_ 0 kernel_shape_size
      (convTranspose_axis input_shape pads strides kernel_shape output_padding).

Definition convTransposeShapeInference (ctx : InferenceContext)
  : TypeProto -> outcome * TypeProto := call (convTranspose_body ctx).

(** ** gloablPoolTypeShapeInference (defs.cc, lines 744-769) *)

Definition gloablPool_body (ctx : InferenceContext) : M unit :=
  propagateElemTypeFromInputToOutput ctx 0 0 ;;
  (* needs at least one input with shape. *)
  when (negb (hasNInputShapes ctx 1)) return_ ;;
  input_shape <- getInputShape ctx 0 ;;
  when (bool_decide (length input_shape < 2)%nat) return_ ;;
  (* first dim is the batch axis and the next is the number of channels. *)
  let n_input_dims := (length input_shape - 2)%nat in
  (* (N, C, 1, 1, ..., 1) *)
  mutable_shape ;;
  d0 <- dim_at input_shape 0 ;; add_dim_copy d0 ;;
  d1 <- dim_at input_shape 1 ;; add_dim_copy d1 ;;
  for_ 0 n_input_dims (fun i =>
    p <- add_dim ;; set_dim_value p 1).

Definition gloablPoolTypeShapeInference (ctx : InferenceContext)
  : TypeProto -> outcome * TypeProto := call (gloablPool_body ctx).

(** ** Flatten (defs.cc, lines 1112-1129) *)

(** Modelled from the spec: the product of two dimensions, missing from
    defs.cc: "if any contributing input dimension is unknown, the
    corresponding product dimension becomes unknown". *)
Definition Dimension_mul (d1 d2 : Dimension) : Dimension :=
  if has_dim_value d1 && has_dim_value d2
  then DimValue (dim_value d1 * dim_value d2)
  else DimUnset.

(** Modelled from the spec: [multiplyDims(shape, from, upto_exclusive)],
    missing from defs.cc: the product of the dimensions [from, upto), starting
    from the known value 1. *)
Definition multiplyDims (s : list Dimension) (from upto_exclusive : nat) : Dimension :=
  foldl Dimension_mul (DimValue 1) (take (upto_exclusive - from) (drop from s)).

(** Modelled from the spec: [updateOutputShape(ctx, 0, dims)], missing from
    defs.cc: the listed dimensions are added, in order, to the shape of
    output 0. *)
Definition updateOutputShape (dims : list Dimension) : M unit :=
  mutable_shape ;; foldr (fun d k => add_dim_copy d ;; k) (ret tt) dims.

Definition Flatten_body (ctx : InferenceContext) : M unit :=
  propagateElemTypeFromInputToOutput ctx 0 0 ;;
  when (negb (hasInputShape ctx 0)) return_ ;;
  input_shape <- getInputShape ctx 0 ;;
  let rank := Z.of_nat (length input_shape) in
  let axis := static_cast_int (getAttribute ctx "axis" 1) in
  when ((axis >? rank) || (axis <? 0))
    (fail_shape_inference
       ("Invalid value(" +:+ pretty axis +:+ ") for attribute 'axis'")) ;;
  (* TODO: is the operation defined for input-rank < 2? *)
  updateOutputShape
    [multiplyDims input_shape 0 (Z.to_nat axis);
     multiplyDims input_shape (Z.to_nat axis) (Z.to_nat rank)].

Definition Flatten_TypeAndShapeInferenceFunction (ctx : InferenceContext)
  : TypeProto -> outcome * TypeProto := call (Flatten_body ctx).

(** * The vocabulary of the statements *)

(** ** Contexts of the examples *)

Definition FLOAT : Z := 1.

Definition tensor (ds : list Dimension) : option TypeProto :=
  Some (mkType FLOAT (Some ds)).

Definition known (vs : list Z) : list Dimension := DimValue <$> vs.

Definition pool_2x2_ctx : InferenceContext :=
  mkCtx (<["kernel_shape" := INTS [2; 2]]> (<["strides" := INTS [2; 2]]> ∅))
        [tensor (known [1; 3; 4; 4])].

Definition flatten_ctx (axis : Z) : InferenceContext :=
  mkCtx (<["axis" := INT axis]> ∅) [tensor (known [2; 3; 4])].

(** ** Sliding-window operators *)

(** The formula of the specification, with the quotient rounded down. *)
Definition effective_kernel (kernel dilation : Z) : Z := (kernel - 1) * dilation + 1.

Definition window_positions
    (input_dim pad_before pad_after kernel dilation : Z) : Z :=
  input_dim + pad_before + pad_after - effective_kernel kernel dilation.

Definition sliding_window_dim
    (input_dim pad_before pad_after kernel dilation stride : Z) : Z :=
  window_positions input_dim pad_before pad_after kernel dilation / stride + 1.

(** The same formula with the quotient of C++, truncated toward zero. *)
Definition sliding_window_dim_trunc
    (input_dim pad_before pad_after kernel dilation stride : Z) : Z :=
  window_positions input_dim pad_before pad_after kernel dilation ÷ stride + 1.

(** The arithmetic of one axis neither traps nor leaves [int64_t]. *)
Definition axis_defined
    (input_dim pad_before pad_after kernel dilation stride : Z) : Prop :=
  stride <> 0 /\
  Int64.fits (window_positions input_dim pad_before pad_after kernel dilation) /\
  Int64.fits (sliding_window_dim_trunc input_dim pad_before pad_after kernel dilation stride).

(** The six numbers of spatial axis [i]: input size, begin and end padding,
    kernel, dilation and stride, given to [f]. *)
Definition at_axis {R} (f : Z -> Z -> Z -> Z -> Z -> Z -> R)
    (xs pads kernel dilations strides : list Z) (i : nat) : R :=
  f (xs !!! i) (pads !!! i) (pads !!! (i + length kernel)%nat)
    (kernel !!! i) (dilations !!! i) (strides !!! i).

(** A repeated attribute is well formed when it is absent or has the
    expected number of entries. *)
Definition well_formed (ctx : InferenceContext) (name : string) (expected : nat) : Prop :=
  forall v, getRepeatedAttribute ctx name = Some v -> length v = expected.

Definition malformed (ctx : InferenceContext) (name : string) (expected : nat) : Prop :=
  exists v, getRepeatedAttribute ctx name = Some v /\ length v <> expected.

Definition attr_or_default (ctx : InferenceContext) (name : string)
    (expected : nat) (dflt : Z) : list Z :=
  default (replicate expected dflt) (getRepeatedAttribute ctx name).

Definition second_input_dims (ctx : InferenceContext) : option (list Dimension) :=
  match inputTypes ctx !! 1%nat with
  | Some (Some ty) => shape ty
  | _ => None
  end.

(** The values of a list of dimensions that are all known. *)
Fixpoint known_values (ds : list Dimension) : option (list Z) :=
  match ds with
  | [] => Some []
  | DimValue v :: ds' => cons v <$> known_values ds'
  | _ :: _ => None
  end.

(** The kernel shape an operator resolves: the attribute, or, when the
    attribute is optional (Conv, ConvTranspose), the trailing dimensions of
    the second input when all of them are known. *)
Definition resolved_kernel (require_kernel_shape : bool) (ctx : InferenceContext)
  : option (list Z) :=
  match getRepeatedAttribute ctx "kernel_shape" with
  | Some k => Some k
  | None =>
      if require_kernel_shape then None
      else match second_input_dims ctx with
           | Some ws => known_values (drop 2 ws)
           | None => None
           end
  end.

(** The channel dimension of the output: the channel dimension [c] of the
    first input for pooling, the leading dimension of the weights for Conv. *)
Definition channel_dim (op : SlidingWindowOp) (ctx : InferenceContext)
    (c : Dimension) : option Dimension :=
  if require_kernel_shape_of op then Some c
  else match second_input_dims ctx with
       | Some ws => ws !! 0%nat
       | None => None
       end.

Definition resolved_dilations (op : SlidingWindowOp) (ctx : InferenceContext)
    (n : nat) : list Z :=
  if use_dilation_of op then attr_or_default ctx "dilations" n 1 else replicate n 1.

Definition sliding_window_dims (round : Z -> Z -> Z -> Z -> Z -> Z -> Z)
    (xs pads kernel dilations strides : list Z) : list Dimension :=
  (fun i => DimValue (at_axis round xs pads kernel dilations strides i))
    <$> seq 0 (length xs).

(** A kernel of 3 on an input of 2 with stride 2: the numerator is -1, the
    code's quotient is 0 and the output dimension 1, while the floor of the
    specification gives 0. *)
Definition pool_3x3_on_2x2_ctx : InferenceContext :=
  mkCtx (<["kernel_shape" := INTS [3; 3]]> (<["strides" := INTS [2; 2]]> ∅))
        [tensor (known [1; 1; 2; 2])].

(** ** Silent skips and hard failures *)

(** The state after the first statement of every inference function. *)
Definition propagated (ctx : InferenceContext) (out : TypeProto) : TypeProto :=
  snd (propagateElemTypeFromInputToOutput ctx 0 0 out).

(** A silent skip: the function returns without error and the shape of the
    output is what it was before the call. *)
Definition skips (out : TypeProto) (r : outcome * TypeProto) : Prop :=
  fst r = Returned /\ shape (snd r) = shape out.

(** The attribute combinations ConvTranspose does not handle. *)
Definition convTranspose_unsupported (ctx : InferenceContext) : Prop :=
  is_Some (ctx_getAttribute ctx "auto_pad") \/
  is_Some (getRepeatedAttribute ctx "dilations") \/
  getAttribute ctx "group" 1 <> 1.

(** Some repeated attribute of ConvTranspose has the wrong number of entries
    for an input of spatial rank [n]. *)
Definition convTranspose_malformed (ctx : InferenceContext) (n : nat) : Prop :=
  malformed ctx "pads" (n * 2) \/
  malformed ctx "strides" n \/
  malformed ctx "kernel_shape" n \/
  malformed ctx "output_shape" n \/
  malformed ctx "output_padding" n.

(** Some repeated attribute that the operator checks has the wrong number of
    entries for an input of spatial rank [n]; [dilations] is only read by
    Conv. *)
Definition sliding_window_malformed (op : SlidingWindowOp)
    (ctx : InferenceContext) (n : nat) : Prop :=
  (use_dilation_of op = true /\ malformed ctx "dilations" n) \/
  malformed ctx "pads" (n * 2) \/
  malformed ctx "strides" n \/
  malformed ctx "kernel_shape" n.

(** A pads attribute with 3 entries on an operator with 2 spatial axes. *)
Definition pads3_attributes : gmap string AttributeProto :=
  <["pads" := INTS [0; 0; 0]]> (<["kernel_shape" := INTS [3; 3]]> ∅).

Definition pads3_ctx : InferenceContext :=
  mkCtx pads3_attributes [tensor (known [1; 1; 4; 4]); tensor (known [1; 1; 3; 3])].

Definition group2_attributes : gmap string AttributeProto :=
  <["group" := INT 2]> (<["kernel_shape" := INTS [3; 3]]> ∅).

Definition group2_ctx : InferenceContext :=
  mkCtx group2_attributes [tensor (known [1; 4; 8; 8]); tensor (known [4; 2; 3; 3])].

(** Conv with group = 2 and a dilations attribute of one entry on two
    spatial axes: the size check of dilations comes first and fails. *)
Definition group2_dilations1_ctx : InferenceContext :=
  mkCtx (<["dilations" := INTS [1]]> group2_attributes)
        [tensor (known [1; 4; 8; 8]); tensor (known [4; 2; 3; 3])].

(** ** ConvTranspose *)

(** What is left of ConvTranspose once every guard is passed: the loop over an
    explicit output shape, or the loop applying the formula. *)
Definition convTranspose_output (input_shape : list Dimension)
    (pads strides kernel_shape output_shape output_padding : list Z) : M unit :=
  if bool_decide (0 < length output_shape)%nat then
    for_ 0 (length output_shape) (convTranspose_given_axis input_shape output_shape) ;;
    return_
  else
    for_ 0 (length kernel_shape)
      (convTranspose_axis input_shape pads strides kernel_shape output_padding).

(** The guards of ConvTranspose are passed: both input shapes are known, the
    first has rank at least 2 and the second too, none of the unsupported
    attributes is used, the repeated attributes are well formed and the
    kernel shape is resolved. *)
Record convTranspose_ready (ctx : InferenceContext) (ty0 : TypeProto)
    (n c : Dimension) (spatial : list Dimension) (m ch : Dimension)
    (kernel : list Z) : Prop := {
  ready_input : inputTypes ctx !! 0%nat = Some (Some ty0);
  ready_shape : shape ty0 = Some (n :: c :: spatial);
  ready_weights : exists wrest, second_input_dims ctx = Some (m :: ch :: wrest);
  ready_auto_pad : ctx_getAttribute ctx "auto_pad" = None;
  ready_group : getAttribute ctx "group" 1 = 1;
  ready_dilations : getRepeatedAttribute ctx "dilations" = None;
  ready_pads : well_formed ctx "pads" (length spatial * 2);
  ready_strides : well_formed ctx "strides" (length spatial);
  ready_kernel_attr : well_formed ctx "kernel_shape" (length spatial);
  ready_kernel : resolved_kernel false ctx = Some kernel;
  ready_output_shape : well_formed ctx "output_shape" (length spatial);
  ready_output_padding : well_formed ctx "output_padding" (length spatial)
}.

(** The formula of the specification for one axis of ConvTranspose. *)
Definition convtranspose_dim
    (stride input_dim output_padding kernel pad_before pad_after : Z) : Z :=
  stride * (input_dim - 1) + output_padding + kernel - pad_before - pad_after.

Definition convtranspose_axis_dim
    (xs pads strides kernel output_padding : list Z) (i : nat) : Z :=
  convtranspose_dim (strides !!! i) (xs !!! i) (output_padding !!! i)
    (kernel !!! i) (pads !!! i) (pads !!! (i + length kernel)%nat).

Definition convtranspose_dims
    (xs pads strides kernel output_padding : list Z) : list Dimension :=
  (fun i => DimValue (convtranspose_axis_dim xs pads strides kernel output_padding i))
    <$> seq 0 (length xs).

(** The entries of an explicit output shape that the loop writes: the longest
    prefix whose entries are not smaller than [dim_value()] of the input
    dimension of the same axis. *)
Fixpoint accepted (output_shape : list Z) (spatial : list Dimension) : list Z :=
  match output_shape, spatial with
  | o :: os, d :: ds => if o <? dim_value d then [] else o :: accepted os ds
  | _, _ => []
  end.

(** Contexts for ConvTranspose: a 3x3 input, 3x3 kernels taken from the
    weights. *)
Definition convtranspose_ctx (attrs : gmap string AttributeProto)
    (spatial : list Dimension) : InferenceContext :=
  mkCtx attrs [tensor (DimValue 1 :: DimValue 2 :: spatial);
               tensor (known [2; 4; 3; 3])].

Definition strided_attributes : gmap string AttributeProto :=
  <["strides" := INTS [2; 2]]>
    (<["pads" := INTS [1; 1; 1; 1]]> (<["output_padding" := INTS [1; 1]]> ∅)).

Definition output_shape_attributes (os : list Z) : gmap string AttributeProto :=
  <["output_shape" := INTS os]> ∅.

(** ** MaxRoiPool *)

Definition roi_ctx (input_dims : list Dimension) (pooled_shape : list Z)
  : InferenceContext :=
  mkCtx (<["pooled_shape" := INTS pooled_shape]> ∅)
        [tensor input_dims; tensor [DimParam "num_rois"; DimValue 5]].

(** ** Flatten and the element type *)

(** The product of the specification: the product of the values when every
    dimension is known, an unknown dimension otherwise. *)
Definition product_dim (ds : list Dimension) : Dimension :=
  match known_values ds with
  | Some vs => DimValue (foldr Z.mul 1 vs)
  | None => DimUnset
  end.

(** [d] is the product of the dimensions [ds]: their product when all are
    known, a dimension without value as soon as one of them is unknown. *)
Definition is_product (d : Dimension) (ds : list Dimension) : Prop :=
  match known_values ds with
  | Some vs => d = DimValue (foldr Z.mul 1 vs)
  | None => has_dim_value d = false
  end.

(** The axis as the lambda of Flatten reads it. *)
Definition flatten_axis (ctx : InferenceContext) : Z :=
  static_cast_int (getAttribute ctx "axis" 1).

(** The inference functions of the file. *)
Inductive InferenceFunction : Type :=
| ConvPoolInference (use_dilation require_kernel_shape : bool)
| RoiPoolInference
| ConvTransposeInference
| GlobalPoolInference
| FlattenInference.

Definition body_of (f : InferenceFunction) (ctx : InferenceContext) : M unit :=
  match f with
  | ConvPoolInference use_dilation require_kernel_shape =>
      convPool_body ctx use_dilation require_kernel_shape
  | RoiPoolInference => roiPool_body ctx
  | ConvTransposeInference => convTranspose_body ctx
  | GlobalPoolInference => gloablPool_body ctx
  | FlattenInference => Flatten_body ctx
  end.

Definition infer (f : InferenceFunction) (ctx : InferenceContext)
  : TypeProto -> outcome * TypeProto :=
  match f with
  | ConvPoolInference use_dilation require_kernel_shape =>
      convPoolTypeAndShapeInference ctx use_dilation require_kernel_shape
  | RoiPoolInference => roiPoolTypeShapeInference ctx
  | ConvTransposeInference => convTransposeShapeInference ctx
  | GlobalPoolInference => gloablPoolTypeShapeInference ctx
  | FlattenInference => Flatten_TypeAndShapeInferenceFunction ctx
  end.

(** A statement that leaves the element type of the output as it is. *)
Definition keeps_elem_type {A} (m : M A) : Prop :=
  forall out, elem_type (snd (m out)) = elem_type out.

(** ** Vocabulary of the further properties *)

(** The output dimension of spatial axis [i] of a sliding-window operator
    when the input dimension may be unknown: the loop leaves the new
    dimension unset for an input dimension without a value, symbolic or
    not. *)
Definition sliding_window_axis (spatial : list Dimension)
    (pads kernel dilations strides : list Z) (i : nat) : Dimension :=
  let d := spatial !!! i in
  if has_dim_value d
  then DimValue (sliding_window_dim_trunc (dim_value d) (pads !!! i)
                   (pads !!! (i + length kernel)%nat)
                   (kernel !!! i) (dilations !!! i) (strides !!! i))
  else DimUnset.

(** The arithmetic of axis [i] is defined whenever the axis is computed. *)
Definition sliding_window_axis_defined (spatial : list Dimension)
    (pads kernel dilations strides : list Z) (i : nat) : Prop :=
  has_dim_value (spatial !!! i) = true ->
  axis_defined (dim_value (spatial !!! i)) (pads !!! i)
    (pads !!! (i + length kernel)%nat)
    (kernel !!! i) (dilations !!! i) (strides !!! i).



(** The conditions under which a sliding-window operator reaches the loop
    over its spatial axes: the first input has a known shape of rank at
    least 2, auto_pad is absent, group is 1, the repeated attributes have the
    lengths the code checks, the kernel shape is resolved and the channel
    dimension of the output can be read. *)
Record sliding_window_ready (op : SlidingWindowOp) (ctx : InferenceContext)
    (ty0 : TypeProto) (n c : Dimension) (spatial : list Dimension)
    (ch : Dimension) (kernel : list Z) : Prop := {
  sw_input : inputTypes ctx !! 0%nat = Some (Some ty0);
  sw_shape : shape ty0 = Some (n :: c :: spatial);
  sw_auto_pad : ctx_getAttribute ctx "auto_pad" = None;
  sw_group : getAttribute ctx "group" 1 = 1;
  sw_dilations : use_dilation_of op = true ->
                 well_formed ctx "dilations" (length spatial);
  sw_pads : well_formed ctx "pads" (length spatial * 2);
  sw_strides : well_formed ctx "strides" (length spatial);
  sw_kernel_attr : well_formed ctx "kernel_shape" (length spatial);
  sw_kernel : resolved_kernel (require_kernel_shape_of op) ctx = Some kernel;
  sw_channel : channel_dim op ctx c = Some ch
}.

(** A statement that never throws. *)
Definition never_throws {A} (m : M A) : Prop :=
  forall out msg, fst (m out) <> Throw msg.

(** A statement that ends by falling through or by an undefined read, never
    by [return] or by an exception. *)
Definition straight {A} (m : M A) : Prop :=
  forall out, (exists a, fst (m out) = Next a) \/ fst (m out) = Undefined.

(** The five attributes the pooling operators read. *)
Definition pooling_attributes : list string :=
  ["auto_pad"; "group"; "pads"; "strides"; "kernel_shape"].

(** ** Contexts of the further examples *)


(** Conv on an input with one spatial axis and weights with two. *)
Definition conv_long_kernel_ctx : InferenceContext :=
  mkCtx ∅ [tensor (known [1; 1; 4]); tensor (known [1; 1; 3; 3])].

(** Conv 3x3 with padding 1 on both sides of both axes. *)
Definition same_conv_ctx : InferenceContext :=
  mkCtx (<["kernel_shape" := INTS [3; 3]]> (<["pads" := INTS [1; 1; 1; 1]]> ∅))
        [tensor (known [1; 3; 5; 7]); tensor (known [8; 3; 3; 3])].

(** Conv whose weights have no dimension at all. *)
Definition conv_scalar_weights_ctx : InferenceContext :=
  mkCtx (<["kernel_shape" := INTS [3; 3]]> ∅)
        [tensor (known [1; 3; 5; 7]); tensor []].

(** Conv whose kernel height is symbolic in the weights. *)
Definition conv_symbolic_kernel_ctx : InferenceContext :=
  mkCtx ∅ [tensor (known [1; 3; 5; 7]);
           tensor [DimValue 8; DimValue 3; DimParam "kH"; DimValue 3]].

(** A pooling node without attributes on a 4-dimensional input. *)
Definition bare_pool_ctx : InferenceContext :=
  mkCtx ∅ [tensor (known [1; 3; 5; 7])].

(** A node whose only input is a vector. *)
Definition vector_ctx : InferenceContext :=
  mkCtx (<["kernel_shape" := INTS [3; 3]]> ∅) [tensor (known [5])].

(** A node whose input has a type but no shape. *)
Definition shapeless_ctx : InferenceContext :=
  mkCtx (<["kernel_shape" := INTS [3; 3]]> ∅) [Some (mkType FLOAT None)].

(** [window_positions] without the stride, as a function of the six numbers
    of an axis. *)
Definition window_positions'
    (input_dim pad_before pad_after kernel dilation stride : Z) : Z :=
  window_positions input_dim pad_before pad_after kernel dilation.


(** The 2x2 pooling node of [pool_2x2_ctx] with an attribute dilations of
    the wrong size, an attribute the pooling operators do not have, and a
    second input. *)
Definition pool_2x2_noise_ctx : InferenceContext :=
  mkCtx (<["dilations" := INTS [7]]>
           (<["count_include_pad" := INT 1]>
              (<["kernel_shape" := INTS [2; 2]]> (<["strides" := INTS [2; 2]]> ∅))))
        [tensor (known [1; 3; 4; 4]); tensor (known [9])].


(** ConvTranspose whose weights are a vector. *)
Definition convtranspose_vector_weights_ctx : InferenceContext :=
  mkCtx ∅ [tensor (known [1; 2; 3; 3]); tensor (known [2])].

(** ConvTranspose whose kernel width is symbolic in the weights. *)
Definition convtranspose_symbolic_kernel_ctx : InferenceContext :=
  mkCtx ∅ [tensor (known [1; 2; 3; 3]);
           tensor [DimValue 2; DimValue 4; DimValue 3; DimParam "kW"]].


(** Conv with the strides and pads of [strided_attributes], applied to what
    ConvTranspose infers on the 3x3 input of [convtranspose_ctx]. *)
Definition roundtrip_conv_ctx : InferenceContext :=
  mkCtx (<["strides" := INTS [2; 2]]> (<["pads" := INTS [1; 1; 1; 1]]> ∅))
        [Some (snd (convTransposeShapeInference
                      (convtranspose_ctx strided_attributes (known [3; 3]))
                      TypeProto_empty));
         tensor (known [2; 4; 3; 3])].


(** A statement that leaves the output as it is, however it ends. *)
Definition reads_only {A} (m : M A) : Prop := forall out, snd (m out) = out.

(** A statement that, when it throws, has left the output as it was. *)
Definition throws_before_writing {A} (m : M A) : Prop :=
  forall out msg, fst (m out) = Throw msg -> snd (m out) = out.

(** A MaxRoiPool node on an input of rank [2 + length pooled_shape]. *)
Definition roi_short_ctx : InferenceContext :=
  roi_ctx (known [1; 3; 8]) [7].


(** MaxPool 2x2 whose stride along the width is 0. *)
Definition zero_stride_ctx : InferenceContext :=
  mkCtx (<["kernel_shape" := INTS [2; 2]]> (<["strides" := INTS [2; 0]]> ∅))
        [tensor (known [1; 3; 4; 4])].

(** ConvTranspose on a 1-dimensional signal with 3x3 kernels in the
    weights. *)
Definition convtranspose_long_kernel_ctx : InferenceContext :=
  mkCtx ∅ [tensor (known [1; 2; 4]); tensor (known [2; 4; 3; 3])].

(** ConvTranspose on a 10x10 input whose weights have one spatial
    dimension only, with pads for two axes. *)
Definition convtranspose_short_kernel_ctx : InferenceContext :=
  mkCtx (<["pads" := INTS [1; 2; 3; 4]]> ∅)
        [tensor (known [1; 2; 10; 10]); tensor (known [2; 4; 3])].

(** * Proofs *)

(** ** Facts on the wrap-around *)

Module Int64Facts.

Import Int64.

Lemma wrap_fits z : fits z -> wrap z = z.
Proof.
  unfold fits, wrap, min_signed, max_signed. intros Hz.
  rewrite Z.mod_small; lia.
Qed.

Lemma wrap_ex z : exists q, wrap z = z + 2 ^ 64 * q.
Proof.
  exists (- ((z + 2 ^ 63) / 2 ^ 64)). unfold wrap.
  rewrite Z.mod_eq by lia. ring.
Qed.

Lemma wrap_shift z q : wrap (z + 2 ^ 64 * q) = wrap z.
Proof.
  unfold wrap. f_equal.
  replace (z + 2 ^ 64 * q + 2 ^ 63) with (z + 2 ^ 63 + q * 2 ^ 64) by ring.
  apply Z_mod_plus_full.
Qed.

End Int64Facts.

(** ** Examples *)

Example pool_2x2_on_4x4 :
  infer_sliding_window MaxPool pool_2x2_ctx TypeProto_empty
  = (Returned, mkType FLOAT (Some (known [1; 3; 2; 2]))).
Proof. vm_compute. reflexivity. Qed.

Example flatten_axis0 :
  Flatten_TypeAndShapeInferenceFunction (flatten_ctx 0) TypeProto_empty
  = (Returned, mkType FLOAT (Some (known [1; 24]))).
Proof. vm_compute. reflexivity. Qed.

Example flatten_axis2 :
  Flatten_TypeAndShapeInferenceFunction (flatten_ctx 2) TypeProto_empty
  = (Returned, mkType FLOAT (Some (known [6; 4]))).
Proof. vm_compute. reflexivity. Qed.

Example flatten_axis4 :
  Flatten_TypeAndShapeInferenceFunction (flatten_ctx 4) TypeProto_empty
  = (Failed "Invalid value(4) for attribute 'axis'", mkType FLOAT None).
Proof. vm_compute. reflexivity. Qed.

(** ** Running the monad *)

Lemma bind_run {A B} (m : M A) (k : A -> M B) out r out' :
  m out = (r, out') ->
  bind m k out
  = match r with
    | Next a => k a out'
    | Return => (Return, out')
    | Throw msg => (Throw msg, out')
    | Undefined => (Undefined, out')
    end.
Proof. intros H. unfold bind. rewrite H. reflexivity. Qed.

Lemma bind_assoc {A B C} (m : M A) (f : A -> M B) (g : B -> M C) out :
  bind (bind m f) g out = bind m (fun a => bind (f a) g) out.
Proof. unfold bind. destruct (m out) as [[a| | |] out']; reflexivity. Qed.

(** Straight-line statements are evaluated by [cbn] on this list. *)
Ltac run :=
  repeat (progress
    (rewrite ?bind_assoc;
     cbn [bind ret when return_ undefined fail_shape_inference negb andb orb
          mutable_shape default elem_type shape])).

Lemma hasNInputShapes_1 ctx ty ds :
  inputTypes ctx !! 0%nat = Some (Some ty) -> shape ty = Some ds ->
  hasNInputShapes ctx 1 = true.
Proof.
  intros Hin Hsh. unfold hasNInputShapes, hasInputShape.
  rewrite Hin, Hsh. reflexivity.
Qed.

Lemma getInputShape_known ctx i ty ds :
  inputTypes ctx !! i = Some (Some ty) -> shape ty = Some ds ->
  getInputShape ctx i = ret ds.
Proof. intros Hin Hsh. unfold getInputShape. rewrite Hin, Hsh. reflexivity. Qed.

Lemma propagate_known ctx ty out :
  inputTypes ctx !! 0%nat = Some (Some ty) ->
  propagateElemTypeFromInputToOutput ctx 0 0 out
  = (Next tt, mkType (elem_type ty) (shape out)).
Proof. intros Hin. unfold propagateElemTypeFromInputToOutput. rewrite Hin. reflexivity. Qed.

Lemma add_dim_copy_app e ds d :
  add_dim_copy d (mkType e (Some ds)) = (Next tt, mkType e (Some (ds ++ [d]))).
Proof.
  unfold add_dim_copy, bind, add_dim, assign_dim. simpl.
  rewrite insert_app_r_alt, Nat.sub_diag by reflexivity. reflexivity.
Qed.

Lemma add_dim_copy_bind {B} d (k : unit -> M B) out :
  bind (add_dim_copy d) k out
  = k tt (mkType (elem_type out) (Some (default [] (shape out) ++ [d]))).
Proof.
  unfold add_dim_copy, bind, add_dim, assign_dim. simpl.
  rewrite insert_app_r_alt, Nat.sub_diag by reflexivity. reflexivity.
Qed.

(** ** Global pooling *)

(** The loop of the global pooling operators. *)
Lemma for_ones e count : forall from ds,
  for_ from count (fun _ => p <- add_dim ;; set_dim_value p 1) (mkType e (Some ds))
  = (Next tt, mkType e (Some (ds ++ replicate count (DimValue 1)))).
Proof.
  induction count as [|count IH]; intros from ds; simpl.
  - rewrite app_nil_r. reflexivity.
  - unfold bind at 1. unfold set_dim_value.
    assert (Hstep : bind add_dim (fun p => assign_dim p (DimValue 1)) (mkType e (Some ds))
                    = (Next tt, mkType e (Some (ds ++ [DimValue 1])))) by apply add_dim_copy_app.
    rewrite Hstep, IH, <- app_assoc. reflexivity.
Qed.

(** C7.  Global pooling (GlobalAveragePool, GlobalMaxPool, GlobalLpPool all
    register [gloablPoolTypeShapeInference]): for an input of known rank at
    least 2, whatever its spatial dimensions are (known, symbolic or unset),
    the output shape is the batch and channel dimensions of the input,
    copied verbatim, followed by exactly rank-2 dimensions of known value 1. *)
Theorem globalpool_output_shape (ctx : InferenceContext) (ty : TypeProto)
    (n c : Dimension) (spatial : list Dimension) :
  inputTypes ctx !! 0%nat = Some (Some ty) ->
  shape ty = Some (n :: c :: spatial) ->
  gloablPoolTypeShapeInference ctx TypeProto_empty
  = (Returned,
     mkType (elem_type ty)
            (Some (n :: c :: replicate (length spatial) (DimValue 1)))).
Proof.
  intros Hin Hsh.
  unfold gloablPoolTypeShapeInference, call, gloablPool_body.
  rewrite (bind_run _ _ _ _ _ (propagate_known _ _ _ Hin)).
  rewrite (hasNInputShapes_1 _ _ _ Hin Hsh), (getInputShape_known _ _ _ _ Hin Hsh).
  run. case_bool_decide as Hlen; [simpl in Hlen; lia|].
  run. cbn [dim_at lookup list_lookup]. run.
  rewrite (bind_run _ _ _ _ _ (add_dim_copy_app _ _ _)).
  run. cbn [dim_at lookup list_lookup]. run.
  rewrite (bind_run _ _ _ _ _ (add_dim_copy_app _ _ _)).
  rewrite for_ones. simpl. rewrite Nat.sub_0_r. reflexivity.
Qed.

(** ** Sliding-window operators: the output dimensions *)

Lemma vec_at_Some (v : list Z) i x : v !! i = Some x -> vec_at v i = ret x.
Proof. intros H. unfold vec_at. rewrite H. reflexivity. Qed.

Lemma dim_at_Some (s : list Dimension) i d : s !! i = Some d -> dim_at s i = ret d.
Proof. intros H. unfold dim_at. rewrite H. reflexivity. Qed.

Lemma add_dim_run e ds :
  add_dim (mkType e (Some ds)) = (Next (length ds), mkType e (Some (ds ++ [DimUnset]))).
Proof. reflexivity. Qed.

Lemma set_new_dim e ds d0 v :
  set_dim_value (length ds) v (mkType e (Some (ds ++ [d0])))
  = (Next tt, mkType e (Some (ds ++ [DimValue v]))).
Proof.
  unfold set_dim_value, assign_dim. simpl.
  rewrite insert_app_r_alt, Nat.sub_diag by reflexivity. reflexivity.
Qed.

Lemma int64_div_defined a b out :
  b <> 0 -> Int64.fits a -> Int64.fits (a ÷ b + 1) ->
  int64_div a b out = (Next (a ÷ b), out).
Proof.
  intros Hb Ha Hq. unfold int64_div.
  destruct (Z.eqb_spec b 0) as [|_]; [contradiction|].
  destruct (Z.eqb_spec a Int64.min_signed) as [->|_]; [|reflexivity].
  destruct (Z.eqb_spec b (-1)) as [->|_]; [|reflexivity].
  exfalso. revert Hq. unfold Int64.fits, Int64.min_signed, Int64.max_signed.
  change (- 2 ^ 63 ÷ -1) with (2 ^ 63). lia.
Qed.

Lemma window_arith x pb pa k d :
  Int64.sub (Int64.add (Int64.add x pb) pa)
            (Int64.add (Int64.mul (Int64.sub k 1) d) 1)
  = Int64.wrap (window_positions x pb pa k d).
Proof.
  unfold Int64.sub, Int64.add, Int64.mul, window_positions, effective_kernel.
  destruct (Int64Facts.wrap_ex (x + pb)) as [q1 ->].
  destruct (Int64Facts.wrap_ex (x + pb + 2 ^ 64 * q1 + pa)) as [q2 ->].
  destruct (Int64Facts.wrap_ex (k - 1)) as [q3 ->].
  destruct (Int64Facts.wrap_ex ((k - 1 + 2 ^ 64 * q3) * d)) as [q4 ->].
  destruct (Int64Facts.wrap_ex ((k - 1 + 2 ^ 64 * q3) * d + 2 ^ 64 * q4 + 1)) as [q5 ->].
  rewrite <- (Int64Facts.wrap_shift (x + pb + pa - ((k - 1) * d + 1))
               (q1 + q2 - q3 * d - q4 - q5)).
  f_equal. ring.
Qed.

Lemma convPool_axis_known e ds input_shape dilations pads strides kernel_shape
    i x pb pa k d s :
  input_shape !! (2 + i)%nat = Some (DimValue x) ->
  pads !! i = Some pb ->
  pads !! (i + length kernel_shape)%nat = Some pa ->
  kernel_shape !! i = Some k ->
  dilations !! i = Some d ->
  strides !! i = Some s ->
  axis_defined x pb pa k d s ->
  convPool_axis input_shape dilations pads strides kernel_shape i (mkType e (Some ds))
  = (Next tt, mkType e (Some (ds ++ [DimValue (sliding_window_dim_trunc x pb pa k d s)]))).
Proof.
  intros Hx Hpb Hpa Hk Hd Hs (Hs0 & Hnum & Hres).
  unfold convPool_axis.
  rewrite (bind_run _ _ _ _ _ (add_dim_run e ds)).
  rewrite (dim_at_Some _ _ _ Hx). run. cbn [has_dim_value dim_value].
  rewrite (vec_at_Some _ _ _ Hpb), (vec_at_Some _ _ _ Hpa), (vec_at_Some _ _ _ Hk),
    (vec_at_Some _ _ _ Hd), (vec_at_Some _ _ _ Hs).
  run. rewrite window_arith, (Int64Facts.wrap_fits _ Hnum).
  rewrite (bind_run _ _ _ _ _ (int64_div_defined _ _ _ Hs0 Hnum Hres)).
  unfold Int64.add. rewrite Z.add_comm.
  fold (sliding_window_dim_trunc x pb pa k d s).
  rewrite (Int64Facts.wrap_fits _ Hres). apply set_new_dim.
Qed.

Lemma well_formed_length ctx name expected dflt :
  well_formed ctx name expected ->
  length (attr_or_default ctx name expected dflt) = expected.
Proof.
  unfold well_formed, attr_or_default. intros H.
  destruct (getRepeatedAttribute ctx name) as [v|]; simpl.
  - apply H. reflexivity.
  - apply length_replicate.
Qed.

(** The pattern "read the attribute and check its size, or assign the
    default": a well-formed attribute passes whatever the action on a
    mismatch is. *)
Lemma checked_attribute {B} ctx name expected dflt (mismatch : M unit)
    (k : list Z -> M B) out :
  well_formed ctx name expected ->
  bind (match getRepeatedAttribute ctx name with
        | Some v =>
            when (negb (bool_decide (length v = expected))) mismatch ;; ret v
        | None => ret (replicate expected dflt)
        end) k out
  = k (attr_or_default ctx name expected dflt) out.
Proof.
  unfold well_formed, attr_or_default. intros H.
  destruct (getRepeatedAttribute ctx name) as [v|]; simpl; [|reflexivity].
  rewrite bool_decide_eq_true_2 by (apply H; reflexivity). reflexivity.
Qed.

Lemma known_values_push ds : forall acc vs out,
  known_values ds = Some vs ->
  push_back_dim_values ds acc out = (Next (acc ++ vs), out).
Proof.
  induction ds as [|d ds IH]; intros acc vs out Hk; simpl in *.
  - injection Hk as <-. rewrite app_nil_r. reflexivity.
  - destruct d as [v| |]; try discriminate. simpl.
    destruct (known_values ds) as [vs'|] eqn:E; [|discriminate].
    injection Hk as <-. rewrite (IH _ vs' out eq_refl), <- app_assoc. reflexivity.
Qed.

Lemma unknown_values_push ds : forall acc out,
  known_values ds = None ->
  push_back_dim_values ds acc out = (Return, out).
Proof.
  induction ds as [|d ds IH]; intros acc out Hk; simpl in *; [discriminate|].
  destruct d as [v| |]; try reflexivity. simpl.
  destruct (known_values ds) as [vs'|] eqn:E; [discriminate|].
  apply IH. reflexivity.
Qed.

(** The loop over the spatial axes when every axis is known and defined. *)
Lemma convPool_loop e n0 c0 xs dilations pads strides kernel :
  length kernel = length xs ->
  length pads = (length xs * 2)%nat ->
  length strides = length xs ->
  length dilations = length xs ->
  (forall i, (i < length xs)%nat ->
     at_axis axis_defined xs pads kernel dilations strides i) ->
  forall count from ds,
  (from + count = length xs)%nat ->
  for_ from count
    (convPool_axis (n0 :: c0 :: (DimValue <$> xs)) dilations pads strides kernel)
    (mkType e (Some ds))
  = (Next tt,
     mkType e (Some (ds ++
       ((fun i => DimValue (at_axis sliding_window_dim_trunc
                              xs pads kernel dilations strides i))
          <$> seq from count)))).
Proof.
  intros Hk Hp Hs Hd Hdef.
  induction count as [|count IH]; intros from ds Hlen; simpl.
  - rewrite app_nil_r. reflexivity.
  - erewrite bind_run; cycle 1.
    { apply convPool_axis_known with (i := from);
        try (apply list_lookup_lookup_total_lt; lia).
      - simpl. rewrite list_lookup_fmap.
        rewrite (list_lookup_lookup_total_lt xs from) by lia. reflexivity.
      - apply Hdef. lia. }
    rewrite IH by lia. rewrite <- app_assoc. reflexivity.
Qed.

Lemma spatial_rank {A} (n c : A) (spatial : list A) :
  (length (n :: c :: spatial) - 2)%nat = length spatial.
Proof. simpl. lia. Qed.

Lemma no_attribute_check ctx name :
  ctx_getAttribute ctx name = None ->
  bool_decide (is_Some (ctx_getAttribute ctx name)) = false.
Proof. intros ->. apply bool_decide_eq_false_2. intros [? ?]. discriminate. Qed.

Lemma pool_case ctx ty0 n c xs kernel :
  let pads := attr_or_default ctx "pads" (length xs * 2) 0 in
  let strides := attr_or_default ctx "strides" (length xs) 1 in
  inputTypes ctx !! 0%nat = Some (Some ty0) ->
  shape ty0 = Some (n :: c :: (DimValue <$> xs)) ->
  ctx_getAttribute ctx "auto_pad" = None ->
  getAttribute ctx "group" 1 = 1 ->
  well_formed ctx "pads" (length xs * 2) ->
  well_formed ctx "strides" (length xs) ->
  getRepeatedAttribute ctx "kernel_shape" = Some kernel ->
  length kernel = length xs ->
  (forall i, (i < length xs)%nat ->
     at_axis axis_defined xs pads kernel (replicate (length xs) 1) strides i) ->
  convPoolTypeAndShapeInference ctx false true TypeProto_empty
  = (Returned,
     mkType (elem_type ty0)
       (Some (n :: c :: sliding_window_dims sliding_window_dim_trunc
                          xs pads kernel (replicate (length xs) 1) strides))).
Proof.
  intros pads strides Hin Hsh Hauto Hgroup Hpads Hstrides Hkernel Hklen Hdef.
  unfold convPoolTypeAndShapeInference, call, convPool_body.
  rewrite (bind_run _ _ _ _ _ (propagate_known _ _ _ Hin)).
  rewrite (hasNInputShapes_1 _ _ _ Hin Hsh), (getInputShape_known _ _ _ _ Hin Hsh).
  rewrite (no_attribute_check _ _ Hauto), Hgroup.
  run. case_bool_decide as Hlen; [simpl in Hlen; lia|].
  run. rewrite !spatial_rank, !length_fmap.
  change (1 =? 1) with true. run.
  rewrite (checked_attribute _ _ _ _ _ _ _ Hpads).
  rewrite (checked_attribute _ _ _ _ _ _ _ Hstrides).
  rewrite Hkernel.
  rewrite bool_decide_eq_true_2 by exact Hklen.
  run. cbn [dim_at lookup list_lookup]. run.
  rewrite (bind_run _ _ _ _ _ (add_dim_copy_app _ _ _)).
  run. cbn [dim_at lookup list_lookup]. run.
  rewrite (bind_run _ _ _ _ _ (add_dim_copy_app _ _ _)).
  rewrite (convPool_loop (elem_type ty0) n c xs);
    rewrite ?well_formed_length, ?length_replicate; auto; try lia.
  unfold sliding_window_dims. rewrite Hklen. reflexivity.
Qed.

Lemma second_input_dims_Some ctx ws :
  second_input_dims ctx = Some ws ->
  exists ty1, inputTypes ctx !! 1%nat = Some (Some ty1) /\ shape ty1 = Some ws.
Proof.
  unfold second_input_dims. intros H.
  destruct (inputTypes ctx !! 1%nat) as [[ty1|]|]; try discriminate.
  exists ty1. split; [reflexivity|exact H].
Qed.

Lemma hasNInputShapes_2 ctx ty0 ds ty1 ws :
  inputTypes ctx !! 0%nat = Some (Some ty0) -> shape ty0 = Some ds ->
  inputTypes ctx !! 1%nat = Some (Some ty1) -> shape ty1 = Some ws ->
  hasNInputShapes ctx 2 = true.
Proof.
  intros Hin Hsh Hin1 Hsh1. unfold hasNInputShapes, hasInputShape.
  rewrite Hin, Hsh, Hin1, Hsh1. reflexivity.
Qed.

Lemma conv_case ctx ty0 n c xs kernel ch :
  let pads := attr_or_default ctx "pads" (length xs * 2) 0 in
  let strides := attr_or_default ctx "strides" (length xs) 1 in
  let dilations := attr_or_default ctx "dilations" (length xs) 1 in
  inputTypes ctx !! 0%nat = Some (Some ty0) ->
  shape ty0 = Some (n :: c :: (DimValue <$> xs)) ->
  ctx_getAttribute ctx "auto_pad" = None ->
  getAttribute ctx "group" 1 = 1 ->
  well_formed ctx "dilations" (length xs) ->
  well_formed ctx "pads" (length xs * 2) ->
  well_formed ctx "strides" (length xs) ->
  resolved_kernel false ctx = Some kernel ->
  length kernel = length xs ->
  channel_dim Conv ctx c = Some ch ->
  (forall i, (i < length xs)%nat ->
     at_axis axis_defined xs pads kernel dilations strides i) ->
  convPoolTypeAndShapeInference ctx true false TypeProto_empty
  = (Returned,
     mkType (elem_type ty0)
       (Some (n :: ch :: sliding_window_dims sliding_window_dim_trunc
                           xs pads kernel dilations strides))).
Proof.
  intros pads strides dilations Hin Hsh Hauto Hgroup Hdil Hpads Hstrides
    Hkernel Hklen Hch Hdef.
  unfold channel_dim in Hch. simpl in Hch.
  destruct (second_input_dims ctx) as [ws|] eqn:Hws; [|discriminate].
  destruct (second_input_dims_Some _ _ Hws) as (ty1 & Hin1 & Hsh1).
  unfold resolved_kernel in Hkernel. simpl in Hkernel. rewrite Hws in Hkernel.
  unfold convPoolTypeAndShapeInference, call, convPool_body.
  rewrite (bind_run _ _ _ _ _ (propagate_known _ _ _ Hin)).
  rewrite (hasNInputShapes_1 _ _ _ Hin Hsh), (getInputShape_known _ _ _ _ Hin Hsh).
  rewrite (hasNInputShapes_2 _ _ _ _ _ Hin Hsh Hin1 Hsh1).
  rewrite (getInputShape_known _ _ _ _ Hin1 Hsh1).
  rewrite (no_attribute_check _ _ Hauto), Hgroup.
  run. case_bool_decide as Hlen; [simpl in Hlen; lia|].
  run. rewrite !spatial_rank, !length_fmap.
  rewrite (checked_attribute _ _ _ _ _ _ _ Hdil).
  change (1 =? 1) with true. run.
  rewrite (checked_attribute _ _ _ _ _ _ _ Hpads).
  rewrite (checked_attribute _ _ _ _ _ _ _ Hstrides).
  assert (Hk : forall B (k : list Z -> M B) out,
    bind (match getRepeatedAttribute ctx "kernel_shape" with
          | Some kernel_shape =>
              when (negb (bool_decide (length kernel_shape = length xs)))
                (fail_shape_inference "Attribute kernel_shape has incorrect size") ;;
              ret kernel_shape
          | None =>
              second_input_shape <- ret ws ;;
              push_back_dim_values (drop 2 second_input_shape) []
          end) k out = k kernel out).
  { intros B k out.
    destruct (getRepeatedAttribute ctx "kernel_shape") as [k0|].
    - injection Hkernel as ->.
      rewrite bool_decide_eq_true_2 by exact Hklen. reflexivity.
    - run.
      rewrite (bind_run _ _ _ _ _ (known_values_push _ _ _ _ Hkernel)).
      reflexivity. }
  rewrite Hk. run.
  cbn [dim_at lookup list_lookup]. run.
  rewrite (bind_run _ _ _ _ _ (add_dim_copy_app _ _ _)).
  run. case_bool_decide as Hlen1.
  { destruct ws; [discriminate|simpl in Hlen1; lia]. }
  run. rewrite (dim_at_Some _ _ _ Hch). run.
  rewrite (bind_run _ _ _ _ _ (add_dim_copy_app _ _ _)).
  rewrite (convPool_loop (elem_type ty0) n c xs);
    rewrite ?well_formed_length; auto; try lia.
  unfold sliding_window_dims. rewrite Hklen. reflexivity.
Qed.

Lemma sliding_window_dims_floor xs pads kernel dilations strides :
  (forall i, (i < length xs)%nat ->
     at_axis (fun x pb pa k d s => 0 <= window_positions x pb pa k d /\ 0 < s)
       xs pads kernel dilations strides i) ->
  sliding_window_dims sliding_window_dim_trunc xs pads kernel dilations strides
  = sliding_window_dims sliding_window_dim xs pads kernel dilations strides.
Proof.
  intros H. unfold sliding_window_dims. apply list_fmap_ext.
  intros j i Hi. apply lookup_seq in Hi as [-> Hlt].
  specialize (H j Hlt). unfold at_axis in *.
  unfold sliding_window_dim_trunc, sliding_window_dim.
  destruct H as [Hnum Hs]. rewrite Z.quot_div_nonneg by assumption. reflexivity.
Qed.

(** Where the code and the documented formula agree.  Conv, AveragePool,
    MaxPool and LpPool, on a first input of rank at least 2 whose spatial
    dimensions are known, without auto_pad,
    with group = 1, attributes of well-formed lengths, a resolved kernel shape
    with one entry per spatial axis (and, for Conv, a second input of rank at
    least 1), and arithmetic that stays inside int64 with non-zero strides:
    the output is the batch dimension, the channel dimension and, for every
    spatial axis i,
      (input_dim[i] + pad_before[i] + pad_after[i] - effective_kernel[i]) ÷ stride[i] + 1
    where ÷ is the quotient of C++, truncated toward zero, and
    effective_kernel[i] = (kernel[i]-1)*dilation[i] + 1 (dilation 1 for
    pooling).  When on every axis the padded input is at least the effective
    kernel and the stride is positive, this is the floor formula of the
    documentation (defs.cc, lines 162 and 217). *)
Theorem sliding_window_output_shape (op : SlidingWindowOp) (ctx : InferenceContext)
    (ty0 : TypeProto) (n c ch : Dimension) (xs kernel : list Z) :
  let pads := attr_or_default ctx "pads" (length xs * 2) 0 in
  let strides := attr_or_default ctx "strides" (length xs) 1 in
  let dilations := resolved_dilations op ctx (length xs) in
  inputTypes ctx !! 0%nat = Some (Some ty0) ->
  shape ty0 = Some (n :: c :: (DimValue <$> xs)) ->
  ctx_getAttribute ctx "auto_pad" = None ->
  getAttribute ctx "group" 1 = 1 ->
  (use_dilation_of op = true -> well_formed ctx "dilations" (length xs)) ->
  well_formed ctx "pads" (length xs * 2) ->
  well_formed ctx "strides" (length xs) ->
  resolved_kernel (require_kernel_shape_of op) ctx = Some kernel ->
  length kernel = length xs ->
  channel_dim op ctx c = Some ch ->
  (forall i, (i < length xs)%nat ->
     at_axis axis_defined xs pads kernel dilations strides i) ->
  infer_sliding_window op ctx TypeProto_empty
  = (Returned,
     mkType (elem_type ty0)
       (Some (n :: ch :: sliding_window_dims sliding_window_dim_trunc
                           xs pads kernel dilations strides)))
  /\ ((forall i, (i < length xs)%nat ->
         at_axis (fun x pb pa k d s => 0 <= window_positions x pb pa k d /\ 0 < s)
           xs pads kernel dilations strides i) ->
      infer_sliding_window op ctx TypeProto_empty
      = (Returned,
         mkType (elem_type ty0)
           (Some (n :: ch :: sliding_window_dims sliding_window_dim
                               xs pads kernel dilations strides)))).
Proof.
  intros pads strides dilations Hin Hsh Hauto Hgroup Hdil Hpads Hstrides
    Hkernel Hklen Hch Hdef.
  assert (Hcode : infer_sliding_window op ctx TypeProto_empty
    = (Returned,
       mkType (elem_type ty0)
         (Some (n :: ch :: sliding_window_dims sliding_window_dim_trunc
                             xs pads kernel dilations strides)))).
  { unfold infer_sliding_window.
    destruct op; cbn [use_dilation_of require_kernel_shape_of].
    - apply (conv_case ctx ty0 n c xs kernel ch); auto.
    - injection Hch as <-. unfold resolved_kernel in Hkernel.
      destruct (getRepeatedAttribute ctx "kernel_shape") as [k0|] eqn:Hk0;
        [injection Hkernel as ->|discriminate].
      apply pool_case; auto.
    - injection Hch as <-. unfold resolved_kernel in Hkernel.
      destruct (getRepeatedAttribute ctx "kernel_shape") as [k0|] eqn:Hk0;
        [injection Hkernel as ->|discriminate].
      apply pool_case; auto.
    - injection Hch as <-. unfold resolved_kernel in Hkernel.
      destruct (getRepeatedAttribute ctx "kernel_shape") as [k0|] eqn:Hk0;
        [injection Hkernel as ->|discriminate].
      apply pool_case; auto. }
  split; [exact Hcode|].
  intros Hfloor. rewrite Hcode, (sliding_window_dims_floor _ _ _ _ _ Hfloor).
  reflexivity.
Qed.

(** Pooling with kernel 2, stride 2 and no padding on a 4x4 input gives 2x2. *)
Lemma sliding_window_output_shape_witness :
  infer_sliding_window MaxPool pool_2x2_ctx TypeProto_empty
  = (Returned, mkType FLOAT (Some (known [1; 3; 2; 2]))).
Proof.
  refine (eq_trans
    (proj2 (sliding_window_output_shape MaxPool pool_2x2_ctx
              (mkType FLOAT (Some (known [1; 3; 4; 4])))
              (DimValue 1) (DimValue 3) (DimValue 3) [4; 4] [2; 2]
              eq_refl eq_refl eq_refl eq_refl _ _ _ eq_refl eq_refl eq_refl _) _)
    eq_refl).
  - intros _ v Hv. vm_compute in Hv. discriminate.
  - intros v Hv. vm_compute in Hv. discriminate.
  - intros v Hv. vm_compute in Hv. injection Hv as <-. reflexivity.
  - intros i Hi. destruct i as [|[|i]]; [| |simpl in Hi; lia];
      vm_compute; repeat split; intros; discriminate.
  - intros i Hi. destruct i as [|[|i]]; [| |simpl in Hi; lia];
      vm_compute; repeat split; intros; discriminate.
Defined.

(** C1.  The documentation of the pooling operators (defs.cc, line 162:
    [floor((input + pad - kernel) / stride + 1)]; line 217: "Floor value of
    the dimension is used") and the specification round the quotient down.
    The code divides with the [/] of C++, which rounds toward zero.  MaxPool
    with a 3x3 kernel, stride 2 and no padding on a (1, 1, 2, 2) input has the
    numerator 2 - 3 = -1 on both axes: the code infers (1, 1, 1, 1), the
    documented formula gives floor(-1/2) + 1 = 0 on both axes. *)
Lemma sliding_window_floor_counterexample :
  infer_sliding_window MaxPool pool_3x3_on_2x2_ctx TypeProto_empty
  = (Returned, mkType FLOAT (Some (known [1; 1; 1; 1])))
  /\ sliding_window_dims sliding_window_dim [2; 2] [0; 0; 0; 0] [3; 3] [1; 1] [2; 2]
     = known [0; 0]
  /\ infer_sliding_window MaxPool pool_3x3_on_2x2_ctx TypeProto_empty
     <> (Returned,
         mkType FLOAT
           (Some (DimValue 1 :: DimValue 1 ::
                  sliding_window_dims sliding_window_dim
                    [2; 2] [0; 0; 0; 0] [3; 3] [1; 1] [2; 2]))).
Proof.
  split; [vm_compute; reflexivity|].
  split; [vm_compute; reflexivity|].
  vm_compute. discriminate.
Qed.

(** ** Silent skips *)

Lemma propagate_run ctx out :
  propagateElemTypeFromInputToOutput ctx 0 0 out = (Next tt, propagated ctx out).
Proof.
  unfold propagated, propagateElemTypeFromInputToOutput.
  destruct (inputTypes ctx !! 0%nat) as [[ty|]|]; reflexivity.
Qed.

Lemma propagated_shape ctx out : shape (propagated ctx out) = shape out.
Proof.
  unfold propagated, propagateElemTypeFromInputToOutput.
  destruct (inputTypes ctx !! 0%nat) as [[ty|]|]; reflexivity.
Qed.

Lemma hasNInputShapes_1_inv ctx :
  hasNInputShapes ctx 1 = true ->
  exists ty0 ds0, inputTypes ctx !! 0%nat = Some (Some ty0) /\ shape ty0 = Some ds0.
Proof.
  unfold hasNInputShapes, hasInputShape. intros H.
  destruct (inputTypes ctx !! 0%nat) as [[ty0|]|]; try discriminate.
  destruct (shape ty0) as [ds0|] eqn:E; [|discriminate].
  exists ty0, ds0. split; [reflexivity|exact E].
Qed.

Lemma hasNInputShapes_2_inv ctx :
  hasNInputShapes ctx 2 = true ->
  exists ty0 ds0 ty1 ds1,
    inputTypes ctx !! 0%nat = Some (Some ty0) /\ shape ty0 = Some ds0 /\
    inputTypes ctx !! 1%nat = Some (Some ty1) /\ shape ty1 = Some ds1.
Proof.
  intros H. change (hasNInputShapes ctx 1 && hasInputShape ctx 1 = true) in H.
  apply andb_prop in H as [H0 H1].
  destruct (hasNInputShapes_1_inv _ H0) as (ty0 & ds0 & Hin & Hsh).
  unfold hasInputShape in H1.
  destruct (inputTypes ctx !! 1%nat) as [[ty1|]|]; try discriminate.
  destruct (shape ty1) as [ds1|] eqn:E; [|discriminate].
  exists ty0, ds0, ty1, ds1. repeat split; assumption || reflexivity.
Qed.

(** One guard of the form [if (c) return;]: either it is taken, and the goal is
    a finished run, or control goes on. *)
Ltac early_return :=
  run;
  lazymatch goal with
  | |- context [bind (when ?c _) _ _] =>
      let E := fresh "Eguard" in destruct c eqn:E; run
  end.

Ltac skipped :=
  split; [reflexivity | cbn [snd]; rewrite ?propagated_shape; reflexivity].

Lemma convPool_group_skips ctx use_dilation require_kernel_shape out :
  getAttribute ctx "group" 1 <> 1 ->
  (forall ty0 ds0,
     inputTypes ctx !! 0%nat = Some (Some ty0) -> shape ty0 = Some ds0 ->
     (2 <= length ds0)%nat /\
     (use_dilation = true -> well_formed ctx "dilations" (length ds0 - 2))) ->
  skips out (convPoolTypeAndShapeInference ctx use_dilation require_kernel_shape out).
Proof.
  intros Hgroup Hrank.
  apply Z.eqb_neq in Hgroup.
  unfold convPoolTypeAndShapeInference, call, convPool_body.
  rewrite (bind_run _ _ _ _ _ (propagate_run _ _)), Hgroup.
  early_return; [skipped|]. apply negb_false_iff in Eguard.
  destruct (hasNInputShapes_1_inv _ Eguard) as (ty0 & ds0 & Hin & Hsh).
  destruct (Hrank _ _ Hin Hsh) as [Hlen Hdil].
  early_return; [skipped|]. early_return; [skipped|].
  rewrite (getInputShape_known _ _ _ _ Hin Hsh). run.
  rewrite (bool_decide_eq_false_2 (length ds0 < 2)%nat) by lia. run.
  destruct use_dilation; cbv iota.
  - rewrite (checked_attribute _ _ _ _ _ _ _ (Hdil eq_refl)). run. skipped.
  - run. skipped.
Qed.

(** One attribute of the form "read and check the size, or take the
    default": three cases, absent, right size, wrong size. *)
Ltac attribute_stage name :=
  run;
  lazymatch goal with
  | |- context [getRepeatedAttribute ?ctx name] =>
      let v := fresh "v" in
      let E := fresh "Eattr" in
      let L := fresh "Lattr" in
      destruct (getRepeatedAttribute ctx name) as [v|] eqn:E;
      [ lazymatch goal with
        | |- context [bool_decide (length v = ?n)] =>
            destruct (decide (length v = n)) as [L|L];
            [ rewrite (bool_decide_eq_true_2 (length v = n) L)
            | rewrite (bool_decide_eq_false_2 (length v = n) L) ]
        end
      | ];
      run
  end.

Lemma convTranspose_unsupported_skips ctx out :
  convTranspose_unsupported ctx ->
  skips out (convTransposeShapeInference ctx out).
Proof.
  intros Hcase.
  unfold convTransposeShapeInference, call, convTranspose_body.
  rewrite (bind_run _ _ _ _ _ (propagate_run _ _)).
  early_return; [skipped|]. apply negb_false_iff in Eguard.
  destruct (hasNInputShapes_2_inv _ Eguard) as (ty0 & ds0 & ty1 & ds1 & Hin & Hsh & Hin1 & Hsh1).
  early_return; [skipped|]. apply bool_decide_eq_false in Eguard0.
  rewrite (getInputShape_known _ _ _ _ Hin Hsh).
  early_return; [skipped|].
  early_return; [skipped|]. apply negb_false_iff, Z.eqb_eq in Eguard2.
  early_return; [skipped|]. apply bool_decide_eq_false in Eguard3.
  destruct Hcase as [H|[H|H]]; contradiction.
Qed.

Lemma convTranspose_malformed_skips ctx out :
  (forall ty0 ds0,
     inputTypes ctx !! 0%nat = Some (Some ty0) -> shape ty0 = Some ds0 ->
     convTranspose_malformed ctx (length ds0 - 2)) ->
  skips out (convTransposeShapeInference ctx out).
Proof.
  intros Hcase.
  unfold convTransposeShapeInference, call, convTranspose_body.
  rewrite (bind_run _ _ _ _ _ (propagate_run _ _)).
  early_return; [skipped|]. apply negb_false_iff in Eguard.
  destruct (hasNInputShapes_2_inv _ Eguard) as (ty0 & ds0 & ty1 & ds1 & Hin & Hsh & Hin1 & Hsh1).
  specialize (Hcase _ _ Hin Hsh).
  early_return; [skipped|].
  rewrite (getInputShape_known _ _ _ _ Hin Hsh), (getInputShape_known _ _ _ _ Hin1 Hsh1).
  early_return; [skipped|]. early_return; [skipped|]. early_return; [skipped|].
  assert (Hwf : forall name expected v,
            getRepeatedAttribute ctx name = Some v -> length v = expected ->
            ~ malformed ctx name expected).
  { intros name expected v Hv Hl (v' & Hv' & Hl'). congruence. }
  assert (Habs : forall name expected,
            getRepeatedAttribute ctx name = None -> ~ malformed ctx name expected).
  { intros name expected Hv (v' & Hv' & _). congruence. }
  attribute_stage "pads"; [|skipped|];
  (attribute_stage "strides"; [|skipped|]);
  (attribute_stage "kernel_shape"; [|skipped|
     destruct (known_values (drop 2 ds1)) as [ks|] eqn:Eks;
     [rewrite (bind_run _ _ _ _ _ (known_values_push _ _ _ _ Eks))
     |rewrite (bind_run _ _ _ _ _ (unknown_values_push _ _ _ Eks)); skipped]]);
  (attribute_stage "output_shape"; [|skipped|]);
  (attribute_stage "output_padding"; [|skipped|]);
  exfalso; destruct Hcase as [H|[H|[H|[H|H]]]];
  first [ eapply Hwf; [| |exact H]; eassumption
        | eapply Habs; [|exact H]; eassumption ].
Qed.

(** ** Hard failures *)

Lemma convPool_malformed_fails ctx use_dilation require_kernel_shape ty0 ds0 out :
  inputTypes ctx !! 0%nat = Some (Some ty0) ->
  shape ty0 = Some ds0 ->
  (2 <= length ds0)%nat ->
  (require_kernel_shape = false -> hasNInputShapes ctx 2 = true) ->
  ctx_getAttribute ctx "auto_pad" = None ->
  getAttribute ctx "group" 1 = 1 ->
  (use_dilation = true /\ malformed ctx "dilations" (length ds0 - 2)) \/
  malformed ctx "pads" ((length ds0 - 2) * 2) \/
  malformed ctx "strides" (length ds0 - 2) \/
  malformed ctx "kernel_shape" (length ds0 - 2) ->
  exists msg,
    convPoolTypeAndShapeInference ctx use_dilation require_kernel_shape out
    = (Failed msg, propagated ctx out).
Proof.
  intros Hin Hsh Hrank Hsecond Hauto Hgroup Hcase.
  unfold convPoolTypeAndShapeInference, call, convPool_body.
  rewrite (bind_run _ _ _ _ _ (propagate_run _ _)).
  rewrite (hasNInputShapes_1 _ _ _ Hin Hsh), (getInputShape_known _ _ _ _ Hin Hsh).
  rewrite (no_attribute_check _ _ Hauto), Hgroup.
  assert (Hguard2 : negb require_kernel_shape && negb (hasNInputShapes ctx 2) = false).
  { destruct require_kernel_shape; [reflexivity|].
    rewrite (Hsecond eq_refl). reflexivity. }
  rewrite Hguard2. run.
  rewrite (bool_decide_eq_false_2 (length ds0 < 2)%nat) by lia.
  change (1 =? 1) with true. run.
  assert (Hwf : forall name expected v,
            getRepeatedAttribute ctx name = Some v -> length v = expected ->
            ~ malformed ctx name expected).
  { intros name expected v Hv Hl (v' & Hv' & Hl'). congruence. }
  assert (Habs : forall name expected,
            getRepeatedAttribute ctx name = None -> ~ malformed ctx name expected).
  { intros name expected Hv (v' & Hv' & _). congruence. }
  assert (Hdil : forall B (k : list Z -> M B) out0,
    (exists msg,
       (let (f, out') :=
          bind (match (if use_dilation
                       then getRepeatedAttribute ctx "dilations" else None) with
                | Some dilations =>
                    when (negb (bool_decide (length dilations = (length ds0 - 2)%nat)))
                      (fail_shape_inference "Attribute dilations has incorrect size") ;;
                    ret dilations
                | None => ret (replicate (length ds0 - 2) 1)
                end) k out0 in
        match f with
        | Throw msg => (Failed msg, out')
        | Undefined => (UndefinedBehaviour, out')
        | _ => (Returned, out')
        end) = (Failed msg, out0)) \/
    (~ (use_dilation = true /\ malformed ctx "dilations" (length ds0 - 2)) /\
     exists dilations,
       bind (match (if use_dilation
                    then getRepeatedAttribute ctx "dilations" else None) with
             | Some dilations =>
                 when (negb (bool_decide (length dilations = (length ds0 - 2)%nat)))
                   (fail_shape_inference "Attribute dilations has incorrect size") ;;
                 ret dilations
             | None => ret (replicate (length ds0 - 2) 1)
             end) k out0 = k dilations out0)).
  { intros B k out0. destruct use_dilation.
    - destruct (getRepeatedAttribute ctx "dilations") as [v|] eqn:Ev.
      + destruct (decide (length v = (length ds0 - 2)%nat)) as [L|L].
        * right. split; [intros [_ H]; exact (Hwf _ _ _ Ev L H)|].
          exists v. rewrite (bool_decide_eq_true_2 _ L). reflexivity.
        * left. rewrite (bool_decide_eq_false_2 _ L). eexists. reflexivity.
      + right. split; [intros [_ H]; exact (Habs _ _ Ev H)|].
        eexists. reflexivity.
    - right. split; [intros [H _]; discriminate|]. eexists. reflexivity. }
  match goal with |- context [bind _ ?k (propagated ctx out)] =>
    destruct (Hdil _ k (propagated ctx out)) as [Hfail|(Hnodil & dilations & ->)]
  end; [exact Hfail|].
  run.
  attribute_stage "pads"; [| eexists; reflexivity |];
  (attribute_stage "strides"; [| eexists; reflexivity |]);
  (attribute_stage "kernel_shape"; [| eexists; reflexivity |]);
  exfalso; destruct Hcase as [H|[H|[H|H]]];
  first [ exact (Hnodil H)
        | eapply Hwf; [| |exact H]; eassumption
        | eapply Habs; [|exact H]; eassumption ].
Qed.

(** C2 (amended).  Conv, AveragePool, MaxPool and LpPool whose first input
    has a known shape of rank at least 2 (Conv: whose two inputs have known
    shapes), without auto_pad and with group = 1: a dilations (Conv only),
    pads, strides or kernel_shape attribute whose length mismatches the
    spatial rank (pads: twice the spatial rank) is a hard failure, and no
    output shape is written.  ConvTranspose never fails: a pads, strides,
    kernel_shape, output_shape or output_padding attribute of the wrong
    length makes it return without error and without an output shape. *)
Theorem malformed_attribute_lengths :
  (forall (op : SlidingWindowOp) (ctx : InferenceContext) (ty0 : TypeProto)
          (ds0 : list Dimension) (out : TypeProto),
     inputTypes ctx !! 0%nat = Some (Some ty0) ->
     shape ty0 = Some ds0 ->
     (2 <= length ds0)%nat ->
     (op = Conv -> hasNInputShapes ctx 2 = true) ->
     ctx_getAttribute ctx "auto_pad" = None ->
     getAttribute ctx "group" 1 = 1 ->
     sliding_window_malformed op ctx (length ds0 - 2) ->
     exists msg,
       infer_sliding_window op ctx out = (Failed msg, propagated ctx out))
  /\
  (forall (ctx : InferenceContext) (ty0 : TypeProto) (ds0 : list Dimension)
          (out : TypeProto),
     inputTypes ctx !! 0%nat = Some (Some ty0) ->
     shape ty0 = Some ds0 ->
     convTranspose_malformed ctx (length ds0 - 2) ->
     skips out (convTransposeShapeInference ctx out)).
Proof.
  split.
  - intros op ctx ty0 ds0 out Hin Hsh Hrank Hsecond Hauto Hgroup Hcase.
    unfold infer_sliding_window.
    apply (convPool_malformed_fails ctx _ _ ty0 ds0); auto.
    destruct op; cbn [require_kernel_shape_of]; intros; auto; discriminate.
  - intros ctx ty0 ds0 out Hin Hsh Hcase.
    apply convTranspose_malformed_skips.
    intros ty0' ds0' Hin' Hsh'.
    rewrite Hin in Hin'. injection Hin' as <-.
    rewrite Hsh in Hsh'. injection Hsh' as <-. exact Hcase.
Qed.

Lemma pads3_malformed : malformed pads3_ctx "pads" 4.
Proof. exists [0; 0; 0]. split; [reflexivity|]. simpl. lia. Qed.

Lemma malformed_attribute_lengths_witness :
  (exists msg,
     infer_sliding_window MaxPool pads3_ctx TypeProto_empty
     = (Failed msg, mkType FLOAT None))
  /\ skips TypeProto_empty (convTransposeShapeInference pads3_ctx TypeProto_empty).
Proof.
  split.
  - apply (proj1 malformed_attribute_lengths MaxPool pads3_ctx
             (mkType FLOAT (Some (known [1; 1; 4; 4]))) (known [1; 1; 4; 4])
             TypeProto_empty eq_refl eq_refl).
    + simpl. lia.
    + intros H. discriminate.
    + reflexivity.
    + reflexivity.
    + right. left. exact pads3_malformed.
  - apply (proj2 malformed_attribute_lengths pads3_ctx
             (mkType FLOAT (Some (known [1; 1; 4; 4]))) (known [1; 1; 4; 4])
             TypeProto_empty eq_refl eq_refl).
    left. exact pads3_malformed.
Defined.

(** ConvTranspose with the 3-entry pads: no error is raised. *)
Lemma convTranspose_malformed_pads_counterexample :
  malformed pads3_ctx "pads" 4
  /\ convTransposeShapeInference pads3_ctx TypeProto_empty
     = (Returned, mkType FLOAT None)
  /\ forall msg,
       fst (convTransposeShapeInference pads3_ctx TypeProto_empty) <> Failed msg.
Proof.
  split; [exact pads3_malformed|].
  split; [vm_compute; reflexivity|].
  intros msg. vm_compute. discriminate.
Qed.

(** C3 (amended).  A convolution or pooling node whose group attribute is
    not 1 returns without error and without writing any output dimension,
    provided that its first input, when its shape is known, has rank at least
    2 and, for Conv, that a dilations attribute, when present, has one entry
    per spatial axis: these two checks come before the group test and fail
    hard.  ConvTranspose with group different from 1 always returns without
    error and without writing any output dimension. *)
Theorem group_not_1_skips :
  (forall (op : SlidingWindowOp) (ctx : InferenceContext) (out : TypeProto),
     getAttribute ctx "group" 1 <> 1 ->
     (forall ty0 ds0,
        inputTypes ctx !! 0%nat = Some (Some ty0) -> shape ty0 = Some ds0 ->
        (2 <= length ds0)%nat /\
        (op = Conv -> well_formed ctx "dilations" (length ds0 - 2))) ->
     skips out (infer_sliding_window op ctx out))
  /\
  (forall (ctx : InferenceContext) (out : TypeProto),
     getAttribute ctx "group" 1 <> 1 ->
     skips out (convTransposeShapeInference ctx out)).
Proof.
  split.
  - intros op ctx out Hgroup Hrank. unfold infer_sliding_window.
    apply convPool_group_skips; [exact Hgroup|].
    intros ty0 ds0 Hin Hsh. destruct (Hrank _ _ Hin Hsh) as [Hlen Hdil].
    split; [exact Hlen|]. intros Hop. apply Hdil.
    destruct op; [reflexivity|discriminate..].
  - intros ctx out Hgroup. apply convTranspose_unsupported_skips.
    right. right. exact Hgroup.
Qed.

Lemma group_not_1_skips_witness :
  skips TypeProto_empty (infer_sliding_window Conv group2_ctx TypeProto_empty)
  /\ skips TypeProto_empty (convTransposeShapeInference group2_ctx TypeProto_empty).
Proof.
  split.
  - apply (proj1 group_not_1_skips Conv group2_ctx TypeProto_empty).
    + vm_compute. discriminate.
    + intros ty0 ds0 Hin Hsh. vm_compute in Hin. injection Hin as <-.
      vm_compute in Hsh. injection Hsh as <-.
      split; [simpl; lia|].
      intros _ v Hv. vm_compute in Hv. discriminate.
  - apply (proj2 group_not_1_skips group2_ctx TypeProto_empty).
    vm_compute. discriminate.
Defined.

Lemma group_not_1_fails_counterexample :
  getAttribute group2_dilations1_ctx "group" 1 = 2
  /\ infer_sliding_window Conv group2_dilations1_ctx TypeProto_empty
     = (Failed "Attribute dilations has incorrect size", mkType FLOAT None)
  /\ ~ skips TypeProto_empty
         (infer_sliding_window Conv group2_dilations1_ctx TypeProto_empty).
Proof.
  split; [vm_compute; reflexivity|].
  split; [vm_compute; reflexivity|].
  intros [H _]. vm_compute in H. discriminate.
Qed.

(** ** ConvTranspose: the two output modes *)

Lemma convTranspose_reaches_output ctx ty0 n c spatial m ch kernel :
  convTranspose_ready ctx ty0 n c spatial m ch kernel ->
  convTransposeShapeInference ctx TypeProto_empty
  = call (convTranspose_output (n :: c :: spatial)
            (attr_or_default ctx "pads" (length spatial * 2) 0)
            (attr_or_default ctx "strides" (length spatial) 1)
            kernel
            (default [] (getRepeatedAttribute ctx "output_shape"))
            (attr_or_default ctx "output_padding" (length spatial) 0))
         (mkType (elem_type ty0) (Some [n; ch])).
Proof.
  intros [Hin Hsh [wrest Hws] Hauto Hgroup Hdil Hpads Hstrides Hkattr Hkernel
          Hos Hop].
  destruct (second_input_dims_Some _ _ Hws) as (ty1 & Hin1 & Hsh1).
  unfold resolved_kernel in Hkernel. rewrite Hws in Hkernel.
  unfold convTransposeShapeInference, call at 1, convTranspose_body.
  rewrite (bind_run _ _ _ _ _ (propagate_known _ _ _ Hin)).
  rewrite (hasNInputShapes_2 _ _ _ _ _ Hin Hsh Hin1 Hsh1).
  rewrite (getInputShape_known _ _ _ _ Hin Hsh), (getInputShape_known _ _ _ _ Hin1 Hsh1).
  rewrite (no_attribute_check _ _ Hauto), Hgroup, Hdil.
  run. rewrite (bool_decide_eq_false_2 (length (n :: c :: spatial) < 2)%nat)
    by (simpl; lia).
  change (1 =? 1) with true.
  rewrite (bool_decide_eq_false_2 (is_Some (@None (list Z))))
    by (intros [? ?]; discriminate).
  run. rewrite !spatial_rank.
  rewrite (checked_attribute _ _ _ _ _ _ _ Hpads).
  rewrite (checked_attribute _ _ _ _ _ _ _ Hstrides).
  assert (Hk : forall B (k : list Z -> M B) out,
    bind (match getRepeatedAttribute ctx "kernel_shape" with
          | Some kernel_shape =>
              when (negb (bool_decide (length kernel_shape = length spatial)))
                return_ ;;
              ret kernel_shape
          | None =>
              second_input_shape <- ret (m :: ch :: wrest) ;;
              push_back_dim_values (drop 2 second_input_shape) []
          end) k out = k kernel out).
  { intros B k out. specialize (Hkattr kernel).
    destruct (getRepeatedAttribute ctx "kernel_shape") as [k0|].
    - rewrite bool_decide_eq_true_2 by (injection Hkernel as ->; auto).
      injection Hkernel as ->. reflexivity.
    - run. rewrite (bind_run _ _ _ _ _ (known_values_push _ _ _ _ Hkernel)).
      reflexivity. }
  rewrite Hk.
  assert (Ho : forall B (k : list Z -> M B) out,
    bind (match getRepeatedAttribute ctx "output_shape" with
          | Some output_shape =>
              when (negb (bool_decide (length output_shape = length spatial)))
                return_ ;;
              ret output_shape
          | None => ret []
          end) k out = k (default [] (getRepeatedAttribute ctx "output_shape")) out).
  { intros B k out.
    destruct (getRepeatedAttribute ctx "output_shape") as [os|] eqn:Eos;
      [|reflexivity].
    rewrite bool_decide_eq_true_2 by (apply Hos; exact Eos). reflexivity. }
  rewrite Ho.
  rewrite (checked_attribute _ _ _ _ _ _ _ Hop).
  run. cbn [dim_at lookup list_lookup]. run.
  rewrite add_dim_copy_bind. run.
  cbn [dim_at lookup list_lookup]. run.
  rewrite add_dim_copy_bind. run.
  reflexivity.
Qed.

Lemma convtranspose_arith s x op k pb pa :
  Int64.sub (Int64.sub (Int64.add (Int64.mul s (Int64.sub x 1)) (Int64.add op k)) pb) pa
  = Int64.wrap (convtranspose_dim s x op k pb pa).
Proof.
  unfold Int64.sub, Int64.add, Int64.mul, convtranspose_dim.
  destruct (Int64Facts.wrap_ex (x - 1)) as [q1 ->].
  destruct (Int64Facts.wrap_ex (s * (x - 1 + 2 ^ 64 * q1))) as [q2 ->].
  destruct (Int64Facts.wrap_ex (op + k)) as [q3 ->].
  destruct (Int64Facts.wrap_ex (s * (x - 1 + 2 ^ 64 * q1) + 2 ^ 64 * q2
                           + (op + k + 2 ^ 64 * q3))) as [q4 ->].
  destruct (Int64Facts.wrap_ex (s * (x - 1 + 2 ^ 64 * q1) + 2 ^ 64 * q2
                           + (op + k + 2 ^ 64 * q3) + 2 ^ 64 * q4 - pb)) as [q5 ->].
  rewrite <- (Int64Facts.wrap_shift (s * (x - 1) + op + k - pb - pa)
               (s * q1 + q2 + q3 + q4 + q5)).
  f_equal. ring.
Qed.

Lemma convTranspose_axis_known e ds input_shape pads strides kernel_shape
    output_padding i x s op k pb pa :
  input_shape !! (2 + i)%nat = Some (DimValue x) ->
  strides !! i = Some s ->
  output_padding !! i = Some op ->
  kernel_shape !! i = Some k ->
  pads !! i = Some pb ->
  pads !! (i + length kernel_shape)%nat = Some pa ->
  Int64.fits (convtranspose_dim s x op k pb pa) ->
  convTranspose_axis input_shape pads strides kernel_shape output_padding i
    (mkType e (Some ds))
  = (Next tt, mkType e (Some (ds ++ [DimValue (convtranspose_dim s x op k pb pa)]))).
Proof.
  intros Hx Hs Hop Hk Hpb Hpa Hfits.
  unfold convTranspose_axis.
  rewrite (bind_run _ _ _ _ _ (add_dim_run e ds)).
  rewrite (dim_at_Some _ _ _ Hx). run. cbn [has_dim_value dim_value].
  rewrite (vec_at_Some _ _ _ Hs), (vec_at_Some _ _ _ Hop), (vec_at_Some _ _ _ Hk),
    (vec_at_Some _ _ _ Hpb), (vec_at_Some _ _ _ Hpa).
  run. rewrite convtranspose_arith, (Int64Facts.wrap_fits _ Hfits). apply set_new_dim.
Qed.

Lemma convTranspose_loop e n0 c0 xs pads strides kernel output_padding :
  length kernel = length xs ->
  length pads = (length xs * 2)%nat ->
  length strides = length xs ->
  length output_padding = length xs ->
  (forall i, (i < length xs)%nat ->
     Int64.fits (convtranspose_axis_dim xs pads strides kernel output_padding i)) ->
  forall count from ds,
  (from + count = length xs)%nat ->
  for_ from count
    (convTranspose_axis (n0 :: c0 :: (DimValue <$> xs)) pads strides kernel
       output_padding)
    (mkType e (Some ds))
  = (Next tt,
     mkType e (Some (ds ++
       ((fun i => DimValue (convtranspose_axis_dim xs pads strides kernel
                              output_padding i))
          <$> seq from count)))).
Proof.
  intros Hk Hp Hs Ho Hfits.
  induction count as [|count IH]; intros from ds Hlen; simpl.
  - rewrite app_nil_r. reflexivity.
  - erewrite bind_run; cycle 1.
    { apply convTranspose_axis_known with (i := from);
        try (apply list_lookup_lookup_total_lt; lia).
      - simpl. rewrite list_lookup_fmap.
        rewrite (list_lookup_lookup_total_lt xs from) by lia. reflexivity.
      - apply Hfits. lia. }
    rewrite IH by lia. rewrite <- app_assoc. reflexivity.
Qed.

(** C4 (amended).  ConvTranspose without auto_pad, without a dilations
    attribute, with group = 1, without output_shape, with known input spatial
    dimensions, attributes of well-formed lengths and a resolved kernel shape with one
    entry per spatial axis (the weights have rank at least 2), and results
    that fit int64: the output is the batch dimension of the first input, the
    second dimension of the weights and, for every spatial axis i,
      stride[i]*(input_dim[i]-1) + output_padding[i] + kernel[i]
        - pad_before[i] - pad_after[i].
    Whenever auto_pad or dilations is present or group is not 1, inference
    returns without error and writes no output shape. *)
Theorem convtranspose_output_shape :
  (forall (ctx : InferenceContext) (ty0 : TypeProto) (n c m ch : Dimension)
          (xs kernel : list Z),
     let pads := attr_or_default ctx "pads" (length xs * 2) 0 in
     let strides := attr_or_default ctx "strides" (length xs) 1 in
     let output_padding := attr_or_default ctx "output_padding" (length xs) 0 in
     convTranspose_ready ctx ty0 n c (DimValue <$> xs) m ch kernel ->
     getRepeatedAttribute ctx "output_shape" = None ->
     length kernel = length xs ->
     (forall i, (i < length xs)%nat ->
        Int64.fits (convtranspose_axis_dim xs pads strides kernel output_padding i)) ->
     convTransposeShapeInference ctx TypeProto_empty
     = (Returned,
        mkType (elem_type ty0)
          (Some (n :: ch :: convtranspose_dims xs pads strides kernel output_padding))))
  /\
  (forall (ctx : InferenceContext) (out : TypeProto),
     convTranspose_unsupported ctx ->
     skips out (convTransposeShapeInference ctx out)).
Proof.
  split; [|exact convTranspose_unsupported_skips].
  intros ctx ty0 n c m ch xs kernel pads strides output_padding Hready Hos Hklen Hfits.
  rewrite (convTranspose_reaches_output _ _ _ _ _ _ _ _ Hready).
  rewrite Hos, length_fmap. cbn [default].
  unfold convTranspose_output, call. cbn [length].
  rewrite (bool_decide_eq_false_2 (0 < 0)%nat) by lia.
  destruct Hready as [_ _ _ _ _ _ Hpads Hstrides _ _ _ Hop].
  rewrite length_fmap in Hpads, Hstrides, Hop.
  rewrite (convTranspose_loop (elem_type ty0) n c xs);
    rewrite ?well_formed_length; auto; try lia.
  unfold convtranspose_dims. rewrite Hklen. reflexivity.
Qed.

Lemma accepted_all os : forall ds,
  length os = length ds ->
  (forall i o d, os !! i = Some o -> ds !! i = Some d -> dim_value d <= o) ->
  accepted os ds = os.
Proof.
  induction os as [|o os IH]; intros [|d ds] Hlen Hall; simpl in *;
    try reflexivity; try discriminate.
  pose proof (Hall 0%nat o d eq_refl eq_refl) as H0.
  destruct (Z.ltb_spec o (dim_value d)) as [Hlt|_]; [lia|].
  f_equal. apply IH; [lia|].
  intros i o' d' Ho Hd. exact (Hall (S i) o' d' Ho Hd).
Qed.

Lemma accepted_stops os : forall ds j o d,
  os !! j = Some o -> ds !! j = Some d -> o < dim_value d ->
  (forall i o' d', (i < j)%nat -> os !! i = Some o' -> ds !! i = Some d' ->
                   dim_value d' <= o') ->
  accepted os ds = take j os.
Proof.
  induction os as [|o0 os IH]; intros [|d0 ds] j o d Ho Hd Hlt Hbefore;
    simpl in *; try discriminate.
  destruct j as [|j]; simpl in *.
  - injection Ho as ->. injection Hd as ->.
    destruct (Z.ltb_spec o (dim_value d)); [reflexivity|lia].
  - pose proof (Hbefore 0%nat o0 d0 ltac:(lia) eq_refl eq_refl) as H0.
    destruct (Z.ltb_spec o0 (dim_value d0)) as [?|_]; [lia|].
    f_equal. apply (IH ds j o d Ho Hd Hlt).
    intros i o' d' Hi Ho' Hd'. apply (Hbefore (S i) o' d'); [lia|assumption..].
Qed.

Lemma accepted_lookup os : forall ds j o d,
  os !! j = Some o -> ds !! j = Some d -> dim_value d <= o ->
  (forall i o' d', (i < j)%nat -> os !! i = Some o' -> ds !! i = Some d' ->
                   dim_value d' <= o') ->
  accepted os ds !! j = Some o.
Proof.
  induction os as [|o0 os IH]; intros [|d0 ds] j o d Ho Hd Hle Hbefore;
    simpl in *; try discriminate.
  destruct j as [|j]; simpl in *.
  - injection Ho as ->. injection Hd as ->.
    destruct (Z.ltb_spec o (dim_value d)); [lia|reflexivity].
  - pose proof (Hbefore 0%nat o0 d0 ltac:(lia) eq_refl eq_refl) as H0.
    destruct (Z.ltb_spec o0 (dim_value d0)) as [?|_]; [lia|]. simpl.
    apply (IH ds j o d Ho Hd Hle).
    intros i o' d' Hi Ho' Hd'. apply (Hbefore (S i) o' d'); [lia|assumption..].
Qed.

(** The loop over an explicit output shape: it runs to its end or leaves by
    [return]; either way it has appended the accepted entries. *)
Lemma convTranspose_given_loop e n0 c0 spatial os :
  length os = length spatial ->
  forall count from ds,
  (from + count = length os)%nat ->
  exists r,
    (r = Next tt \/ r = Return) /\
    for_ from count (convTranspose_given_axis (n0 :: c0 :: spatial) os)
      (mkType e (Some ds))
    = (r, mkType e (Some (ds ++
         (DimValue <$> accepted (drop from os) (drop from spatial))))).
Proof.
  intros Hlen.
  induction count as [|count IH]; intros from ds Hfrom; simpl.
  - exists (Next tt). split; [left; reflexivity|].
    rewrite drop_ge by lia. simpl. rewrite app_nil_r. reflexivity.
  - destruct (lookup_lt_is_Some_2 os from ltac:(lia)) as [o Ho].
    destruct (lookup_lt_is_Some_2 spatial from ltac:(lia)) as [d Hd].
    rewrite (drop_S _ _ _ Ho), (drop_S _ _ _ Hd). simpl.
    unfold convTranspose_given_axis at 1.
    rewrite (vec_at_Some _ _ _ Ho).
    assert (Hd' : (n0 :: c0 :: spatial) !! (from + 2)%nat = Some d).
    { replace (from + 2)%nat with (S (S from)) by lia. exact Hd. }
    rewrite (dim_at_Some _ _ _ Hd'). run.
    destruct (o <? dim_value d); run.
    + exists Return. split; [right; reflexivity|].
      simpl. rewrite app_nil_r. reflexivity.
    + rewrite (bind_run _ _ _ _ _ (add_dim_run e ds)).
      rewrite (bind_run _ _ _ _ _ (set_new_dim e ds DimUnset o)).
      destruct (IH (S from) (ds ++ [DimValue o]) ltac:(lia)) as (r & Hr & ->).
      exists r. split; [exact Hr|].
      simpl. rewrite <- app_assoc. reflexivity.
Qed.

Lemma convTranspose_given_output e n c spatial pads strides kernel os opad d0 d1 :
  length os = length spatial ->
  length kernel = length spatial ->
  call (convTranspose_output (n :: c :: spatial) pads strides kernel os opad)
    (mkType e (Some [d0; d1]))
  = (Returned, mkType e (Some (d0 :: d1 :: (DimValue <$> accepted os spatial)))).
Proof.
  intros Hlen Hklen. unfold convTranspose_output, call.
  destruct (decide (0 < length os)%nat) as [Hpos|Hzero].
  - rewrite (bool_decide_eq_true_2 _ Hpos).
    destruct (convTranspose_given_loop e n c spatial os Hlen (length os) 0 [d0; d1]
                ltac:(lia)) as (r & [-> | ->] & Hloop);
      rewrite (bind_run _ _ _ _ _ Hloop); reflexivity.
  - rewrite (bool_decide_eq_false_2 _ Hzero).
    destruct os; [|simpl in Hzero; lia].
    destruct spatial; [|discriminate]. destruct kernel; [|discriminate].
    reflexivity.
Qed.

Lemma convTranspose_explicit ctx ty0 n c spatial m ch kernel os :
  convTranspose_ready ctx ty0 n c spatial m ch kernel ->
  getRepeatedAttribute ctx "output_shape" = Some os ->
  length kernel = length spatial ->
  length os = length spatial /\
  convTransposeShapeInference ctx TypeProto_empty
  = (Returned,
     mkType (elem_type ty0) (Some (n :: ch :: (DimValue <$> accepted os spatial)))).
Proof.
  intros Hready Hos Hklen.
  assert (Hlen : length os = length spatial)
    by (apply (ready_output_shape _ _ _ _ _ _ _ _ Hready); exact Hos).
  split; [exact Hlen|].
  rewrite (convTranspose_reaches_output _ _ _ _ _ _ _ _ Hready), Hos.
  cbn [default]. apply convTranspose_given_output; assumption.
Qed.

(** C5.  ConvTranspose past its guards (see [convTranspose_ready]) with an
    explicit output_shape attribute (whose length is the spatial rank) and a
    kernel shape with one entry per spatial axis: when every entry of
    output_shape is at least [dim_value()] of the input dimension of its
    axis, the output spatial dimensions are exactly the attribute values, no
    formula is applied.  When entry j is the first that is smaller than the
    input dimension, inference returns there: the entries before j have been
    written and nothing is written at axis j or after it. *)
Theorem convtranspose_explicit_output_shape (ctx : InferenceContext)
    (ty0 : TypeProto) (n c m ch : Dimension) (spatial : list Dimension)
    (kernel os : list Z) :
  convTranspose_ready ctx ty0 n c spatial m ch kernel ->
  getRepeatedAttribute ctx "output_shape" = Some os ->
  length kernel = length spatial ->
  ((forall i o d, os !! i = Some o -> spatial !! i = Some d -> dim_value d <= o) ->
   convTransposeShapeInference ctx TypeProto_empty
   = (Returned, mkType (elem_type ty0) (Some (n :: ch :: (DimValue <$> os)))))
  /\
  (forall j o d,
     os !! j = Some o -> spatial !! j = Some d -> o < dim_value d ->
     (forall i o' d', (i < j)%nat -> os !! i = Some o' -> spatial !! i = Some d' ->
                      dim_value d' <= o') ->
     convTransposeShapeInference ctx TypeProto_empty
     = (Returned,
        mkType (elem_type ty0) (Some (n :: ch :: (DimValue <$> take j os))))).
Proof.
  intros Hready Hos Hklen.
  destruct (convTranspose_explicit _ _ _ _ _ _ _ _ _ Hready Hos Hklen) as [Hlen ->].
  split.
  - intros Hall. rewrite (accepted_all _ _ Hlen Hall). reflexivity.
  - intros j o d Ho Hd Hlt Hbefore.
    rewrite (accepted_stops _ _ _ _ _ Ho Hd Hlt Hbefore). reflexivity.
Qed.

(** A negative entry of output_shape at an axis without a known input
    dimension is smaller than the default 0: inference stops at that axis. *)
Lemma convtranspose_negative_entry_stops ctx ty0 n c m ch spatial kernel os j o d :
  convTranspose_ready ctx ty0 n c spatial m ch kernel ->
  getRepeatedAttribute ctx "output_shape" = Some os ->
  length kernel = length spatial ->
  os !! j = Some o ->
  spatial !! j = Some d ->
  has_dim_value d = false ->
  (forall i o' d', (i < j)%nat -> os !! i = Some o' -> spatial !! i = Some d' ->
                   dim_value d' <= o') ->
  o < 0 ->
  convTransposeShapeInference ctx TypeProto_empty
  = (Returned, mkType (elem_type ty0) (Some (n :: ch :: (DimValue <$> take j os)))).
Proof.
  intros Hready Hos Hklen Ho Hd Hunknown Hbefore Hneg.
  destruct (convTranspose_explicit _ _ _ _ _ _ _ _ _ Hready Hos Hklen) as [Hlen ->].
  assert (Hzero : dim_value d = 0) by (destruct d; [discriminate|reflexivity..]).
  rewrite (accepted_stops _ _ _ _ _ Ho Hd ltac:(lia) Hbefore). reflexivity.
Qed.

(** C10.  In the explicit output_shape mode of ConvTranspose the comparison
    reads [dim_value()] of the input dimension without asking
    [has_dim_value()]: for an input spatial dimension without a value
    (symbolic or unset) entry j of output_shape is compared with the default
    0.  The check can then reject no entry that is a dimension, that is, none
    that is non-negative: the entry is written as output dimension 2+j,
    whatever the input dimension stands for. *)
Theorem convtranspose_unknown_dim_unvalidated (ctx : InferenceContext)
    (ty0 : TypeProto) (n c m ch : Dimension) (spatial : list Dimension)
    (kernel os : list Z) (j : nat) (o : Z) (d : Dimension) :
  convTranspose_ready ctx ty0 n c spatial m ch kernel ->
  getRepeatedAttribute ctx "output_shape" = Some os ->
  length kernel = length spatial ->
  os !! j = Some o ->
  spatial !! j = Some d ->
  has_dim_value d = false ->
  (forall i o' d', (i < j)%nat -> os !! i = Some o' -> spatial !! i = Some d' ->
                   dim_value d' <= o') ->
  0 <= o ->
  dim_value d = 0 /\
  exists dims,
    convTransposeShapeInference ctx TypeProto_empty
    = (Returned, mkType (elem_type ty0) (Some dims)) /\
    dims !! (2 + j)%nat = Some (DimValue o).
Proof.
  intros Hready Hos Hklen Ho Hd Hunknown Hbefore Hnonneg.
  destruct (convTranspose_explicit _ _ _ _ _ _ _ _ _ Hready Hos Hklen) as [Hlen ->].
  assert (Hzero : dim_value d = 0) by (destruct d; [discriminate|reflexivity..]).
  split; [exact Hzero|].
  eexists. split; [reflexivity|].
  change ((n :: ch :: (DimValue <$> accepted os spatial)) !! (2 + j)%nat)
    with ((DimValue <$> accepted os spatial) !! j).
  rewrite list_lookup_fmap.
  rewrite (accepted_lookup _ _ _ _ _ Ho Hd ltac:(lia) Hbefore). reflexivity.
Qed.

Ltac concrete_well_formed :=
  let v := fresh "v" in
  let Hv := fresh "Hv" in
  intros v Hv; vm_compute in Hv;
  first [discriminate | injection Hv as <-; reflexivity].

Lemma convtranspose_ctx_ready attrs spatial :
  length spatial = 2%nat ->
  attrs !! "auto_pad" = None ->
  attrs !! "group" = None ->
  attrs !! "dilations" = None ->
  attrs !! "kernel_shape" = None ->
  well_formed (convtranspose_ctx attrs spatial) "pads" 4 ->
  well_formed (convtranspose_ctx attrs spatial) "strides" 2 ->
  well_formed (convtranspose_ctx attrs spatial) "output_shape" 2 ->
  well_formed (convtranspose_ctx attrs spatial) "output_padding" 2 ->
  convTranspose_ready (convtranspose_ctx attrs spatial)
    (mkType FLOAT (Some (DimValue 1 :: DimValue 2 :: spatial)))
    (DimValue 1) (DimValue 2) spatial (DimValue 2) (DimValue 4) [3; 3].
Proof.
  intros Hlen Hauto Hgroup Hdil Hkernel Hpads Hstrides Hos Hop.
  split; rewrite ?Hlen; try assumption; try reflexivity.
  - exists (known [3; 3]). reflexivity.
  - unfold getAttribute, ctx_getAttribute. simpl. rewrite Hgroup. reflexivity.
  - unfold getRepeatedAttribute, ctx_getAttribute. simpl. rewrite Hdil. reflexivity.
  - intros v Hv. unfold getRepeatedAttribute, ctx_getAttribute in Hv.
    simpl in Hv. rewrite Hkernel in Hv. discriminate.
  - unfold resolved_kernel, getRepeatedAttribute, ctx_getAttribute. simpl.
    rewrite Hkernel. reflexivity.
Qed.

(** 2*(3-1) + 1 + 3 - 1 - 1 = 6 on both axes; and group = 2 is skipped. *)
Lemma convtranspose_output_shape_witness :
  convTransposeShapeInference (convtranspose_ctx strided_attributes (known [3; 3]))
    TypeProto_empty
  = (Returned, mkType FLOAT (Some (known [1; 4; 6; 6])))
  /\ skips TypeProto_empty (convTransposeShapeInference group2_ctx TypeProto_empty).
Proof.
  split.
  - refine (eq_trans
      (proj1 convtranspose_output_shape
         (convtranspose_ctx strided_attributes (known [3; 3]))
         (mkType FLOAT (Some (known [1; 2; 3; 3])))
         (DimValue 1) (DimValue 2) (DimValue 2) (DimValue 4)
         [3; 3] [3; 3] _ eq_refl eq_refl _) eq_refl).
    + apply (convtranspose_ctx_ready strided_attributes (known [3; 3]));
        try reflexivity; concrete_well_formed.
    + intros i Hi. destruct i as [|[|i]]; [| |simpl in Hi; lia];
        vm_compute; split; intros; discriminate.
  - apply (proj2 convtranspose_output_shape group2_ctx TypeProto_empty).
    right. right. vm_compute. discriminate.
Defined.

(** A 10x10 input with weights of shape (2, 4, 3): the kernel shape resolved
    from the weights has the single entry 3, the pads [1; 2; 3; 4] have the four
    entries that two spatial axes ask for.  The loop runs over the kernel
    entries: it writes one spatial dimension, and takes pads[0 + 1] = 2 for the
    padding after axis 0, where the formula with the padding of axis 0, before 1
    and after 3, gives 1*(10-1) + 0 + 3 - 1 - 3 = 8. *)
Lemma convtranspose_short_kernel_counterexample :
  ctx_getAttribute convtranspose_short_kernel_ctx "auto_pad" = None
  /\ getRepeatedAttribute convtranspose_short_kernel_ctx "dilations" = None
  /\ getAttribute convtranspose_short_kernel_ctx "group" 1 = 1
  /\ getRepeatedAttribute convtranspose_short_kernel_ctx "output_shape" = None
  /\ getRepeatedAttribute convtranspose_short_kernel_ctx "pads" = Some [1; 2; 3; 4]
  /\ resolved_kernel false convtranspose_short_kernel_ctx = Some [3]
  /\ convTransposeShapeInference convtranspose_short_kernel_ctx TypeProto_empty
     = (Returned, mkType FLOAT (Some (known [1; 4; 9])))
  /\ convtranspose_dim 1 10 0 3 1 3 = 8
  /\ forall rest,
       shape (snd (convTransposeShapeInference convtranspose_short_kernel_ctx
                     TypeProto_empty))
       <> Some (DimValue 1 :: DimValue 4
                :: DimValue (convtranspose_dim 1 10 0 3 1 3) :: rest).
Proof.
  repeat (split; [vm_compute; reflexivity|]).
  intros rest. vm_compute. discriminate.
Qed.

(** output_shape = [5; 7] on a 3x3 input is taken as it is; output_shape =
    [5; 2] stops at axis 1, where 2 < 3, after writing 5. *)
Lemma convtranspose_explicit_output_shape_witness :
  convTransposeShapeInference
    (convtranspose_ctx (output_shape_attributes [5; 7]) (known [3; 3])) TypeProto_empty
  = (Returned, mkType FLOAT (Some (known [1; 4; 5; 7])))
  /\ convTransposeShapeInference
       (convtranspose_ctx (output_shape_attributes [5; 2]) (known [3; 3])) TypeProto_empty
     = (Returned, mkType FLOAT (Some (known [1; 4; 5]))).
Proof.
  split.
  - apply (proj1 (convtranspose_explicit_output_shape
             (convtranspose_ctx (output_shape_attributes [5; 7]) (known [3; 3]))
             _ _ _ _ _ (known [3; 3]) [3; 3] [5; 7]
             (convtranspose_ctx_ready (output_shape_attributes [5; 7]) (known [3; 3])
                eq_refl eq_refl eq_refl eq_refl eq_refl
                ltac:(concrete_well_formed) ltac:(concrete_well_formed)
                ltac:(concrete_well_formed) ltac:(concrete_well_formed))
             eq_refl eq_refl)).
    intros i o d Ho Hd.
    destruct i as [|[|i]]; simpl in Ho, Hd; try discriminate;
      injection Ho as <-; injection Hd as <-; simpl; lia.
  - apply (proj2 (convtranspose_explicit_output_shape
             (convtranspose_ctx (output_shape_attributes [5; 2]) (known [3; 3]))
             _ _ _ _ _ (known [3; 3]) [3; 3] [5; 2]
             (convtranspose_ctx_ready (output_shape_attributes [5; 2]) (known [3; 3])
                eq_refl eq_refl eq_refl eq_refl eq_refl
                ltac:(concrete_well_formed) ltac:(concrete_well_formed)
                ltac:(concrete_well_formed) ltac:(concrete_well_formed))
             eq_refl eq_refl) 1%nat 2 (DimValue 3) eq_refl eq_refl).
    + simpl. lia.
    + intros i o' d' Hi Ho Hd.
      destruct i as [|i]; [|lia]. simpl in Ho, Hd.
      injection Ho as <-. injection Hd as <-. simpl. lia.
Defined.

(** A symbolic height: output_shape = [1; 7] passes although nothing is known
    about the height. *)
Lemma convtranspose_unknown_dim_unvalidated_witness :
  dim_value (DimParam "H") = 0 /\
  exists dims,
    convTransposeShapeInference
      (convtranspose_ctx (output_shape_attributes [1; 7]) [DimParam "H"; DimValue 3])
      TypeProto_empty
    = (Returned, mkType FLOAT (Some dims)) /\
    dims !! 2%nat = Some (DimValue 1).
Proof.
  apply (convtranspose_unknown_dim_unvalidated
           (convtranspose_ctx (output_shape_attributes [1; 7]) [DimParam "H"; DimValue 3])
           _ _ _ _ _ [DimParam "H"; DimValue 3] [3; 3] [1; 7] 0%nat 1 (DimParam "H")
           (convtranspose_ctx_ready (output_shape_attributes [1; 7])
              [DimParam "H"; DimValue 3]
              eq_refl eq_refl eq_refl eq_refl eq_refl
              ltac:(concrete_well_formed) ltac:(concrete_well_formed)
              ltac:(concrete_well_formed) ltac:(concrete_well_formed))
           eq_refl eq_refl eq_refl eq_refl eq_refl).
  - intros i o' d' Hi. lia.
  - lia.
Defined.

(** ** MaxRoiPool *)

(** C8 (amended).  MaxRoiPool with two known input shapes: a first input of
    rank below 2, a second input whose rank is not exactly 2, an absent
    pooled_shape attribute, or a pooled_shape whose length differs from the
    rank of the first input minus 2 (so length 2 for a first input of rank 4)
    is a hard failure that writes no output shape.  Otherwise, when
    pooled_shape has at least the two entries that are read, the output shape
    is [leading dimension of the second input, second dimension of the first
    input, pooled_shape[0], pooled_shape[1]]: the first two are copied as they
    are, known or not, the last two come from the attribute. *)
Theorem roipool_output_shape (ctx : InferenceContext) (ty0 ty1 : TypeProto)
    (ds0 ds1 : list Dimension) :
  inputTypes ctx !! 0%nat = Some (Some ty0) ->
  shape ty0 = Some ds0 ->
  inputTypes ctx !! 1%nat = Some (Some ty1) ->
  shape ty1 = Some ds1 ->
  (((length ds0 < 2)%nat \/ length ds1 <> 2%nat \/
    getRepeatedAttribute ctx "pooled_shape" = None \/
    malformed ctx "pooled_shape" (length ds0 - 2)) ->
   exists msg,
     roiPoolTypeShapeInference ctx TypeProto_empty
     = (Failed msg, mkType (elem_type ty0) None))
  /\
  (forall r0 r1 n c spatial p0 p1 prest,
     ds1 = [r0; r1] ->
     ds0 = n :: c :: spatial ->
     getRepeatedAttribute ctx "pooled_shape" = Some (p0 :: p1 :: prest) ->
     length (p0 :: p1 :: prest) = length spatial ->
     roiPoolTypeShapeInference ctx TypeProto_empty
     = (Returned,
        mkType (elem_type ty0) (Some [r0; c; DimValue p0; DimValue p1]))).
Proof.
  intros Hin Hsh Hin1 Hsh1.
  assert (Hstart : roiPoolTypeShapeInference ctx TypeProto_empty
    = call (
        when (bool_decide (length ds0 < 2)%nat)
          (fail_shape_inference "Input tensor must have at least 2 dimensions") ;;
        when (negb (bool_decide (length ds1 = 2%nat)))
          (fail_shape_inference "RoIs tensor must have 2 dimensions") ;;
        pooled_shape <-
          match getRepeatedAttribute ctx "pooled_shape" with
          | Some pooled_shape =>
              when (negb (bool_decide (length pooled_shape = (length ds0 - 2)%nat)))
                (fail_shape_inference "Attribute pooled_shape has incorrect length") ;;
              ret pooled_shape
          | None => fail_shape_inference "Attribute pooled_shape must be specified"
          end ;;
        mutable_shape ;;
        r0 <- dim_at ds1 0 ;; add_dim_copy r0 ;;
        c1 <- dim_at ds0 1 ;; add_dim_copy c1 ;;
        h <- add_dim ;; p0 <- vec_at pooled_shape 0 ;; set_dim_value h p0 ;;
        w <- add_dim ;; p1 <- vec_at pooled_shape 1 ;; set_dim_value w p1)
      (mkType (elem_type ty0) None)).
  { unfold roiPoolTypeShapeInference, call, roiPool_body.
    rewrite (bind_run _ _ _ _ _ (propagate_known _ _ _ Hin)).
    rewrite (hasNInputShapes_2 _ _ _ _ _ Hin Hsh Hin1 Hsh1).
    rewrite (getInputShape_known _ _ _ _ Hin Hsh), (getInputShape_known _ _ _ _ Hin1 Hsh1).
    run. reflexivity. }
  rewrite Hstart. unfold call. split.
  - intros Hcase.
    destruct (decide (length ds0 < 2)%nat) as [L0|L0].
    { rewrite (bool_decide_eq_true_2 _ L0). run. eexists. reflexivity. }
    rewrite (bool_decide_eq_false_2 _ L0). run.
    destruct (decide (length ds1 = 2%nat)) as [L1|L1].
    2:{ rewrite (bool_decide_eq_false_2 _ L1). run. eexists. reflexivity. }
    rewrite (bool_decide_eq_true_2 _ L1). run.
    destruct (getRepeatedAttribute ctx "pooled_shape") as [ps|] eqn:Eps.
    2:{ run. eexists. reflexivity. }
    destruct (decide (length ps = (length ds0 - 2)%nat)) as [L2|L2].
    2:{ rewrite (bool_decide_eq_false_2 _ L2). run. eexists. reflexivity. }
    exfalso. destruct Hcase as [H|[H|[H|(v & Hv & Hne)]]];
      [lia | contradiction | discriminate | ].
    rewrite Eps in Hv. injection Hv as <-. contradiction.
  - intros r0 r1 n c spatial p0 p1 prest -> -> Hps Hlen.
    rewrite Hps.
    rewrite (bool_decide_eq_false_2 (length (n :: c :: spatial) < 2)%nat)
      by (simpl; lia).
    rewrite (bool_decide_eq_true_2 (length [r0; r1] = 2%nat)) by reflexivity.
    rewrite spatial_rank, (bool_decide_eq_true_2 _ Hlen).
    run. cbn [dim_at lookup list_lookup]. run.
    rewrite add_dim_copy_bind. run.
    cbn [dim_at lookup list_lookup]. run.
    rewrite add_dim_copy_bind. run.
    rewrite (bind_run _ _ _ _ _ (add_dim_run _ _)).
    cbn [vec_at lookup list_lookup]. run.
    rewrite (bind_run _ _ _ _ _ (set_new_dim _ _ _ _)).
    rewrite (bind_run _ _ _ _ _ (add_dim_run _ _)).
    cbn [vec_at lookup list_lookup]. run.
    rewrite (set_new_dim _ _ _ _). reflexivity.
Qed.

(** An absent attribute fails; a 4-dimensional input with pooled_shape [7; 7]
    gives (num_rois, C, 7, 7) with num_rois and C symbolic. *)
Lemma roipool_output_shape_witness :
  (exists msg,
     roiPoolTypeShapeInference
       (mkCtx ∅ [tensor (known [1; 3; 8; 8]); tensor (known [4; 5])]) TypeProto_empty
     = (Failed msg, mkType FLOAT None))
  /\ roiPoolTypeShapeInference
       (roi_ctx [DimValue 1; DimParam "C"; DimValue 8; DimValue 8] [7; 7])
       TypeProto_empty
     = (Returned,
        mkType FLOAT
          (Some [DimParam "num_rois"; DimParam "C"; DimValue 7; DimValue 7])).
Proof.
  split.
  - apply (proj1 (roipool_output_shape
             (mkCtx ∅ [tensor (known [1; 3; 8; 8]); tensor (known [4; 5])])
             (mkType FLOAT (Some (known [1; 3; 8; 8])))
             (mkType FLOAT (Some (known [4; 5])))
             (known [1; 3; 8; 8]) (known [4; 5])
             eq_refl eq_refl eq_refl eq_refl)).
    right. right. left. reflexivity.
  - apply (proj2 (roipool_output_shape
             (roi_ctx [DimValue 1; DimParam "C"; DimValue 8; DimValue 8] [7; 7])
             (mkType FLOAT (Some [DimValue 1; DimParam "C"; DimValue 8; DimValue 8]))
             (mkType FLOAT (Some [DimParam "num_rois"; DimValue 5]))
             _ _ eq_refl eq_refl eq_refl eq_refl)
            _ _ _ _ [DimValue 8; DimValue 8] 7 7 [] eq_refl eq_refl eq_refl eq_refl).
Defined.

(** A first input of rank 3 with a pooled_shape of length 2: the length is
    compared with rank - 2 = 1 and inference fails. *)
Lemma roipool_rank3_counterexample :
  let ctx := roi_ctx (known [1; 3; 8]) [7; 7] in
  getRepeatedAttribute ctx "pooled_shape" = Some [7; 7]
  /\ roiPoolTypeShapeInference ctx TypeProto_empty
     = (Failed "Attribute pooled_shape has incorrect length", mkType FLOAT None)
  /\ roiPoolTypeShapeInference ctx TypeProto_empty
     <> (Returned,
         mkType FLOAT
           (Some [DimParam "num_rois"; DimValue 3; DimValue 7; DimValue 7])).
Proof.
  split; [vm_compute; reflexivity|].
  split; [vm_compute; reflexivity|].
  vm_compute. discriminate.
Qed.

(** ** Flatten *)

Lemma static_cast_int_id z : - 2 ^ 31 <= z < 2 ^ 31 -> static_cast_int z = z.
Proof. intros H. unfold static_cast_int. rewrite Z.mod_small; lia. Qed.

Lemma foldl_Dimension_mul_unset ds : foldl Dimension_mul DimUnset ds = DimUnset.
Proof. induction ds as [|d ds IH]; simpl; [reflexivity|exact IH]. Qed.

Lemma foldl_Dimension_mul ds : forall a,
  foldl Dimension_mul (DimValue a) ds
  = match known_values ds with
    | Some vs => DimValue (a * foldr Z.mul 1 vs)
    | None => DimUnset
    end.
Proof.
  induction ds as [|d ds IH]; intros a; simpl.
  - f_equal. lia.
  - destruct d as [v| |]; simpl; try apply foldl_Dimension_mul_unset.
    change (Dimension_mul (DimValue a) (DimValue v)) with (DimValue (a * v)).
    rewrite IH. destruct (known_values ds) as [vs|]; simpl; [|reflexivity].
    f_equal. lia.
Qed.

Lemma multiplyDims_product s from upto :
  multiplyDims s from upto = product_dim (take (upto - from) (drop from s)).
Proof.
  unfold multiplyDims, product_dim. rewrite foldl_Dimension_mul.
  destruct (known_values _); [|reflexivity]. f_equal. lia.
Qed.

Lemma updateOutputShape_two e d0 d1 :
  updateOutputShape [d0; d1] (mkType e None)
  = (Next tt, mkType e (Some [d0; d1])).
Proof.
  unfold updateOutputShape. simpl. run.
  rewrite add_dim_copy_bind. run. rewrite add_dim_copy_bind. reflexivity.
Qed.

Lemma product_dim_is_product ds : is_product (product_dim ds) ds.
Proof.
  unfold is_product, product_dim. destruct (known_values ds); reflexivity.
Qed.

(** Flatten where the cast is harmless.  Flatten on an input of known rank
    R, with axis the attribute (default 1) as the code reads it, cast to int
    (the attribute itself when it is in the range of int): axis < 0 or axis > R is a hard failure that writes no
    shape; otherwise the output shape has exactly two dimensions, the product
    of the input dimensions [0, axis) and the product of the input dimensions
    [axis, R), a product being unknown as soon as one factor is unknown. *)
Theorem flatten_output_shape (ctx : InferenceContext) (ty : TypeProto)
    (ds : list Dimension) :
  inputTypes ctx !! 0%nat = Some (Some ty) ->
  shape ty = Some ds ->
  let axis := flatten_axis ctx in
  let R := Z.of_nat (length ds) in
  (axis < 0 \/ axis > R ->
   exists msg,
     Flatten_TypeAndShapeInferenceFunction ctx TypeProto_empty
     = (Failed msg, mkType (elem_type ty) None))
  /\ (0 <= axis <= R ->
      exists dim0 dim1,
        Flatten_TypeAndShapeInferenceFunction ctx TypeProto_empty
        = (Returned, mkType (elem_type ty) (Some [dim0; dim1])) /\
        is_product dim0 (take (Z.to_nat axis) ds) /\
        is_product dim1 (drop (Z.to_nat axis) ds))
  /\ (- 2 ^ 31 <= getAttribute ctx "axis" 1 < 2 ^ 31 ->
      axis = getAttribute ctx "axis" 1).
Proof.
  intros Hin Hsh axis R.
  assert (Hstart : Flatten_TypeAndShapeInferenceFunction ctx TypeProto_empty
    = call (
        when ((axis >? R) || (axis <? 0))
          (fail_shape_inference
             ("Invalid value(" +:+ pretty axis +:+ ") for attribute 'axis'")) ;;
        updateOutputShape
          [multiplyDims ds 0 (Z.to_nat axis);
           multiplyDims ds (Z.to_nat axis) (Z.to_nat R)])
      (mkType (elem_type ty) None)).
  { unfold Flatten_TypeAndShapeInferenceFunction, call, Flatten_body.
    rewrite (bind_run _ _ _ _ _ (propagate_known _ _ _ Hin)).
    unfold hasInputShape. rewrite Hin, Hsh.
    rewrite (getInputShape_known _ _ _ _ Hin Hsh).
    cbn [bool_decide decide_rel]. run. reflexivity. }
  rewrite Hstart. unfold call. split; [|split].
  - intros Hcase.
    assert (Hc : (axis >? R) || (axis <? 0) = true).
    { apply orb_true_iff. destruct Hcase; [right|left]; lia. }
    rewrite Hc. run. eexists. reflexivity.
  - intros Hrange.
    assert (Hc : (axis >? R) || (axis <? 0) = false).
    { apply orb_false_iff. split; lia. }
    rewrite Hc. run.
    rewrite updateOutputShape_two.
    rewrite !multiplyDims_product. rewrite Nat.sub_0_r, drop_0.
    unfold R. rewrite Nat2Z.id.
    rewrite (take_ge (drop _ _)) by (rewrite length_drop; lia).
    eexists _, _. split; [reflexivity|].
    split; apply product_dim_is_product.
  - apply static_cast_int_id.
Qed.

(** Shape (2, 3, 4): axis 0 gives (1, 24), axis 2 gives (6, 4), axis 4 fails. *)
Lemma flatten_output_shape_witness :
  Flatten_TypeAndShapeInferenceFunction (flatten_ctx 0) TypeProto_empty
  = (Returned, mkType FLOAT (Some (known [1; 24])))
  /\ Flatten_TypeAndShapeInferenceFunction (flatten_ctx 2) TypeProto_empty
     = (Returned, mkType FLOAT (Some (known [6; 4])))
  /\ exists msg,
       Flatten_TypeAndShapeInferenceFunction (flatten_ctx 4) TypeProto_empty
       = (Failed msg, mkType FLOAT None).
Proof.
  split; [|split].
  - destruct (proj1 (proj2 (flatten_output_shape (flatten_ctx 0)
                       (mkType FLOAT (Some (known [2; 3; 4]))) (known [2; 3; 4])
                       eq_refl eq_refl)))
      as (dim0 & dim1 & -> & H0 & H1).
    + vm_compute. split; discriminate.
    + vm_compute in H0, H1. rewrite H0, H1. reflexivity.
  - destruct (proj1 (proj2 (flatten_output_shape (flatten_ctx 2)
                       (mkType FLOAT (Some (known [2; 3; 4]))) (known [2; 3; 4])
                       eq_refl eq_refl)))
      as (dim0 & dim1 & -> & H0 & H1).
    + vm_compute. split; discriminate.
    + vm_compute in H0, H1. rewrite H0, H1. reflexivity.
  - apply (proj1 (flatten_output_shape (flatten_ctx 4)
                    (mkType FLOAT (Some (known [2; 3; 4]))) (known [2; 3; 4])
                    eq_refl eq_refl)).
    right. vm_compute. reflexivity.
Defined.

(** C6.  The attribute axis is a 64-bit integer; its documentation (defs.cc,
    line 1107) says that it must be in the range [0, R], and the code checks
    [axis > rank || axis < 0].  The check is made after [static_cast<int>]:
    the axis 2^32 + 1 = 4294967297 on an input of shape (2, 3, 4) is greater
    than the rank 3, the cast turns it into 1, the check passes and inference
    returns the shape (2, 12) of axis 1 where a failure is due. *)
Lemma flatten_axis_beyond_int_accepted :
  getAttribute (flatten_ctx 4294967297) "axis" 1 = 2 ^ 32 + 1
  /\ getAttribute (flatten_ctx 4294967297) "axis" 1 > 3
  /\ flatten_axis (flatten_ctx 4294967297) = 1
  /\ Flatten_TypeAndShapeInferenceFunction (flatten_ctx 4294967297) TypeProto_empty
     = (Returned, mkType FLOAT (Some (known [2; 12])))
  /\ forall msg,
       fst (Flatten_TypeAndShapeInferenceFunction (flatten_ctx 4294967297)
              TypeProto_empty) <> Failed msg.
Proof.
  repeat (split; [vm_compute; reflexivity|]).
  intros msg. vm_compute. discriminate.
Qed.

(** ** Propagation of the element type *)

Section KeepsElemType.

Context {A B : Type}.

Lemma keeps_ret (a : A) : keeps_elem_type (ret a).
Proof. intros out. reflexivity. Qed.

Lemma keeps_return : keeps_elem_type (@return_ A).
Proof. intros out. reflexivity. Qed.

Lemma keeps_undefined : keeps_elem_type (@undefined A).
Proof. intros out. reflexivity. Qed.

Lemma keeps_fail msg : keeps_elem_type (@fail_shape_inference A msg).
Proof. intros out. reflexivity. Qed.

Lemma keeps_bind (m : M A) (k : A -> M B) :
  keeps_elem_type m -> (forall a, keeps_elem_type (k a)) ->
  keeps_elem_type (bind m k).
Proof.
  intros Hm Hk out. unfold bind. specialize (Hm out).
  destruct (m out) as [[a| | |] out']; simpl in *; try exact Hm.
  rewrite Hk. exact Hm.
Qed.

End KeepsElemType.

Lemma keeps_when c m : keeps_elem_type m -> keeps_elem_type (when c m).
Proof. intros Hm. destruct c; [exact Hm|apply keeps_ret]. Qed.

Lemma keeps_for body : (forall i, keeps_elem_type (body i)) ->
  forall count from, keeps_elem_type (for_ from count body).
Proof.
  intros Hbody. induction count as [|count IH]; intros from; simpl.
  - apply keeps_ret.
  - apply keeps_bind; [apply Hbody|intros _; apply IH].
Qed.

Lemma keeps_vec_at v i : keeps_elem_type (vec_at v i).
Proof. unfold vec_at. destruct (v !! i); [apply keeps_ret|apply keeps_undefined]. Qed.

Lemma keeps_dim_at s i : keeps_elem_type (dim_at s i).
Proof. unfold dim_at. destruct (s !! i); [apply keeps_ret|apply keeps_undefined]. Qed.

Lemma keeps_int64_div a b : keeps_elem_type (int64_div a b).
Proof.
  unfold int64_div. destruct (b =? 0); [apply keeps_undefined|].
  destruct ((a =? Int64.min_signed) && (b =? -1));
    [apply keeps_undefined|apply keeps_ret].
Qed.

Lemma keeps_getInputShape ctx n : keeps_elem_type (getInputShape ctx n).
Proof.
  unfold getInputShape.
  destruct (inputTypes ctx !! n) as [[ty|]|];
    [apply keeps_ret|apply keeps_undefined..].
Qed.

Lemma keeps_mutable_shape : keeps_elem_type mutable_shape.
Proof. intros out. reflexivity. Qed.

Lemma keeps_add_dim : keeps_elem_type add_dim.
Proof. intros out. reflexivity. Qed.

Lemma keeps_assign_dim p d : keeps_elem_type (assign_dim p d).
Proof. intros out. reflexivity. Qed.

Lemma keeps_set_dim_value p v : keeps_elem_type (set_dim_value p v).
Proof. intros out. reflexivity. Qed.

Lemma keeps_add_dim_copy d : keeps_elem_type (add_dim_copy d).
Proof. apply keeps_bind; [apply keeps_add_dim|intros p; apply keeps_assign_dim]. Qed.

Lemma keeps_push_back ds : forall acc, keeps_elem_type (push_back_dim_values ds acc).
Proof.
  induction ds as [|d ds IH]; intros acc; simpl.
  - apply keeps_ret.
  - destruct (negb (has_dim_value d)); [apply keeps_return|apply IH].
Qed.

Lemma keeps_updateOutputShape dims : keeps_elem_type (updateOutputShape dims).
Proof.
  unfold updateOutputShape. apply keeps_bind; [apply keeps_mutable_shape|intros _].
  induction dims as [|d dims IH]; simpl.
  - apply keeps_ret.
  - apply keeps_bind; [apply keeps_add_dim_copy|intros _; exact IH].
Qed.

Create HintDb keeps discriminated.

#[local] Hint Resolve keeps_ret keeps_return keeps_undefined keeps_fail keeps_when
  keeps_vec_at keeps_dim_at keeps_int64_div keeps_getInputShape
  keeps_mutable_shape keeps_add_dim keeps_assign_dim keeps_set_dim_value
  keeps_add_dim_copy keeps_push_back keeps_updateOutputShape : keeps.

(** Splits a statement into its parts until the lemmas above apply. *)
Ltac keeps :=
  repeat first
    [ solve [auto with keeps]
    | apply keeps_bind; [|intros ?]
    | apply keeps_for; intros ?
    | progress cbv zeta
    | match goal with
      | |- keeps_elem_type (match ?x with _ => _ end) => destruct x
      end ].

Lemma keeps_convPool_axis input_shape dilations pads strides kernel_shape i :
  keeps_elem_type (convPool_axis input_shape dilations pads strides kernel_shape i).
Proof. unfold convPool_axis. keeps. Qed.

Lemma keeps_convTranspose_given_axis input_shape output_shape i :
  keeps_elem_type (convTranspose_given_axis input_shape output_shape i).
Proof. unfold convTranspose_given_axis. keeps. Qed.

Lemma keeps_convTranspose_axis input_shape pads strides kernel_shape output_padding i :
  keeps_elem_type
    (convTranspose_axis input_shape pads strides kernel_shape output_padding i).
Proof. unfold convTranspose_axis. keeps. Qed.

#[local] Hint Resolve keeps_convPool_axis keeps_convTranspose_given_axis
  keeps_convTranspose_axis : keeps.

Lemma infer_call f ctx : infer f ctx = call (body_of f ctx).
Proof. destruct f; reflexivity. Qed.

Lemma call_state (m : M unit) out : snd (call m out) = snd (m out).
Proof. unfold call. destruct (m out) as [[[]| | |] out']; reflexivity. Qed.

(** C9.  Every shape-inference function of the file (conv/pool for every
    choice of its two flags, MaxRoiPool, ConvTranspose, global pooling,
    Flatten) begins with [propagateElemTypeFromInputToOutput(ctx, 0, 0)], and
    no later statement touches the element type of the output.  Hence on
    every path, silent skips and hard failures included, the element type of
    the output is the one of the first input. *)
Theorem elem_type_propagated_first (f : InferenceFunction) (ctx : InferenceContext) :
  (exists rest : M unit,
     body_of f ctx = (propagateElemTypeFromInputToOutput ctx 0 0 ;; rest) /\
     keeps_elem_type rest)
  /\ (forall out, elem_type (snd (infer f ctx out)) = elem_type (propagated ctx out))
  /\ (forall out ty,
        inputTypes ctx !! 0%nat = Some (Some ty) ->
        elem_type (snd (infer f ctx out)) = elem_type ty).
Proof.
  assert (Hfirst : exists rest : M unit,
     body_of f ctx = (propagateElemTypeFromInputToOutput ctx 0 0 ;; rest) /\
     keeps_elem_type rest).
  { destruct f; eexists; (split; [reflexivity|]); keeps. }
  assert (Hall : forall out,
    elem_type (snd (infer f ctx out)) = elem_type (propagated ctx out)).
  { intros out. destruct Hfirst as (rest & Hbody & Hrest).
    rewrite infer_call, call_state, Hbody.
    rewrite (bind_run _ _ _ _ _ (propagate_run ctx out)). apply Hrest. }
  split; [exact Hfirst|]. split; [exact Hall|].
  intros out ty Hin. rewrite Hall. unfold propagated.
  rewrite (propagate_known _ _ _ Hin). reflexivity.
Qed.

(** Conv with group = 2 is skipped without a shape, yet the element type of
    the output is the FLOAT of the first input. *)
Lemma elem_type_propagated_first_witness :
  infer (ConvPoolInference true false) group2_ctx TypeProto_empty
  = (Returned, mkType FLOAT None)
  /\ elem_type (snd (infer (ConvPoolInference true false) group2_ctx TypeProto_empty))
     = FLOAT.
Proof.
  split; [vm_compute; reflexivity|].
  exact (proj2 (proj2 (elem_type_propagated_first (ConvPoolInference true false)
                         group2_ctx))
           TypeProto_empty (mkType FLOAT (Some (known [1; 4; 8; 8]))) eq_refl).
Defined.

(** Global pooling of an input with symbolic height and width. *)
Lemma globalpool_output_shape_witness :
  gloablPoolTypeShapeInference
    (mkCtx ∅ [tensor [DimParam "N"; DimValue 3; DimParam "H"; DimParam "W"]])
    TypeProto_empty
  = (Returned,
     mkType FLOAT (Some [DimParam "N"; DimValue 3; DimValue 1; DimValue 1])).
Proof.
  exact (globalpool_output_shape
           (mkCtx ∅ [tensor [DimParam "N"; DimValue 3; DimParam "H"; DimParam "W"]])
           (mkType FLOAT (Some [DimParam "N"; DimValue 3; DimParam "H"; DimParam "W"]))
           (DimParam "N") (DimValue 3) [DimParam "H"; DimParam "W"] eq_refl eq_refl).
Defined.


(** * Further properties of the inference functions *)

(** ** Sliding-window operators: reaching the loop *)

Lemma sliding_window_reaches_loop op ctx ty0 n c spatial ch kernel :
  sliding_window_ready op ctx ty0 n c spatial ch kernel ->
  infer_sliding_window op ctx TypeProto_empty
  = call (for_ 0 (length kernel)
            (convPool_axis (n :: c :: spatial)
               (resolved_dilations op ctx (length spatial))
               (attr_or_default ctx "pads" (length spatial * 2) 0)
               (attr_or_default ctx "strides" (length spatial) 1)
               kernel))
         (mkType (elem_type ty0) (Some [n; ch])).
Proof.
  intros [Hin Hsh Hauto Hgroup Hdil Hpads Hstrides Hkattr Hkernel Hch].
  assert (Hk : forall B (k : list Z -> M B) out (absent : M (list Z)),
    (getRepeatedAttribute ctx "kernel_shape" = None ->
     forall B' (k' : list Z -> M B') out', bind absent k' out' = k' kernel out') ->
    bind (match getRepeatedAttribute ctx "kernel_shape" with
          | Some kernel_shape =>
              when (negb (bool_decide (length kernel_shape = length spatial)))
                (fail_shape_inference "Attribute kernel_shape has incorrect size") ;;
              ret kernel_shape
          | None => absent
          end) k out = k kernel out).
  { intros B k out absent Habsent. specialize (Hkattr kernel).
    unfold resolved_kernel in Hkernel.
    destruct (getRepeatedAttribute ctx "kernel_shape") as [k0|].
    - injection Hkernel as ->.
      rewrite bool_decide_eq_true_2 by auto. reflexivity.
    - apply Habsent. reflexivity. }
  unfold infer_sliding_window, convPoolTypeAndShapeInference, call at 1, convPool_body.
  rewrite (bind_run _ _ _ _ _ (propagate_known _ _ _ Hin)).
  rewrite (hasNInputShapes_1 _ _ _ Hin Hsh), (getInputShape_known _ _ _ _ Hin Hsh).
  rewrite (no_attribute_check _ _ Hauto), Hgroup.
  unfold channel_dim in Hch. unfold resolved_kernel in Hkernel.
  unfold resolved_dilations.
  destruct op; cbn [use_dilation_of require_kernel_shape_of] in *.
  - (* Conv *)
    destruct (second_input_dims ctx) as [ws|] eqn:Hws; [|discriminate].
    destruct (second_input_dims_Some _ _ Hws) as (ty1 & Hin1 & Hsh1).
    rewrite (hasNInputShapes_2 _ _ _ _ _ Hin Hsh Hin1 Hsh1).
    rewrite (getInputShape_known _ _ _ _ Hin1 Hsh1).
    run. rewrite (bool_decide_eq_false_2 (length (n :: c :: spatial) < 2)%nat)
      by (simpl; lia).
    run. rewrite !spatial_rank.
    rewrite (checked_attribute _ _ _ _ _ _ _ (Hdil eq_refl)).
    change (1 =? 1) with true. run.
    rewrite (checked_attribute _ _ _ _ _ _ _ Hpads).
    rewrite (checked_attribute _ _ _ _ _ _ _ Hstrides).
    rewrite Hk.
    2:{ intros Habs B' k' out'. rewrite Habs in Hkernel. run.
        rewrite (bind_run _ _ _ _ _ (known_values_push _ _ _ _ Hkernel)).
        reflexivity. }
    run. cbn [dim_at lookup list_lookup]. run.
    rewrite add_dim_copy_bind. run.
    rewrite (bool_decide_eq_false_2 (length ws < 1)%nat)
      by (destruct ws; [discriminate|simpl; lia]).
    run. rewrite (dim_at_Some _ _ _ Hch). run.
    rewrite add_dim_copy_bind. run. reflexivity.
  - (* AveragePool *)
    injection Hch as <-.
    run. rewrite (bool_decide_eq_false_2 (length (n :: c :: spatial) < 2)%nat)
      by (simpl; lia).
    run. rewrite !spatial_rank. change (1 =? 1) with true. run.
    rewrite (checked_attribute _ _ _ _ _ _ _ Hpads).
    rewrite (checked_attribute _ _ _ _ _ _ _ Hstrides).
    rewrite Hk by (intros Habs; rewrite Habs in Hkernel; discriminate).
    run. cbn [dim_at lookup list_lookup]. run.
    rewrite add_dim_copy_bind. run.
    cbn [dim_at lookup list_lookup]. run.
    rewrite add_dim_copy_bind. run. reflexivity.
  - (* MaxPool *)
    injection Hch as <-.
    run. rewrite (bool_decide_eq_false_2 (length (n :: c :: spatial) < 2)%nat)
      by (simpl; lia).
    run. rewrite !spatial_rank. change (1 =? 1) with true. run.
    rewrite (checked_attribute _ _ _ _ _ _ _ Hpads).
    rewrite (checked_attribute _ _ _ _ _ _ _ Hstrides).
    rewrite Hk by (intros Habs; rewrite Habs in Hkernel; discriminate).
    run. cbn [dim_at lookup list_lookup]. run.
    rewrite add_dim_copy_bind. run.
    cbn [dim_at lookup list_lookup]. run.
    rewrite add_dim_copy_bind. run. reflexivity.
  - (* LpPool *)
    injection Hch as <-.
    run. rewrite (bool_decide_eq_false_2 (length (n :: c :: spatial) < 2)%nat)
      by (simpl; lia).
    run. rewrite !spatial_rank. change (1 =? 1) with true. run.
    rewrite (checked_attribute _ _ _ _ _ _ _ Hpads).
    rewrite (checked_attribute _ _ _ _ _ _ _ Hstrides).
    rewrite Hk by (intros Habs; rewrite Habs in Hkernel; discriminate).
    run. cbn [dim_at lookup list_lookup]. run.
    rewrite add_dim_copy_bind. run.
    cbn [dim_at lookup list_lookup]. run.
    rewrite add_dim_copy_bind. run. reflexivity.
Qed.

Lemma convPool_axis_unknown e ds input_shape dilations pads strides kernel_shape i d :
  input_shape !! (2 + i)%nat = Some d ->
  has_dim_value d = false ->
  convPool_axis input_shape dilations pads strides kernel_shape i (mkType e (Some ds))
  = (Next tt, mkType e (Some (ds ++ [DimUnset]))).
Proof.
  intros Hd Hu. unfold convPool_axis.
  rewrite (bind_run _ _ _ _ _ (add_dim_run e ds)).
  rewrite (dim_at_Some _ _ _ Hd). run. rewrite Hu. reflexivity.
Qed.

(** The loop over the spatial axes, for input dimensions that may be unknown
    and a kernel that may have fewer entries than the input has spatial
    axes. *)
Lemma convPool_loop_partial e n0 c0 spatial dilations pads strides kernel :
  (length kernel <= length spatial)%nat ->
  length pads = (length spatial * 2)%nat ->
  length strides = length spatial ->
  length dilations = length spatial ->
  (forall i, (i < length kernel)%nat ->
     sliding_window_axis_defined spatial pads kernel dilations strides i) ->
  forall count from ds,
  (from + count = length kernel)%nat ->
  for_ from count
    (convPool_axis (n0 :: c0 :: spatial) dilations pads strides kernel)
    (mkType e (Some ds))
  = (Next tt,
     mkType e (Some (ds ++
       (sliding_window_axis spatial pads kernel dilations strides
          <$> seq from count)))).
Proof.
  intros Hk Hp Hs Hd Hdef.
  induction count as [|count IH]; intros from ds Hlen; simpl.
  - rewrite app_nil_r. reflexivity.
  - assert (Hx : (n0 :: c0 :: spatial) !! (2 + from)%nat = Some (spatial !!! from)).
    { simpl. apply list_lookup_lookup_total_lt. lia. }
    specialize (Hdef from ltac:(lia)).
    unfold sliding_window_axis at 1. unfold sliding_window_axis_defined in Hdef.
    cbv zeta.
    destruct (spatial !!! from) as [x| |] eqn:Ex; cbn [has_dim_value dim_value] in *.
    + erewrite bind_run; cycle 1.
      { apply convPool_axis_known with (i := from) (x := x);
          try (apply list_lookup_lookup_total_lt; lia).
        - exact Hx.
        - apply Hdef. reflexivity. }
      rewrite IH by lia. rewrite <- app_assoc. reflexivity.
    + erewrite bind_run;
        [|apply (convPool_axis_unknown _ _ _ _ _ _ _ _ _ Hx); reflexivity].
      rewrite IH by lia. rewrite <- app_assoc. reflexivity.
    + erewrite bind_run;
        [|apply (convPool_axis_unknown _ _ _ _ _ _ _ _ _ Hx); reflexivity].
      rewrite IH by lia. rewrite <- app_assoc. reflexivity.
Qed.

Lemma resolved_dilations_length op ctx n :
  (use_dilation_of op = true -> well_formed ctx "dilations" n) ->
  length (resolved_dilations op ctx n) = n.
Proof.
  intros H. unfold resolved_dilations. destruct (use_dilation_of op).
  - apply well_formed_length. auto.
  - apply length_replicate.
Qed.

(** The output of a sliding-window operator past its checks. *)
Lemma sliding_window_runs op ctx ty0 n c ch spatial kernel :
  sliding_window_ready op ctx ty0 n c spatial ch kernel ->
  (length kernel <= length spatial)%nat ->
  (forall i, (i < length kernel)%nat ->
     sliding_window_axis_defined spatial
       (attr_or_default ctx "pads" (length spatial * 2) 0) kernel
       (resolved_dilations op ctx (length spatial))
       (attr_or_default ctx "strides" (length spatial) 1) i) ->
  infer_sliding_window op ctx TypeProto_empty
  = (Returned,
     mkType (elem_type ty0)
       (Some (n :: ch ::
              (sliding_window_axis spatial
                 (attr_or_default ctx "pads" (length spatial * 2) 0) kernel
                 (resolved_dilations op ctx (length spatial))
                 (attr_or_default ctx "strides" (length spatial) 1)
                 <$> seq 0 (length kernel))))).
Proof.
  intros Hready Hk Hdef.
  rewrite (sliding_window_reaches_loop _ _ _ _ _ _ _ _ Hready).
  destruct Hready as [_ _ _ _ Hdil Hpads Hstrides _ _ _].
  unfold call.
  rewrite (convPool_loop_partial (elem_type ty0) n c spatial);
    rewrite ?well_formed_length, ?resolved_dilations_length; auto.
Qed.


(** Discharges [sliding_window_ready] and [convTranspose_ready] on a concrete
    context. *)
Ltac concrete_ready :=
  split;
  first [ reflexivity
        | concrete_well_formed
        | (intros ?; discriminate)
        | (intros _; concrete_well_formed)
        | (eexists; reflexivity) ].


(** ** Sliding-window operators: a kernel longer than the input *)

Section Straight.

Context {A B : Type}.

Lemma straight_ret (a : A) : straight (ret a).
Proof. intros out. left. exists a. reflexivity. Qed.

Lemma straight_undefined : straight (@undefined A).
Proof. intros out. right. reflexivity. Qed.

Lemma straight_bind (m : M A) (k : A -> M B) :
  straight m -> (forall a, straight (k a)) -> straight (bind m k).
Proof.
  intros Hm Hk out. unfold bind. destruct (Hm out) as [[a Ha]|Hu].
  - destruct (m out) as [r out']. simpl in Ha. subst r. apply Hk.
  - destruct (m out) as [r out']. simpl in Hu. subst r. right. reflexivity.
Qed.

End Straight.

Lemma straight_vec_at v i : straight (vec_at v i).
Proof. unfold vec_at. destruct (v !! i); [apply straight_ret|apply straight_undefined]. Qed.

Lemma straight_dim_at s i : straight (dim_at s i).
Proof. unfold dim_at. destruct (s !! i); [apply straight_ret|apply straight_undefined]. Qed.

Lemma straight_int64_div a b : straight (int64_div a b).
Proof.
  unfold int64_div. destruct (b =? 0); [apply straight_undefined|].
  destruct ((a =? Int64.min_signed) && (b =? -1));
    [apply straight_undefined|apply straight_ret].
Qed.

Lemma straight_add_dim : straight add_dim.
Proof. intros out. left. eexists. reflexivity. Qed.

Lemma straight_set_dim_value p v : straight (set_dim_value p v).
Proof. intros out. left. eexists. reflexivity. Qed.

Create HintDb straight discriminated.

#[local] Hint Resolve straight_ret straight_undefined straight_vec_at
  straight_dim_at straight_int64_div straight_add_dim straight_set_dim_value
  : straight.

Ltac straight :=
  repeat first
    [ solve [auto with straight]
    | apply straight_bind; [|intros ?]
    | progress cbv zeta
    | match goal with
      | |- straight (match ?x with _ => _ end) => destruct x
      end ].

Lemma straight_convPool_axis input_shape dilations pads strides kernel_shape i :
  straight (convPool_axis input_shape dilations pads strides kernel_shape i).
Proof. unfold convPool_axis. straight. Qed.

Lemma convPool_axis_out_of_range input_shape dilations pads strides kernel_shape i out :
  (length input_shape <= 2 + i)%nat ->
  fst (convPool_axis input_shape dilations pads strides kernel_shape i out) = Undefined.
Proof.
  intros Hlen. unfold convPool_axis, bind, add_dim, dim_at. cbv zeta.
  rewrite (lookup_ge_None_2 input_shape (2 + i)) by lia. reflexivity.
Qed.

(** A loop of straight statements that meets an undefined read ends
    undefined. *)
Lemma for_meets_undefined (body : nat -> M unit) (bad : nat) :
  (forall i, straight (body i)) ->
  (forall out, fst (body bad out) = Undefined) ->
  forall count from out,
  (from <= bad < from + count)%nat ->
  fst (for_ from count body out) = Undefined.
Proof.
  intros Hstraight Hbad.
  induction count as [|count IH]; intros from out Hrange; [lia|].
  simpl. unfold bind.
  destruct (decide (from = bad)) as [->|Hne].
  - specialize (Hbad out). destruct (body bad out) as [r out'].
    simpl in Hbad. subst r. reflexivity.
  - destruct (Hstraight from out) as [[[] Ha]|Hu];
      destruct (body from out) as [r out']; simpl in *; subst r.
    + apply IH. lia.
    + reflexivity.
Qed.

Lemma call_undefined (m : M unit) out :
  fst (m out) = Undefined -> fst (call m out) = UndefinedBehaviour.
Proof.
  unfold call. destruct (m out) as [r out']. simpl. intros ->. reflexivity.
Qed.

(** X2.  Conv resolves its kernel shape from the trailing dimensions of the
    weights without comparing their number with the spatial rank of the
    input.  When the weights give more kernel entries than the input has
    spatial axes, the loop runs over the kernel entries and reads a dimension
    of the input (or an entry of pads) that does not exist: the behaviour is
    undefined. *)
Theorem conv_kernel_longer_than_input (ctx : InferenceContext) (ty0 : TypeProto)
    (n c ch : Dimension) (spatial : list Dimension) (kernel : list Z) :
  sliding_window_ready Conv ctx ty0 n c spatial ch kernel ->
  (length spatial < length kernel)%nat ->
  fst (infer_sliding_window Conv ctx TypeProto_empty) = UndefinedBehaviour.
Proof.
  intros Hready Hlong.
  rewrite (sliding_window_reaches_loop _ _ _ _ _ _ _ _ Hready).
  apply call_undefined.
  apply (for_meets_undefined _ (length spatial)).
  - intros i. apply straight_convPool_axis.
  - intros out. apply convPool_axis_out_of_range. simpl. lia.
  - lia.
Qed.

Lemma conv_kernel_longer_than_input_witness :
  fst (infer_sliding_window Conv conv_long_kernel_ctx TypeProto_empty)
  = UndefinedBehaviour.
Proof.
  apply (conv_kernel_longer_than_input conv_long_kernel_ctx
           (mkType FLOAT (Some (known [1; 1; 4])))
           (DimValue 1) (DimValue 1) (DimValue 1) [DimValue 4] [3; 3]).
  - concrete_ready.
  - simpl. lia.
Defined.

(** ** Sliding-window operators: sizes *)

Lemma known_lookup_total (xs : list Z) i :
  (i < length xs)%nat -> (DimValue <$> xs) !!! i = DimValue (xs !!! i).
Proof.
  intros Hi. apply list_lookup_total_correct.
  rewrite list_lookup_fmap, (list_lookup_lookup_total_lt xs i Hi). reflexivity.
Qed.

(** X3.  "Same" padding: a sliding-window operator past its checks, on known
    input dimensions that are valid sizes, with stride 1 and, on every axis,
    a total padding equal to the effective kernel minus one, gives output
    spatial dimensions equal to the input spatial dimensions (kernel 3 with
    padding 1 on each side, for instance). *)
Theorem sliding_window_same_padding (op : SlidingWindowOp) (ctx : InferenceContext)
    (ty0 : TypeProto) (n c ch : Dimension) (xs kernel : list Z) :
  let pads := attr_or_default ctx "pads" (length xs * 2) 0 in
  let strides := attr_or_default ctx "strides" (length xs) 1 in
  let dilations := resolved_dilations op ctx (length xs) in
  sliding_window_ready op ctx ty0 n c (DimValue <$> xs) ch kernel ->
  length kernel = length xs ->
  (forall i, (i < length xs)%nat ->
     strides !!! i = 1 /\
     pads !!! i + pads !!! (i + length kernel)%nat
       = (kernel !!! i - 1) * dilations !!! i /\
     0 <= xs !!! i <= Int64.max_signed) ->
  infer_sliding_window op ctx TypeProto_empty
  = (Returned, mkType (elem_type ty0) (Some (n :: ch :: (DimValue <$> xs)))).
Proof.
  intros pads strides dilations Hready Hklen Hsame.
  assert (Haxis : forall i, (i < length xs)%nat ->
    sliding_window_dim_trunc (xs !!! i) (pads !!! i)
      (pads !!! (i + length kernel)%nat) (kernel !!! i) (dilations !!! i)
      (strides !!! i) = xs !!! i
    /\ axis_defined (xs !!! i) (pads !!! i) (pads !!! (i + length kernel)%nat)
         (kernel !!! i) (dilations !!! i) (strides !!! i)).
  { intros i Hi. destruct (Hsame i Hi) as (Hs & Hp & Hx).
    assert (Hw : window_positions (xs !!! i) (pads !!! i)
                   (pads !!! (i + length kernel)%nat) (kernel !!! i)
                   (dilations !!! i) = xs !!! i - 1).
    { unfold window_positions, effective_kernel. lia. }
    unfold axis_defined, sliding_window_dim_trunc. rewrite Hw, Hs, Z.quot_1_r.
    unfold Int64.fits, Int64.min_signed, Int64.max_signed in *.
    repeat split; lia. }
  rewrite (sliding_window_runs op ctx ty0 n c ch (DimValue <$> xs) kernel Hready).
  - rewrite length_fmap. fold pads strides dilations. rewrite Hklen.
    do 5 f_equal. apply list_eq. intros i.
    rewrite !list_lookup_fmap.
    destruct (decide (i < length xs)%nat) as [Hi|Hi].
    + rewrite lookup_seq_lt by lia. simpl.
      rewrite (list_lookup_lookup_total_lt xs i Hi). simpl.
      unfold sliding_window_axis. rewrite (known_lookup_total _ _ Hi).
      cbn [has_dim_value dim_value].
      do 2 f_equal. apply Haxis. exact Hi.
    + rewrite lookup_seq_ge by lia. rewrite lookup_ge_None_2 by lia. reflexivity.
  - rewrite length_fmap. lia.
  - rewrite length_fmap. fold pads strides dilations.
    intros i Hi _. rewrite (known_lookup_total xs i) by lia.
    cbn [dim_value]. apply Haxis. lia.
Qed.

Lemma sliding_window_same_padding_witness :
  infer_sliding_window Conv same_conv_ctx TypeProto_empty
  = (Returned, mkType FLOAT (Some (known [1; 8; 5; 7]))).
Proof.
  apply (sliding_window_same_padding Conv same_conv_ctx
           (mkType FLOAT (Some (known [1; 3; 5; 7])))
           (DimValue 1) (DimValue 3) (DimValue 8) [5; 7] [3; 3]).
  - concrete_ready.
  - reflexivity.
  - intros i Hi. destruct i as [|[|i]]; [| |simpl in Hi; lia];
      vm_compute; repeat split; intros; discriminate.
Defined.

(** X4.  A sliding-window operator past its checks, on known input
    dimensions, with defined arithmetic, positive strides and on every axis
    a padded input at least as large as the effective kernel: every output
    spatial dimension is at least 1 and at most the number of window positions
    for stride 1, that is padded input minus effective kernel plus 1. *)
Theorem sliding_window_dim_bounds (op : SlidingWindowOp) (ctx : InferenceContext)
    (ty0 : TypeProto) (n c ch : Dimension) (xs kernel : list Z) :
  let pads := attr_or_default ctx "pads" (length xs * 2) 0 in
  let strides := attr_or_default ctx "strides" (length xs) 1 in
  let dilations := resolved_dilations op ctx (length xs) in
  sliding_window_ready op ctx ty0 n c (DimValue <$> xs) ch kernel ->
  length kernel = length xs ->
  (forall i, (i < length xs)%nat ->
     at_axis axis_defined xs pads kernel dilations strides i) ->
  (forall i, (i < length xs)%nat ->
     at_axis (fun x pb pa k d s => 0 <= window_positions x pb pa k d /\ 0 < s)
       xs pads kernel dilations strides i) ->
  exists dims,
    infer_sliding_window op ctx TypeProto_empty
    = (Returned, mkType (elem_type ty0) (Some (n :: ch :: dims))) /\
    length dims = length xs /\
    forall i, (i < length xs)%nat ->
      exists y, dims !! i = Some (DimValue y) /\
        1 <= y <= at_axis window_positions' xs pads kernel dilations strides i + 1.
Proof.
  intros pads strides dilations Hready Hklen Hdef Hfit.
  eexists. split; [|split].
  - apply (sliding_window_runs op ctx ty0 n c ch (DimValue <$> xs) kernel Hready).
    + rewrite length_fmap. lia.
    + rewrite length_fmap. fold pads strides dilations.
      intros i Hi _. rewrite (known_lookup_total xs i) by lia.
      cbn [dim_value]. apply (Hdef i). lia.
  - rewrite length_fmap, length_seq. exact Hklen.
  - intros i Hi. rewrite length_fmap. fold pads strides dilations.
    rewrite list_lookup_fmap, lookup_seq_lt by lia. simpl.
    unfold sliding_window_axis. rewrite (known_lookup_total _ _ Hi).
    cbn [has_dim_value dim_value]. eexists. split; [reflexivity|].
    destruct (Hfit i Hi) as [Hw Hs]. unfold at_axis, window_positions'.
    unfold sliding_window_dim_trunc.
    pose proof (Z.quot_pos _ _ Hw Hs) as Hq.
    split; [lia|]. apply Z.add_le_mono_r.
    apply Z.quot_le_upper_bound; [exact Hs|]. nia.
Qed.


(** MaxPool 2x2 with stride 2 on (1, 3, 4, 4): each output spatial dimension
    lies between 1 and 4 - 2 + 1 = 3. *)
Lemma sliding_window_dim_bounds_witness :
  exists dims,
    infer_sliding_window MaxPool pool_2x2_ctx TypeProto_empty
    = (Returned, mkType FLOAT (Some (DimValue 1 :: DimValue 3 :: dims))) /\
    length dims = 2%nat /\
    forall i, (i < 2)%nat -> exists y, dims !! i = Some (DimValue y) /\ 1 <= y <= 3.
Proof.
  destruct (sliding_window_dim_bounds MaxPool pool_2x2_ctx
              (mkType FLOAT (Some (known [1; 3; 4; 4])))
              (DimValue 1) (DimValue 3) (DimValue 3) [4; 4] [2; 2])
    as (dims & Hrun & Hlen & Hdims).
  - concrete_ready.
  - reflexivity.
  - intros i Hi. destruct i as [|[|i]]; [| |simpl in Hi; lia];
      vm_compute; repeat split; intros; discriminate.
  - intros i Hi. destruct i as [|[|i]]; [| |simpl in Hi; lia];
      vm_compute; repeat split; intros; discriminate.
  - exists dims. split; [exact Hrun|]. split; [exact Hlen|].
    intros i Hi. destruct (Hdims i Hi) as (y & Hy & Hbounds).
    exists y. split; [exact Hy|].
    destruct i as [|[|i]]; [| |lia]; exact Hbounds.
Defined.


(** ** Sliding-window operators: skips and failures before the loop *)

(** X5.  A sliding-window operator returns without error, and leaves the
    shape of its output as it was, when the shape of the first input is
    missing, when the operator is Conv and the shape of the weights is missing,
    or when the (legacy) attribute auto_pad is present, whatever its value:
    only the element type has been propagated. *)
Theorem sliding_window_missing_information_skips (op : SlidingWindowOp)
    (ctx : InferenceContext) (out : TypeProto) :
  hasNInputShapes ctx 1 = false \/
  (op = Conv /\ hasNInputShapes ctx 2 = false) \/
  is_Some (ctx_getAttribute ctx "auto_pad") ->
  infer_sliding_window op ctx out = (Returned, propagated ctx out).
Proof.
  intros H.
  unfold infer_sliding_window, convPoolTypeAndShapeInference, call, convPool_body.
  rewrite (bind_run _ _ _ _ _ (propagate_run _ _)).
  early_return; [reflexivity|].
  early_return; [reflexivity|].
  early_return; [reflexivity|].
  exfalso. destruct H as [H|[[-> H]|H]].
  - rewrite H in Eguard. discriminate.
  - rewrite H in Eguard0. discriminate.
  - apply bool_decide_eq_false_1 in Eguard1. contradiction.
Qed.

Lemma sliding_window_missing_information_skips_witness :
  infer_sliding_window MaxPool shapeless_ctx TypeProto_empty
  = (Returned, mkType FLOAT None).
Proof.
  apply (sliding_window_missing_information_skips MaxPool shapeless_ctx
           TypeProto_empty).
  left. reflexivity.
Defined.

(** X6.  A sliding-window operator whose first input has fewer than two
    dimensions fails with "Input tensor must have atleast 2 dimensions",
    before any attribute other than auto_pad is looked at and before the
    output shape is touched. *)
Theorem sliding_window_rank_below_2_fails (op : SlidingWindowOp)
    (ctx : InferenceContext) (ty0 : TypeProto) (ds0 : list Dimension)
    (out : TypeProto) :
  inputTypes ctx !! 0%nat = Some (Some ty0) ->
  shape ty0 = Some ds0 ->
  (length ds0 < 2)%nat ->
  (op = Conv -> hasNInputShapes ctx 2 = true) ->
  ctx_getAttribute ctx "auto_pad" = None ->
  infer_sliding_window op ctx out
  = (Failed "Input tensor must have atleast 2 dimensions",
     mkType (elem_type ty0) (shape out)).
Proof.
  intros Hin Hsh Hlen Hconv Hauto.
  unfold infer_sliding_window, convPoolTypeAndShapeInference, call, convPool_body.
  rewrite (bind_run _ _ _ _ _ (propagate_known _ _ _ Hin)).
  rewrite (hasNInputShapes_1 _ _ _ Hin Hsh), (getInputShape_known _ _ _ _ Hin Hsh).
  rewrite (no_attribute_check _ _ Hauto).
  destruct op; cbn [require_kernel_shape_of]; rewrite ?(Hconv eq_refl);
    run; rewrite (bool_decide_eq_true_2 (length ds0 < 2)%nat Hlen);
    run; reflexivity.
Qed.

Lemma sliding_window_rank_below_2_fails_witness :
  infer_sliding_window AveragePool vector_ctx TypeProto_empty
  = (Failed "Input tensor must have atleast 2 dimensions", mkType FLOAT None).
Proof.
  apply (sliding_window_rank_below_2_fails AveragePool vector_ctx
           (mkType FLOAT (Some (known [5]))) (known [5]) TypeProto_empty).
  - reflexivity.
  - reflexivity.
  - simpl. lia.
  - intros H. discriminate.
  - reflexivity.
Defined.

(** X7.  A pooling operator (AveragePool, MaxPool, LpPool) whose attribute
    kernel_shape is absent fails with "Attribute kernel_shape must be
    specified", once the rank, group, pads and strides have passed their
    checks; the output shape is untouched. *)
Theorem pooling_requires_kernel_shape (op : SlidingWindowOp)
    (ctx : InferenceContext) (ty0 : TypeProto) (n c : Dimension)
    (spatial : list Dimension) (out : TypeProto) :
  op <> Conv ->
  inputTypes ctx !! 0%nat = Some (Some ty0) ->
  shape ty0 = Some (n :: c :: spatial) ->
  ctx_getAttribute ctx "auto_pad" = None ->
  getAttribute ctx "group" 1 = 1 ->
  well_formed ctx "pads" (length spatial * 2) ->
  well_formed ctx "strides" (length spatial) ->
  getRepeatedAttribute ctx "kernel_shape" = None ->
  infer_sliding_window op ctx out
  = (Failed "Attribute kernel_shape must be specified",
     mkType (elem_type ty0) (shape out)).
Proof.
  intros Hop Hin Hsh Hauto Hgroup Hpads Hstrides Hkernel.
  unfold infer_sliding_window, convPoolTypeAndShapeInference, call, convPool_body.
  rewrite (bind_run _ _ _ _ _ (propagate_known _ _ _ Hin)).
  rewrite (hasNInputShapes_1 _ _ _ Hin Hsh), (getInputShape_known _ _ _ _ Hin Hsh).
  rewrite (no_attribute_check _ _ Hauto), Hgroup, Hkernel.
  destruct op; [contradiction| | |];
    cbn [use_dilation_of require_kernel_shape_of]; run;
    rewrite (bool_decide_eq_false_2 (length (n :: c :: spatial) < 2)%nat)
      by (simpl; lia);
    run; rewrite !spatial_rank; change (1 =? 1) with true; run;
    rewrite (checked_attribute _ _ _ _ _ _ _ Hpads);
    rewrite (checked_attribute _ _ _ _ _ _ _ Hstrides);
    run; reflexivity.
Qed.

Lemma pooling_requires_kernel_shape_witness :
  infer_sliding_window MaxPool bare_pool_ctx TypeProto_empty
  = (Failed "Attribute kernel_shape must be specified", mkType FLOAT None).
Proof.
  apply (pooling_requires_kernel_shape MaxPool bare_pool_ctx
           (mkType FLOAT (Some (known [1; 3; 5; 7])))
           (DimValue 1) (DimValue 3) (known [5; 7]) TypeProto_empty).
  - discriminate.
  - reflexivity.
  - reflexivity.
  - reflexivity.
  - reflexivity.
  - concrete_well_formed.
  - concrete_well_formed.
  - reflexivity.
Defined.

(** X8.  Conv without the attribute kernel_shape takes the kernel from the
    dimensions of the weights after the first two.  When one of them is not a
    known number (symbolic or unset), Conv returns without error and leaves
    the output shape as it was. *)
Theorem conv_unknown_kernel_skips (ctx : InferenceContext) (ty0 : TypeProto)
    (n c : Dimension) (spatial ws : list Dimension) (out : TypeProto) :
  inputTypes ctx !! 0%nat = Some (Some ty0) ->
  shape ty0 = Some (n :: c :: spatial) ->
  second_input_dims ctx = Some ws ->
  known_values (drop 2 ws) = None ->
  ctx_getAttribute ctx "auto_pad" = None ->
  getAttribute ctx "group" 1 = 1 ->
  well_formed ctx "dilations" (length spatial) ->
  well_formed ctx "pads" (length spatial * 2) ->
  well_formed ctx "strides" (length spatial) ->
  getRepeatedAttribute ctx "kernel_shape" = None ->
  infer_sliding_window Conv ctx out
  = (Returned, mkType (elem_type ty0) (shape out)).
Proof.
  intros Hin Hsh Hws Hunknown Hauto Hgroup Hdil Hpads Hstrides Hkernel.
  destruct (second_input_dims_Some _ _ Hws) as (ty1 & Hin1 & Hsh1).
  unfold infer_sliding_window, convPoolTypeAndShapeInference, call, convPool_body.
  rewrite (bind_run _ _ _ _ _ (propagate_known _ _ _ Hin)).
  rewrite (hasNInputShapes_1 _ _ _ Hin Hsh), (getInputShape_known _ _ _ _ Hin Hsh).
  rewrite (hasNInputShapes_2 _ _ _ _ _ Hin Hsh Hin1 Hsh1).
  rewrite (getInputShape_known _ _ _ _ Hin1 Hsh1).
  rewrite (no_attribute_check _ _ Hauto), Hgroup, Hkernel.
  cbn [use_dilation_of require_kernel_shape_of]. run.
  rewrite (bool_decide_eq_false_2 (length (n :: c :: spatial) < 2)%nat)
    by (simpl; lia).
  run. rewrite !spatial_rank.
  rewrite (checked_attribute _ _ _ _ _ _ _ Hdil).
  change (1 =? 1) with true. run.
  rewrite (checked_attribute _ _ _ _ _ _ _ Hpads).
  rewrite (checked_attribute _ _ _ _ _ _ _ Hstrides).
  run. rewrite (bind_run _ _ _ _ _ (unknown_values_push _ _ _ Hunknown)).
  reflexivity.
Qed.

Lemma conv_unknown_kernel_skips_witness :
  infer_sliding_window Conv conv_symbolic_kernel_ctx TypeProto_empty
  = (Returned, mkType FLOAT None).
Proof.
  apply (conv_unknown_kernel_skips conv_symbolic_kernel_ctx
           (mkType FLOAT (Some (known [1; 3; 5; 7])))
           (DimValue 1) (DimValue 3) (known [5; 7])
           [DimValue 8; DimValue 3; DimParam "kH"; DimValue 3] TypeProto_empty).
  - reflexivity.
  - reflexivity.
  - reflexivity.
  - reflexivity.
  - reflexivity.
  - reflexivity.
  - concrete_well_formed.
  - concrete_well_formed.
  - concrete_well_formed.
  - reflexivity.
Defined.

(** X9.  Conv looks at the rank of the weights only after it has started to
    write the output shape.  With a kernel_shape attribute of the right size
    and weights of rank 0, Conv fails with "Second input tensor has wrong
    dimension", and at that moment the output shape already holds the batch
    dimension of the input, appended to whatever it held before. *)
Theorem conv_scalar_weights_fail_after_batch_dim (ctx : InferenceContext)
    (ty0 : TypeProto) (n c : Dimension) (spatial : list Dimension)
    (kernel : list Z) (out : TypeProto) :
  inputTypes ctx !! 0%nat = Some (Some ty0) ->
  shape ty0 = Some (n :: c :: spatial) ->
  second_input_dims ctx = Some [] ->
  ctx_getAttribute ctx "auto_pad" = None ->
  getAttribute ctx "group" 1 = 1 ->
  well_formed ctx "dilations" (length spatial) ->
  well_formed ctx "pads" (length spatial * 2) ->
  well_formed ctx "strides" (length spatial) ->
  getRepeatedAttribute ctx "kernel_shape" = Some kernel ->
  length kernel = length spatial ->
  infer_sliding_window Conv ctx out
  = (Failed "Second input tensor has wrong dimension",
     mkType (elem_type ty0) (Some (default [] (shape out) ++ [n]))).
Proof.
  intros Hin Hsh Hws Hauto Hgroup Hdil Hpads Hstrides Hkernel Hklen.
  destruct (second_input_dims_Some _ _ Hws) as (ty1 & Hin1 & Hsh1).
  unfold infer_sliding_window, convPoolTypeAndShapeInference, call, convPool_body.
  rewrite (bind_run _ _ _ _ _ (propagate_known _ _ _ Hin)).
  rewrite (hasNInputShapes_1 _ _ _ Hin Hsh), (getInputShape_known _ _ _ _ Hin Hsh).
  rewrite (hasNInputShapes_2 _ _ _ _ _ Hin Hsh Hin1 Hsh1).
  rewrite (getInputShape_known _ _ _ _ Hin1 Hsh1).
  rewrite (no_attribute_check _ _ Hauto), Hgroup, Hkernel.
  cbn [use_dilation_of require_kernel_shape_of]. run.
  rewrite (bool_decide_eq_false_2 (length (n :: c :: spatial) < 2)%nat)
    by (simpl; lia).
  run. rewrite !spatial_rank.
  rewrite (checked_attribute _ _ _ _ _ _ _ Hdil).
  change (1 =? 1) with true. run.
  rewrite (checked_attribute _ _ _ _ _ _ _ Hpads).
  rewrite (checked_attribute _ _ _ _ _ _ _ Hstrides).
  rewrite (bool_decide_eq_true_2 (length kernel = length spatial) Hklen). run.
  rewrite (dim_at_Some (n :: c :: spatial) 0 n eq_refl). run.
  rewrite add_dim_copy_bind. run.
  rewrite (bool_decide_eq_true_2 (length (@nil Dimension) < 1)%nat) by (simpl; lia).
  run. destruct (shape out); reflexivity.
Qed.

Lemma conv_scalar_weights_fail_after_batch_dim_witness :
  infer_sliding_window Conv conv_scalar_weights_ctx TypeProto_empty
  = (Failed "Second input tensor has wrong dimension",
     mkType FLOAT (Some [DimValue 1])).
Proof.
  apply (conv_scalar_weights_fail_after_batch_dim conv_scalar_weights_ctx
           (mkType FLOAT (Some (known [1; 3; 5; 7])))
           (DimValue 1) (DimValue 3) (known [5; 7]) [3; 3] TypeProto_empty).
  - reflexivity.
  - reflexivity.
  - reflexivity.
  - reflexivity.
  - reflexivity.
  - concrete_well_formed.
  - concrete_well_formed.
  - concrete_well_formed.
  - reflexivity.
  - reflexivity.
Defined.


(** ** Pooling operators: what they read *)

(** X10.  The pooling operators (AveragePool, MaxPool, LpPool) read the
    first input and the attributes auto_pad, group, pads, strides and
    kernel_shape, and nothing else: two nodes that agree on these get the same
    result, error or not.  In particular an attribute dilations, even of a
    wrong size, and further inputs are never looked at. *)
Theorem pooling_reads_first_input_and_five_attributes (op : SlidingWindowOp)
    (ctx ctx' : InferenceContext) (out : TypeProto) :
  op <> Conv ->
  inputTypes ctx !! 0%nat = inputTypes ctx' !! 0%nat ->
  (forall name, name ∈ pooling_attributes ->
     ctx_getAttribute ctx name = ctx_getAttribute ctx' name) ->
  infer_sliding_window op ctx out = infer_sliding_window op ctx' out.
Proof.
  intros Hop Hin Hattr.
  assert (Hbody : convPool_body ctx false true = convPool_body ctx' false true).
  { pose proof (Hattr "auto_pad" ltac:(unfold pooling_attributes; set_solver)) as H1.
    pose proof (Hattr "group" ltac:(unfold pooling_attributes; set_solver)) as H2.
    pose proof (Hattr "pads" ltac:(unfold pooling_attributes; set_solver)) as H3.
    pose proof (Hattr "strides" ltac:(unfold pooling_attributes; set_solver)) as H4.
    pose proof (Hattr "kernel_shape" ltac:(unfold pooling_attributes; set_solver)) as H5.
    unfold convPool_body, propagateElemTypeFromInputToOutput, hasNInputShapes,
      hasInputShape, getInputShape, getRepeatedAttribute, getAttribute.
    cbn [negb andb]. cbv iota.
    rewrite Hin, H1, H2, H3, H4, H5. reflexivity. }
  unfold infer_sliding_window, convPoolTypeAndShapeInference.
  destruct op; [contradiction| | |];
    cbn [use_dilation_of require_kernel_shape_of]; rewrite Hbody; reflexivity.
Qed.

Lemma pooling_reads_first_input_and_five_attributes_witness :
  infer_sliding_window MaxPool pool_2x2_noise_ctx TypeProto_empty
  = infer_sliding_window MaxPool pool_2x2_ctx TypeProto_empty.
Proof.
  apply (pooling_reads_first_input_and_five_attributes MaxPool
           pool_2x2_noise_ctx pool_2x2_ctx TypeProto_empty).
  - discriminate.
  - reflexivity.
  - intros name Hname. unfold pooling_attributes in Hname.
    rewrite !elem_of_cons, elem_of_nil in Hname.
    destruct Hname as [->|[->|[->|[->|[->|[]]]]]]; reflexivity.
Defined.


(** ** ConvTranspose and global pooling: no error is ever raised *)

Section NeverThrows.

Context {A B : Type}.

Lemma never_throws_straight (m : M A) : straight m -> never_throws m.
Proof.
  intros Hm out msg H. destruct (Hm out) as [[a Ha]|Hu]; congruence.
Qed.

Lemma never_throws_return : never_throws (@return_ A).
Proof. intros out msg. discriminate. Qed.

Lemma never_throws_bind (m : M A) (k : A -> M B) :
  never_throws m -> (forall a, never_throws (k a)) -> never_throws (bind m k).
Proof.
  intros Hm Hk out msg. unfold bind. specialize (Hm out).
  destruct (m out) as [[a| |msg'|] out']; simpl in *;
    [apply Hk|discriminate|exfalso; exact (Hm msg' eq_refl)|discriminate].
Qed.

End NeverThrows.

Lemma never_throws_when c m : never_throws m -> never_throws (when c m).
Proof.
  intros Hm. destruct c; [exact Hm|apply never_throws_straight, straight_ret].
Qed.

Lemma never_throws_for body : (forall i, never_throws (body i)) ->
  forall count from, never_throws (for_ from count body).
Proof.
  intros Hbody. induction count as [|count IH]; intros from; simpl.
  - apply never_throws_straight, straight_ret.
  - apply never_throws_bind; [apply Hbody|intros _; apply IH].
Qed.

Lemma straight_assign_dim p d : straight (assign_dim p d).
Proof. intros out. left. eexists. reflexivity. Qed.

Lemma straight_add_dim_copy d : straight (add_dim_copy d).
Proof.
  apply straight_bind; [apply straight_add_dim|intros p; apply straight_assign_dim].
Qed.

Lemma straight_mutable_shape : straight mutable_shape.
Proof. intros out. left. eexists. reflexivity. Qed.

Lemma straight_getInputShape ctx n : straight (getInputShape ctx n).
Proof.
  unfold getInputShape.
  destruct (inputTypes ctx !! n) as [[ty|]|];
    [apply straight_ret|apply straight_undefined..].
Qed.

Lemma straight_propagate ctx i o :
  straight (propagateElemTypeFromInputToOutput ctx i o).
Proof.
  intros out. left. exists tt. unfold propagateElemTypeFromInputToOutput.
  destruct (inputTypes ctx !! i) as [[ty|]|]; reflexivity.
Qed.

Lemma never_throws_push_back ds : forall acc,
  never_throws (push_back_dim_values ds acc).
Proof.
  induction ds as [|d ds IH]; intros acc; simpl.
  - apply never_throws_straight, straight_ret.
  - destruct (negb (has_dim_value d)); [apply never_throws_return|apply IH].
Qed.

#[local] Hint Resolve straight_assign_dim straight_add_dim_copy
  straight_mutable_shape straight_getInputShape straight_propagate : straight.

Create HintDb never_throws discriminated.

#[local] Hint Resolve never_throws_return never_throws_when never_throws_push_back
  : never_throws.

Ltac never_throws :=
  repeat first
    [ solve [auto with never_throws]
    | solve [apply never_throws_straight; straight]
    | apply never_throws_bind; [|intros ?]
    | apply never_throws_for; intros ?
    | progress cbv zeta
    | match goal with
      | |- never_throws (match ?x with _ => _ end) => destruct x
      end ].

Lemma never_throws_call (m : M unit) out msg :
  never_throws m -> fst (call m out) <> Failed msg.
Proof.
  intros Hm. unfold call. specialize (Hm out).
  destruct (m out) as [[[]| |msg'|] out']; simpl in *; try discriminate.
  exfalso. exact (Hm msg' eq_refl).
Qed.

(** X11.  ConvTranspose and the global pooling operators never raise an
    inference error: whatever the node and the previous state of the output,
    every check of [convTransposeShapeInference] and of
    [gloablPoolTypeShapeInference] that does not pass ends in a plain
    [return], where Conv and the pooling operators fail on the same
    conditions (rank below 2, attributes of the wrong size). *)
Theorem convtranspose_and_globalpool_never_fail (ctx : InferenceContext)
    (out : TypeProto) (msg : string) :
  fst (convTransposeShapeInference ctx out) <> Failed msg /\
  fst (gloablPoolTypeShapeInference ctx out) <> Failed msg.
Proof.
  split; apply never_throws_call.
  - unfold convTranspose_body, convTranspose_given_axis, convTranspose_axis.
    never_throws.
  - unfold gloablPool_body. never_throws.
Qed.

(** ** Global pooling: every input *)

Lemma hasNInputShapes_1_false ctx :
  hasNInputShapes ctx 1 = false ->
  forall ty ds, inputTypes ctx !! 0%nat = Some (Some ty) -> shape ty <> Some ds.
Proof.
  intros H ty ds Hin Hsh. rewrite (hasNInputShapes_1 _ _ _ Hin Hsh) in H.
  discriminate.
Qed.

(** X12.  Global pooling is defined on every node: it never fails and never
    reads out of range.  When the first input has no shape, or a shape of rank
    below 2, it returns with the output shape as it was. *)
Theorem globalpool_always_returns (ctx : InferenceContext) (out : TypeProto) :
  fst (gloablPoolTypeShapeInference ctx out) = Returned /\
  ((forall ty ds, inputTypes ctx !! 0%nat = Some (Some ty) ->
                  shape ty = Some ds -> (length ds < 2)%nat) ->
   gloablPoolTypeShapeInference ctx out = (Returned, propagated ctx out)).
Proof.
  unfold gloablPoolTypeShapeInference, call, gloablPool_body.
  rewrite (bind_run _ _ _ _ _ (propagate_run _ _)).
  early_return; [split; reflexivity|]. apply negb_false_iff in Eguard.
  destruct (hasNInputShapes_1_inv _ Eguard) as (ty & ds & Hin & Hsh).
  rewrite (getInputShape_known _ _ _ _ Hin Hsh).
  early_return; [split; reflexivity|].
  apply bool_decide_eq_false in Eguard0.
  destruct ds as [|n [|c spatial]]; [simpl in Eguard0; lia..|].
  cbn [dim_at lookup list_lookup]. run.
  rewrite add_dim_copy_bind. run. cbn [dim_at lookup list_lookup]. run.
  rewrite add_dim_copy_bind. cbn [elem_type shape default].
  rewrite for_ones. split; [reflexivity|].
  intros Hlow. specialize (Hlow _ _ Hin Hsh). simpl in Hlow. lia.
Qed.

(** X13.  Global pooling does not start from an empty output shape: the
    dimensions (N, C, 1, ..., 1) are appended to whatever shape the output
    already holds.  (Inferring twice into the same output therefore gives a
    shape twice as long.) *)
Theorem globalpool_appends (ctx : InferenceContext) (ty : TypeProto)
    (n c : Dimension) (spatial : list Dimension) (out : TypeProto) :
  inputTypes ctx !! 0%nat = Some (Some ty) ->
  shape ty = Some (n :: c :: spatial) ->
  gloablPoolTypeShapeInference ctx out
  = (Returned,
     mkType (elem_type ty)
       (Some (default [] (shape out)
              ++ n :: c :: replicate (length spatial) (DimValue 1)))).
Proof.
  intros Hin Hsh.
  unfold gloablPoolTypeShapeInference, call, gloablPool_body.
  rewrite (bind_run _ _ _ _ _ (propagate_known _ _ _ Hin)).
  rewrite (hasNInputShapes_1 _ _ _ Hin Hsh), (getInputShape_known _ _ _ _ Hin Hsh).
  run. rewrite (bool_decide_eq_false_2 (length (n :: c :: spatial) < 2)%nat)
    by (simpl; lia).
  run. cbn [dim_at lookup list_lookup]. run.
  rewrite add_dim_copy_bind. run. cbn [dim_at lookup list_lookup]. run.
  rewrite add_dim_copy_bind. cbn [elem_type shape default].
  rewrite for_ones, spatial_rank. unfold id. rewrite <- !app_assoc. reflexivity.
Qed.

Lemma globalpool_appends_witness :
  gloablPoolTypeShapeInference bare_pool_ctx
    (snd (gloablPoolTypeShapeInference bare_pool_ctx TypeProto_empty))
  = (Returned,
     mkType FLOAT (Some (known [1; 3; 1; 1; 1; 3; 1; 1]))).
Proof.
  apply (globalpool_appends bare_pool_ctx
           (mkType FLOAT (Some (known [1; 3; 5; 7])))
           (DimValue 1) (DimValue 3) (known [5; 7])
           (snd (gloablPoolTypeShapeInference bare_pool_ctx TypeProto_empty))).
  - reflexivity.
  - reflexivity.
Defined.


Lemma globalpool_always_returns_witness :
  gloablPoolTypeShapeInference vector_ctx TypeProto_empty
  = (Returned, mkType FLOAT None).
Proof.
  apply (proj2 (globalpool_always_returns vector_ctx TypeProto_empty)).
  intros ty ds Hin Hsh. simpl in Hin. injection Hin as <-.
  simpl in Hsh. injection Hsh as <-. simpl. lia.
Defined.

(** ** ConvTranspose: unknown input dimensions *)






(** ** ConvTranspose: skips and reads out of range *)

(** X15.  ConvTranspose returns without error, and leaves the output shape
    as it was, when one of the two input shapes is missing, when the first
    input has rank below 2 (where Conv fails), or when the attribute
    kernel_shape is absent and a dimension of the weights after the first two
    is not a known number. *)
Theorem convtranspose_missing_information_skips (ctx : InferenceContext)
    (out : TypeProto) :
  hasNInputShapes ctx 2 = false \/
  (exists ty0 ds0, inputTypes ctx !! 0%nat = Some (Some ty0) /\
                   shape ty0 = Some ds0 /\ (length ds0 < 2)%nat) \/
  (getRepeatedAttribute ctx "kernel_shape" = None /\
   exists ws, second_input_dims ctx = Some ws /\ known_values (drop 2 ws) = None) ->
  convTransposeShapeInference ctx out = (Returned, propagated ctx out).
Proof.
  intros H.
  unfold convTransposeShapeInference, call, convTranspose_body.
  rewrite (bind_run _ _ _ _ _ (propagate_run _ _)).
  early_return; [reflexivity|]. apply negb_false_iff in Eguard.
  destruct (hasNInputShapes_2_inv _ Eguard)
    as (ty0 & ds0 & ty1 & ds1 & Hin & Hsh & Hin1 & Hsh1).
  early_return; [reflexivity|].
  rewrite (getInputShape_known _ _ _ _ Hin Hsh), (getInputShape_known _ _ _ _ Hin1 Hsh1).
  early_return; [reflexivity|]. apply bool_decide_eq_false in Eguard1.
  early_return; [reflexivity|]. early_return; [reflexivity|].
  destruct H as [H|[(ty0' & ds0' & Hin' & Hsh' & Hlen)|(Hkattr & ws & Hws & Hunknown)]].
  - rewrite H in Eguard. discriminate.
  - rewrite Hin in Hin'. injection Hin' as <-. rewrite Hsh in Hsh'.
    injection Hsh' as <-. contradiction.
  - unfold second_input_dims in Hws. rewrite Hin1, Hsh1 in Hws. injection Hws as <-.
    rewrite Hkattr.
    attribute_stage "pads"; [|reflexivity|];
    (attribute_stage "strides"; [|reflexivity|]);
    rewrite (bind_run _ _ _ _ _ (unknown_values_push _ _ _ Hunknown));
    reflexivity.
Qed.

Lemma convtranspose_missing_information_skips_witness :
  convTransposeShapeInference convtranspose_symbolic_kernel_ctx TypeProto_empty
  = (Returned, mkType FLOAT None).
Proof.
  apply (convtranspose_missing_information_skips
           convtranspose_symbolic_kernel_ctx TypeProto_empty).
  right. right. split; [reflexivity|].
  exists [DimValue 2; DimValue 4; DimValue 3; DimParam "kW"].
  split; reflexivity.
Defined.

(** X16.  ConvTranspose takes the channel dimension of its output from
    dimension 1 of the weights without looking at their rank (Conv checks the
    rank of the weights before it reads their dimension 0).  With weights of
    rank below 2 and every other check passed, the read is out of range: the
    behaviour is undefined, and the batch dimension has already been written. *)
Theorem convtranspose_weights_rank_below_2 (ctx : InferenceContext)
    (ty0 : TypeProto) (n c : Dimension) (spatial ws : list Dimension)
    (out : TypeProto) :
  inputTypes ctx !! 0%nat = Some (Some ty0) ->
  shape ty0 = Some (n :: c :: spatial) ->
  second_input_dims ctx = Some ws ->
  (length ws < 2)%nat ->
  ctx_getAttribute ctx "auto_pad" = None ->
  getAttribute ctx "group" 1 = 1 ->
  getRepeatedAttribute ctx "dilations" = None ->
  well_formed ctx "pads" (length spatial * 2) ->
  well_formed ctx "strides" (length spatial) ->
  well_formed ctx "kernel_shape" (length spatial) ->
  well_formed ctx "output_shape" (length spatial) ->
  well_formed ctx "output_padding" (length spatial) ->
  convTransposeShapeInference ctx out
  = (UndefinedBehaviour,
     mkType (elem_type ty0) (Some (default [] (shape out) ++ [n]))).
Proof.
  intros Hin Hsh Hws Hrank Hauto Hgroup Hdil Hpads Hstrides Hkattr Hos Hop.
  destruct (second_input_dims_Some _ _ Hws) as (ty1 & Hin1 & Hsh1).
  unfold convTransposeShapeInference, call, convTranspose_body.
  rewrite (bind_run _ _ _ _ _ (propagate_known _ _ _ Hin)).
  rewrite (hasNInputShapes_2 _ _ _ _ _ Hin Hsh Hin1 Hsh1).
  rewrite (getInputShape_known _ _ _ _ Hin Hsh), (getInputShape_known _ _ _ _ Hin1 Hsh1).
  rewrite (no_attribute_check _ _ Hauto), Hgroup, Hdil.
  run. rewrite (bool_decide_eq_false_2 (length (n :: c :: spatial) < 2)%nat)
    by (simpl; lia).
  change (1 =? 1) with true.
  rewrite (bool_decide_eq_false_2 (is_Some (@None (list Z))))
    by (intros [? ?]; discriminate).
  run. rewrite !spatial_rank.
  rewrite (checked_attribute _ _ _ _ _ _ _ Hpads).
  rewrite (checked_attribute _ _ _ _ _ _ _ Hstrides).
  assert (Hdrop : drop 2 ws = []) by (apply drop_ge; lia).
  assert (Hnone : ws !! 1%nat = None) by (apply lookup_ge_None_2; lia).
  assert (Hend : forall output_shape kernel_shape output_padding pads strides out',
    (mutable_shape ;;
     d0 <- dim_at (n :: c :: spatial) 0 ;; add_dim_copy d0 ;;
     second_input_shape <- ret ws ;;
     c1 <- dim_at second_input_shape 1 ;; add_dim_copy c1 ;;
     convTranspose_output (n :: c :: spatial) pads strides kernel_shape
       output_shape output_padding) out'
    = (Undefined, mkType (elem_type out') (Some (default [] (shape out') ++ [n])))).
  { intros. run. cbn [dim_at lookup list_lookup]. run.
    rewrite add_dim_copy_bind. run. unfold dim_at. rewrite Hnone. reflexivity. }
  unfold convTranspose_output in Hend.
  assert (Ho : forall B (k : list Z -> M B) out',
    bind (match getRepeatedAttribute ctx "output_shape" with
          | Some output_shape =>
              when (negb (bool_decide (length output_shape = length spatial)))
                return_ ;;
              ret output_shape
          | None => ret []
          end) k out' = k (default [] (getRepeatedAttribute ctx "output_shape")) out').
  { intros B k out'.
    destruct (getRepeatedAttribute ctx "output_shape") as [os|] eqn:Eos;
      [|reflexivity].
    rewrite bool_decide_eq_true_2 by (apply Hos; exact Eos). reflexivity. }
  destruct (getRepeatedAttribute ctx "kernel_shape") as [k0|] eqn:Ek.
  - rewrite (bool_decide_eq_true_2 (length k0 = length spatial)) 
      by (apply Hkattr; exact Ek).
    run. rewrite Ho. rewrite (checked_attribute _ _ _ _ _ _ _ Hop).
    rewrite Hend. destruct (shape out); reflexivity.
  - run. rewrite Hdrop. cbn [push_back_dim_values]. run.
    rewrite Ho. rewrite (checked_attribute _ _ _ _ _ _ _ Hop).
    rewrite Hend. destruct (shape out); reflexivity.
Qed.

Lemma convtranspose_weights_rank_below_2_witness :
  convTransposeShapeInference convtranspose_vector_weights_ctx TypeProto_empty
  = (UndefinedBehaviour, mkType FLOAT (Some [DimValue 1])).
Proof.
  apply (convtranspose_weights_rank_below_2 convtranspose_vector_weights_ctx
           (mkType FLOAT (Some (known [1; 2; 3; 3])))
           (DimValue 1) (DimValue 2) (known [3; 3]) (known [2]) TypeProto_empty).
  - reflexivity.
  - reflexivity.
  - reflexivity.
  - simpl. lia.
  - reflexivity.
  - reflexivity.
  - reflexivity.
  - concrete_well_formed.
  - concrete_well_formed.
  - concrete_well_formed.
  - concrete_well_formed.
  - concrete_well_formed.
Defined.


(** ** Conv after ConvTranspose *)

(** The output of ConvTranspose past its checks on known input dimensions,
    without an explicit output shape. *)
Lemma convTranspose_known_runs ctx ty0 n c m ch xs kernel :
  convTranspose_ready ctx ty0 n c (DimValue <$> xs) m ch kernel ->
  getRepeatedAttribute ctx "output_shape" = None ->
  length kernel = length xs ->
  (forall i, (i < length xs)%nat ->
     Int64.fits (convtranspose_axis_dim xs
                   (attr_or_default ctx "pads" (length xs * 2) 0)
                   (attr_or_default ctx "strides" (length xs) 1) kernel
                   (attr_or_default ctx "output_padding" (length xs) 0) i)) ->
  convTransposeShapeInference ctx TypeProto_empty
  = (Returned,
     mkType (elem_type ty0)
       (Some (n :: ch ::
              (DimValue <$>
                 (convtranspose_axis_dim xs
                    (attr_or_default ctx "pads" (length xs * 2) 0)
                    (attr_or_default ctx "strides" (length xs) 1) kernel
                    (attr_or_default ctx "output_padding" (length xs) 0)
                  <$> seq 0 (length xs)))))).
Proof.
  intros Hready Hos Hklen Hfits.
  rewrite (convTranspose_reaches_output _ _ _ _ _ _ _ _ Hready).
  rewrite Hos, length_fmap. cbn [default].
  unfold convTranspose_output, call. cbn [length].
  rewrite (bool_decide_eq_false_2 (0 < 0)%nat) by lia.
  destruct Hready as [_ _ _ _ _ _ Hpads Hstrides _ _ _ Hop].
  rewrite length_fmap in Hpads, Hstrides, Hop.
  rewrite (convTranspose_loop (elem_type ty0) n c xs);
    rewrite ?well_formed_length; auto.
  rewrite Hklen, <- list_fmap_compose. reflexivity.
Qed.

Lemma conv_undoes_convtranspose_axis s x op k pb pa :
  1 <= x -> 0 <= op < s ->
  sliding_window_dim_trunc (convtranspose_dim s x op k pb pa) pb pa k 1 s = x.
Proof.
  intros Hx Hop.
  unfold sliding_window_dim_trunc, window_positions, effective_kernel,
    convtranspose_dim.
  replace (s * (x - 1) + op + k - pb - pa + pb + pa - ((k - 1) * 1 + 1))
    with (op + (x - 1) * s) by ring.
  assert (Hnonneg : 0 <= (x - 1) * s) by (apply Z.mul_nonneg_nonneg; lia).
  rewrite Z.quot_add; [|lia|apply Z.mul_nonneg_nonneg; lia].
  rewrite Z.quot_small by lia. lia.
Qed.

(** X17.  Conv applied to what ConvTranspose infers restores the spatial
    dimensions ConvTranspose started from: take ConvTranspose past its checks
    on known input dimensions of at least 1, without an explicit output shape
    and with an output padding below the stride on every axis, and a Conv node
    past its checks whose first input is the inferred output of that
    ConvTranspose, with the same kernel shape, pads and strides and with
    dilation 1.  Then the spatial dimensions Conv infers are those of the
    input of ConvTranspose (the values have to fit int64). *)
Theorem conv_inverts_convtranspose (ctxT ctxC : InferenceContext)
    (tyT : TypeProto) (n c m ch nC cC chC : Dimension) (xs : list Z)
    (spatialC : list Dimension) (kernel : list Z) :
  let pads := attr_or_default ctxT "pads" (length xs * 2) 0 in
  let strides := attr_or_default ctxT "strides" (length xs) 1 in
  let output_padding := attr_or_default ctxT "output_padding" (length xs) 0 in
  convTranspose_ready ctxT tyT n c (DimValue <$> xs) m ch kernel ->
  getRepeatedAttribute ctxT "output_shape" = None ->
  length kernel = length xs ->
  sliding_window_ready Conv ctxC
    (snd (convTransposeShapeInference ctxT TypeProto_empty))
    nC cC spatialC chC kernel ->
  attr_or_default ctxC "pads" (length xs * 2) 0 = pads ->
  attr_or_default ctxC "strides" (length xs) 1 = strides ->
  attr_or_default ctxC "dilations" (length xs) 1 = replicate (length xs) 1 ->
  (forall i, (i < length xs)%nat ->
     1 <= xs !!! i /\
     0 <= output_padding !!! i < strides !!! i /\
     strides !!! i * xs !!! i <= Int64.max_signed /\
     Int64.fits (convtranspose_axis_dim xs pads strides kernel output_padding i)) ->
  infer_sliding_window Conv ctxC TypeProto_empty
  = (Returned, mkType (elem_type tyT) (Some (n :: chC :: (DimValue <$> xs)))).
Proof.
  intros pads strides output_padding HreadyT Hos Hklen HreadyC Hpads Hstrides
    Hdil Haxes.
  rewrite (convTranspose_known_runs _ _ _ _ _ _ _ _ HreadyT Hos Hklen) in HreadyC
    by (intros i Hi; apply (Haxes i Hi)).
  cbn [snd] in HreadyC. fold pads strides output_padding in HreadyC.
  set (ys := convtranspose_axis_dim xs pads strides kernel output_padding
               <$> seq 0 (length xs)) in *.
  assert (Hylen : length ys = length xs).
  { unfold ys. rewrite length_fmap, length_seq. reflexivity. }
  assert (Hy : forall i, (i < length xs)%nat ->
            ys !!! i = convtranspose_axis_dim xs pads strides kernel output_padding i).
  { intros i Hi. apply list_lookup_total_correct. unfold ys.
    rewrite list_lookup_fmap, lookup_seq_lt by lia. reflexivity. }
  pose proof (sw_shape _ _ _ _ _ _ _ _ HreadyC) as Hshape.
  cbn [shape] in Hshape. injection Hshape as <- <- <-.
  assert (Haxis : forall i, (i < length xs)%nat ->
    sliding_window_dim_trunc (ys !!! i) (pads !!! i)
      (pads !!! (i + length kernel)%nat) (kernel !!! i) 1 (strides !!! i)
    = xs !!! i
    /\ axis_defined (ys !!! i) (pads !!! i) (pads !!! (i + length kernel)%nat)
         (kernel !!! i) 1 (strides !!! i)).
  { intros i Hi. destruct (Haxes i Hi) as (Hx & Hop & Hsx & Hfits).
    rewrite (Hy i Hi). unfold convtranspose_axis_dim.
    pose proof (conv_undoes_convtranspose_axis (strides !!! i) (xs !!! i)
                  (output_padding !!! i) (kernel !!! i) (pads !!! i)
                  (pads !!! (i + length kernel)%nat) Hx Hop) as Hround.
    split; [exact Hround|].
    unfold axis_defined. rewrite Hround.
    unfold window_positions, effective_kernel, convtranspose_dim,
      Int64.fits, Int64.min_signed, Int64.max_signed in *.
    repeat split; nia. }
  rewrite (sliding_window_runs Conv ctxC _ _ _ _ _ _ HreadyC);
    rewrite !length_fmap, ?Hylen, ?Hklen.
  - cbn [resolved_dilations use_dilation_of elem_type].
    rewrite Hpads, Hstrides, Hdil.
    do 5 f_equal. apply list_eq. intros i.
    rewrite !list_lookup_fmap.
    destruct (decide (i < length xs)%nat) as [Hi|Hi].
    + rewrite lookup_seq_lt by lia. simpl.
      rewrite (list_lookup_lookup_total_lt xs i Hi). simpl.
      unfold sliding_window_axis.
      rewrite (known_lookup_total ys i) by lia.
      cbn [has_dim_value dim_value].
      rewrite (lookup_total_replicate_2 (length xs) 1 i Hi).
      do 2 f_equal. apply Haxis. exact Hi.
    + rewrite lookup_seq_ge by lia. rewrite lookup_ge_None_2 by lia. reflexivity.
  - lia.
  - cbn [resolved_dilations use_dilation_of].
    rewrite Hpads, Hstrides, Hdil.
    intros i Hi _. rewrite (known_lookup_total ys i) by lia.
    cbn [dim_value]. rewrite (lookup_total_replicate_2 (length xs) 1 i Hi).
    apply Haxis. exact Hi.
Qed.

(** ConvTranspose with stride 2, padding 1 and output padding 1 turns
    (1, 2, 3, 3) into (1, 4, 6, 6); Conv with the same 3x3 kernel, stride and
    padding turns that into (1, 2, 3, 3). *)
Lemma conv_inverts_convtranspose_witness :
  infer_sliding_window Conv roundtrip_conv_ctx TypeProto_empty
  = (Returned, mkType FLOAT (Some (known [1; 2; 3; 3]))).
Proof.
  apply (conv_inverts_convtranspose
           (convtranspose_ctx strided_attributes (known [3; 3])) roundtrip_conv_ctx
           (mkType FLOAT (Some (known [1; 2; 3; 3])))
           (DimValue 1) (DimValue 2) (DimValue 2) (DimValue 4)
           (DimValue 1) (DimValue 4) (DimValue 2) [3; 3] (known [6; 6]) [3; 3]).
  - apply (convtranspose_ctx_ready strided_attributes (known [3; 3]));
      try reflexivity; concrete_well_formed.
  - reflexivity.
  - reflexivity.
  - concrete_ready.
  - reflexivity.
  - reflexivity.
  - reflexivity.
  - intros i Hi. destruct i as [|[|i]]; [| |simpl in Hi; lia];
      vm_compute; repeat split; intros; discriminate.
Defined.


(** ** MaxRoiPool: skips and reads out of range *)

(** X18.  MaxRoiPool returns without error, and leaves the output shape as
    it was, when the shape of the first input or of the rois is missing. *)
Theorem roipool_missing_shape_skips (ctx : InferenceContext) (out : TypeProto) :
  hasNInputShapes ctx 2 = false ->
  roiPoolTypeShapeInference ctx out = (Returned, propagated ctx out).
Proof.
  intros H.
  unfold roiPoolTypeShapeInference, call, roiPool_body.
  rewrite (bind_run _ _ _ _ _ (propagate_run _ _)), H. reflexivity.
Qed.

Lemma roipool_missing_shape_skips_witness :
  roiPoolTypeShapeInference bare_pool_ctx TypeProto_empty
  = (Returned, mkType FLOAT None).
Proof.
  apply (roipool_missing_shape_skips bare_pool_ctx TypeProto_empty).
  reflexivity.
Defined.

(** X19.  MaxRoiPool compares the length of pooled_shape with the spatial
    rank of the first input and then reads its entries 0 and 1 whatever that
    rank is.  For a first input of rank 2 or 3 the only pooled_shape that
    passes the check has fewer than two entries, and the read is out of
    range: the behaviour is undefined. *)
Theorem roipool_short_pooled_shape_undefined (ctx : InferenceContext)
    (ty0 ty1 : TypeProto) (n c r0 r1 : Dimension) (spatial : list Dimension)
    (pooled_shape : list Z) (out : TypeProto) :
  inputTypes ctx !! 0%nat = Some (Some ty0) ->
  shape ty0 = Some (n :: c :: spatial) ->
  inputTypes ctx !! 1%nat = Some (Some ty1) ->
  shape ty1 = Some [r0; r1] ->
  getRepeatedAttribute ctx "pooled_shape" = Some pooled_shape ->
  length pooled_shape = length spatial ->
  (length spatial < 2)%nat ->
  fst (roiPoolTypeShapeInference ctx out) = UndefinedBehaviour.
Proof.
  intros Hin Hsh Hin1 Hsh1 Hattr Hlen Hshort.
  unfold roiPoolTypeShapeInference. apply call_undefined.
  unfold roiPool_body.
  rewrite (bind_run _ _ _ _ _ (propagate_known _ _ _ Hin)).
  rewrite (hasNInputShapes_2 _ _ _ _ _ Hin Hsh Hin1 Hsh1).
  rewrite (getInputShape_known _ _ _ _ Hin Hsh), (getInputShape_known _ _ _ _ Hin1 Hsh1).
  rewrite Hattr. run.
  rewrite (bool_decide_eq_false_2 (length (n :: c :: spatial) < 2)%nat)
    by (simpl; lia).
  rewrite (bool_decide_eq_true_2 (length [r0; r1] = 2%nat)) by reflexivity.
  run. rewrite spatial_rank.
  rewrite (bool_decide_eq_true_2 (length pooled_shape = length spatial) Hlen).
  run. cbn [dim_at lookup list_lookup]. run.
  rewrite add_dim_copy_bind. run. cbn [dim_at lookup list_lookup]. run.
  rewrite add_dim_copy_bind. run.
  destruct pooled_shape as [|p0 [|p1 prest]].
  - reflexivity.
  - reflexivity.
  - simpl in Hlen. lia.
Qed.

Lemma roipool_short_pooled_shape_undefined_witness :
  fst (roiPoolTypeShapeInference roi_short_ctx TypeProto_empty)
  = UndefinedBehaviour.
Proof.
  apply (roipool_short_pooled_shape_undefined roi_short_ctx
           (mkType FLOAT (Some (known [1; 3; 8])))
           (mkType FLOAT (Some [DimParam "num_rois"; DimValue 5]))
           (DimValue 1) (DimValue 3) (DimParam "num_rois") (DimValue 5)
           (known [8]) [7] TypeProto_empty).
  - reflexivity.
  - reflexivity.
  - reflexivity.
  - reflexivity.
  - reflexivity.
  - reflexivity.
  - simpl. lia.
Defined.

(** ** A missing first shape, and the width of the axis of Flatten *)

(** X20.  Every inference function of the file (conv/pool for every choice
    of its two flags, MaxRoiPool, ConvTranspose, global pooling, Flatten)
    returns without error, and leaves the output shape as it was, when the
    first input has no shape: no attribute is looked at, however invalid. *)
Theorem missing_first_input_shape_skips (f : InferenceFunction)
    (ctx : InferenceContext) (out : TypeProto) :
  hasInputShape ctx 0 = false ->
  infer f ctx out = (Returned, propagated ctx out).
Proof.
  intros H.
  assert (H1 : hasNInputShapes ctx 1 = false)
    by (cbn [hasNInputShapes]; rewrite H; reflexivity).
  assert (H2 : hasNInputShapes ctx 2 = false)
    by (cbn [hasNInputShapes]; rewrite H; reflexivity).
  rewrite infer_call. unfold call.
  destruct f; cbn [body_of];
    [unfold convPool_body|unfold roiPool_body|unfold convTranspose_body
    |unfold gloablPool_body|unfold Flatten_body];
    rewrite (bind_run _ _ _ _ _ (propagate_run _ _)), ?H, ?H1, ?H2; reflexivity.
Qed.

(** Flatten with axis = -1 on an input without shape. *)
Lemma missing_first_input_shape_skips_witness :
  infer FlattenInference
    (mkCtx (<["axis" := INT (-1)]> ∅) [Some (mkType FLOAT None)]) TypeProto_empty
  = (Returned, mkType FLOAT None).
Proof.
  apply (missing_first_input_shape_skips FlattenInference
           (mkCtx (<["axis" := INT (-1)]> ∅) [Some (mkType FLOAT None)])
           TypeProto_empty).
  reflexivity.
Defined.

Lemma static_cast_int_periodic (z k : Z) :
  static_cast_int (z + k * 2 ^ 32) = static_cast_int z.
Proof.
  unfold static_cast_int.
  replace (z + k * 2 ^ 32 + 2 ^ 31) with (z + 2 ^ 31 + k * 2 ^ 32) by ring.
  rewrite Z_mod_plus_full. reflexivity.
Qed.

(** X21.  Flatten reads the 64-bit attribute axis through a cast to int:
    two nodes whose axis attributes differ by a multiple of 2^32, and that
    agree otherwise, get the same result, error message included.  An axis of
    2^32 + 1 is accepted as axis 1. *)
Theorem flatten_axis_modulo_2_32 (attrs : gmap string AttributeProto)
    (inputs : list (option TypeProto)) (axis k : Z) (out : TypeProto) :
  Flatten_TypeAndShapeInferenceFunction
    (mkCtx (<["axis" := INT (axis + k * 2 ^ 32)]> attrs) inputs) out
  = Flatten_TypeAndShapeInferenceFunction
      (mkCtx (<["axis" := INT axis]> attrs) inputs) out.
Proof.
  unfold Flatten_TypeAndShapeInferenceFunction, Flatten_body, getAttribute,
    ctx_getAttribute, propagateElemTypeFromInputToOutput, hasInputShape,
    getInputShape.
  cbn [attributes inputTypes]. rewrite !lookup_insert_eq.
  rewrite static_cast_int_periodic. reflexivity.
Qed.

(** ** Failures and the output shape *)

Section ThrowsBeforeWriting.

Context {A B : Type}.

Lemma reads_only_ret (a : A) : reads_only (ret a).
Proof. intros out. reflexivity. Qed.

Lemma reads_only_return : reads_only (@return_ A).
Proof. intros out. reflexivity. Qed.

Lemma reads_only_undefined : reads_only (@undefined A).
Proof. intros out. reflexivity. Qed.

Lemma reads_only_fail msg : reads_only (@fail_shape_inference A msg).
Proof. intros out. reflexivity. Qed.

Lemma reads_only_bind (m : M A) (k : A -> M B) :
  reads_only m -> (forall a, reads_only (k a)) -> reads_only (bind m k).
Proof.
  intros Hm Hk out. unfold bind. specialize (Hm out).
  destruct (m out) as [[a| | |] out']; simpl in *; subst out'; try reflexivity.
  apply Hk.
Qed.

Lemma throws_before_writing_reads_only (m : M A) :
  reads_only m -> throws_before_writing m.
Proof. intros Hm out msg _. apply Hm. Qed.

Lemma throws_before_writing_never_throws (m : M A) :
  never_throws m -> throws_before_writing m.
Proof. intros Hm out msg H. exfalso. exact (Hm out msg H). Qed.

Lemma throws_before_writing_bind (m : M A) (k : A -> M B) :
  reads_only m -> (forall a, throws_before_writing (k a)) ->
  throws_before_writing (bind m k).
Proof.
  intros Hm Hk out msg. unfold bind. specialize (Hm out).
  destruct (m out) as [[a| | |] out']; simpl in *; subst out';
    try reflexivity.
  apply Hk.
Qed.

End ThrowsBeforeWriting.

Lemma reads_only_when c m : reads_only m -> reads_only (when c m).
Proof. intros Hm. destruct c; [exact Hm|apply reads_only_ret]. Qed.

Lemma reads_only_vec_at v i : reads_only (vec_at v i).
Proof.
  unfold vec_at. destruct (v !! i); [apply reads_only_ret|apply reads_only_undefined].
Qed.

Lemma reads_only_dim_at s i : reads_only (dim_at s i).
Proof.
  unfold dim_at. destruct (s !! i); [apply reads_only_ret|apply reads_only_undefined].
Qed.

Lemma reads_only_getInputShape ctx n : reads_only (getInputShape ctx n).
Proof.
  unfold getInputShape.
  destruct (inputTypes ctx !! n) as [[ty|]|];
    [apply reads_only_ret|apply reads_only_undefined..].
Qed.

Lemma reads_only_push_back ds : forall acc, reads_only (push_back_dim_values ds acc).
Proof.
  induction ds as [|d ds IH]; intros acc; simpl.
  - apply reads_only_ret.
  - destruct (negb (has_dim_value d)); [apply reads_only_return|apply IH].
Qed.

Lemma straight_updateOutputShape dims : straight (updateOutputShape dims).
Proof.
  unfold updateOutputShape.
  apply straight_bind; [apply straight_mutable_shape|intros _].
  induction dims as [|d dims IH]; simpl.
  - apply straight_ret.
  - apply straight_bind; [apply straight_add_dim_copy|intros _; exact IH].
Qed.

Create HintDb reads_only discriminated.

#[local] Hint Resolve reads_only_ret reads_only_return reads_only_undefined
  reads_only_fail reads_only_when reads_only_vec_at reads_only_dim_at
  reads_only_getInputShape reads_only_push_back : reads_only.

#[local] Hint Resolve straight_updateOutputShape : straight.

Ltac reads_only :=
  repeat first
    [ solve [auto with reads_only]
    | apply reads_only_bind; [|intros ?]
    | progress cbv beta iota zeta
    | match goal with
      | |- reads_only (match ?x with _ => _ end) => destruct x
      end ].

Ltac throws_before_writing :=
  repeat first
    [ solve [apply throws_before_writing_reads_only; reads_only]
    | solve [apply throws_before_writing_never_throws; never_throws]
    | apply throws_before_writing_bind; [solve [reads_only]|intros ?]
    | progress cbv beta iota zeta
    | match goal with
      | |- throws_before_writing (match ?x with _ => _ end) => destruct x
      end ].

Lemma call_throws_before_writing ctx (k : unit -> M unit) out msg :
  throws_before_writing (k tt) ->
  fst (call (bind (propagateElemTypeFromInputToOutput ctx 0 0) k) out) = Failed msg ->
  snd (call (bind (propagateElemTypeFromInputToOutput ctx 0 0) k) out)
  = propagated ctx out.
Proof.
  intros Hk. rewrite call_state. unfold call.
  rewrite (bind_run _ _ _ _ _ (propagate_run _ _)).
  specialize (Hk (propagated ctx out)).
  destruct (k tt (propagated ctx out)) as [[[]| |msg'|] out']; simpl in *;
    try discriminate.
  intros _. apply (Hk msg'). reflexivity.
Qed.

(** X22.  Every inference function of the file except the one of Conv fails
    before it writes: when the pooling operators, MaxRoiPool or Flatten raise
    an inference error, the output shape is what it was before the call (the
    element type has been propagated), because every
    [fail_shape_inference] comes before the first [add_dim].  ConvTranspose
    and global pooling never fail.  Conv is the exception: its check of the
    rank of the weights comes after the batch dimension has been added. *)
Theorem failure_leaves_shape_untouched (f : InferenceFunction)
    (ctx : InferenceContext) (out : TypeProto) (msg : string) :
  (forall use_dilation, f <> ConvPoolInference use_dilation false) ->
  fst (infer f ctx out) = Failed msg ->
  snd (infer f ctx out) = propagated ctx out.
Proof.
  intros Hf. rewrite infer_call.
  destruct f as [use_dilation [|]| | | |]; cbn [body_of].
  - unfold convPool_body. apply call_throws_before_writing.
    throws_before_writing.
  - exfalso. exact (Hf use_dilation eq_refl).
  - unfold roiPool_body. apply call_throws_before_writing.
    throws_before_writing.
  - unfold convTranspose_body. apply call_throws_before_writing.
    apply throws_before_writing_never_throws.
    unfold convTranspose_given_axis, convTranspose_axis. never_throws.
  - unfold gloablPool_body. apply call_throws_before_writing.
    apply throws_before_writing_never_throws. never_throws.
  - unfold Flatten_body. apply call_throws_before_writing.
    throws_before_writing.
Qed.

(** MaxPool without kernel_shape fails and leaves a previous output shape
    untouched. *)
Lemma failure_leaves_shape_untouched_witness :
  snd (infer (ConvPoolInference false true) bare_pool_ctx
         (mkType 0 (Some (known [9]))))
  = mkType FLOAT (Some (known [9])).
Proof.
  apply (failure_leaves_shape_untouched (ConvPoolInference false true)
           bare_pool_ctx (mkType 0 (Some (known [9])))
           "Attribute kernel_shape must be specified").
  - intros use_dilation H. discriminate.
  - reflexivity.
Defined.


(** ** Sliding-window operators: a stride of 0 *)

Lemma convPool_axis_zero_stride input_shape dilations pads strides kernel_shape
    i x out :
  input_shape !! (2 + i)%nat = Some (DimValue x) ->
  strides !! i = Some 0 ->
  fst (convPool_axis input_shape dilations pads strides kernel_shape i out)
  = Undefined.
Proof.
  intros Hx Hs. unfold convPool_axis. cbv zeta.
  rewrite (bind_run _ _ _ _ _ eq_refl : bind add_dim _ out = _).
  rewrite (dim_at_Some _ _ _ Hx). run. cbn [has_dim_value dim_value negb].
  rewrite (vec_at_Some _ _ _ Hs).
  unfold vec_at.
  destruct (pads !! i); run; [|reflexivity].
  destruct (pads !! (i + length kernel_shape)%nat); run; [|reflexivity].
  destruct (kernel_shape !! i); run; [|reflexivity].
  destruct (dilations !! i); run; [|reflexivity].
  reflexivity.
Qed.

(** X23.  The strides are not checked for 0.  A sliding-window operator past
    its checks, with a stride of 0 on an axis that is computed (the input
    dimension is known), divides by zero: the behaviour is undefined. *)
Theorem sliding_window_zero_stride_undefined (op : SlidingWindowOp)
    (ctx : InferenceContext) (ty0 : TypeProto) (n c ch : Dimension)
    (spatial : list Dimension) (kernel : list Z) (i : nat) (x : Z) :
  sliding_window_ready op ctx ty0 n c spatial ch kernel ->
  (i < length kernel)%nat ->
  spatial !! i = Some (DimValue x) ->
  attr_or_default ctx "strides" (length spatial) 1 !! i = Some 0 ->
  fst (infer_sliding_window op ctx TypeProto_empty) = UndefinedBehaviour.
Proof.
  intros Hready Hi Hx Hs.
  rewrite (sliding_window_reaches_loop _ _ _ _ _ _ _ _ Hready).
  apply call_undefined.
  apply (for_meets_undefined _ i).
  - intros j. apply straight_convPool_axis.
  - intros out. apply (convPool_axis_zero_stride _ _ _ _ _ _ x); assumption.
  - lia.
Qed.

Lemma sliding_window_zero_stride_undefined_witness :
  fst (infer_sliding_window MaxPool zero_stride_ctx TypeProto_empty)
  = UndefinedBehaviour.
Proof.
  apply (sliding_window_zero_stride_undefined MaxPool zero_stride_ctx
           (mkType FLOAT (Some (known [1; 3; 4; 4])))
           (DimValue 1) (DimValue 3) (DimValue 3) (known [4; 4]) [2; 2] 1 4).
  - concrete_ready.
  - simpl. lia.
  - reflexivity.
  - reflexivity.
Defined.

(** ** ConvTranspose: a kernel longer than the input *)

Lemma straight_convTranspose_axis input_shape pads strides kernel_shape
    output_padding i :
  straight (convTranspose_axis input_shape pads strides kernel_shape output_padding i).
Proof. unfold convTranspose_axis. straight. Qed.

Lemma convTranspose_axis_out_of_range input_shape pads strides kernel_shape
    output_padding i out :
  (length input_shape <= 2 + i)%nat ->
  fst (convTranspose_axis input_shape pads strides kernel_shape output_padding i out)
  = Undefined.
Proof.
  intros Hlen. unfold convTranspose_axis, bind, add_dim, dim_at. cbv zeta.
  rewrite (lookup_ge_None_2 input_shape (2 + i)) by lia. reflexivity.
Qed.

(** X24.  Like Conv, ConvTranspose resolves its kernel shape from the
    trailing dimensions of the weights without comparing their number with
    the spatial rank of the input.  Without an explicit output shape and with
    more kernel entries than spatial axes, the loop over the kernel entries
    reads a dimension of the input that does not exist: the behaviour is
    undefined. *)
Theorem convtranspose_kernel_longer_than_input (ctx : InferenceContext)
    (ty0 : TypeProto) (n c m ch : Dimension) (spatial : list Dimension)
    (kernel : list Z) :
  convTranspose_ready ctx ty0 n c spatial m ch kernel ->
  getRepeatedAttribute ctx "output_shape" = None ->
  (length spatial < length kernel)%nat ->
  fst (convTransposeShapeInference ctx TypeProto_empty) = UndefinedBehaviour.
Proof.
  intros Hready Hos Hlong.
  rewrite (convTranspose_reaches_output _ _ _ _ _ _ _ _ Hready).
  apply call_undefined.
  rewrite Hos. unfold convTranspose_output. cbn [default length].
  rewrite (bool_decide_eq_false_2 (0 < 0)%nat) by lia.
  apply (for_meets_undefined _ (length spatial)).
  - intros i. apply straight_convTranspose_axis.
  - intros out. apply convTranspose_axis_out_of_range. simpl. lia.
  - lia.
Qed.

Lemma convtranspose_kernel_longer_than_input_witness :
  fst (convTransposeShapeInference convtranspose_long_kernel_ctx TypeProto_empty)
  = UndefinedBehaviour.
Proof.
  apply (convtranspose_kernel_longer_than_input convtranspose_long_kernel_ctx
           (mkType FLOAT (Some (known [1; 2; 4])))
           (DimValue 1) (DimValue 2) (DimValue 2) (DimValue 4)
           (known [4]) [3; 3]).
  - concrete_ready.
  - reflexivity.
  - simpl. lia.
Defined.
